(** * narcidicontrol: device liveness, licences and subscriptions

    A shallow embedding of the service layer of the application
    (app/services, app/tasks/monitoramento.py with the [get_db] of
    app/database/session.py, app/events/maquina_events.py and the endpoints
    of app/api that the statements need), followed by the properties of the
    specification that were checked against it.

    Conventions of the embedding.
    - A table of the database is a finite map from the primary key [id] to
      the row; an ORM object is the pair of its [id] and its row, and an
      assignment to an attribute followed by [db.commit()] rewrites the row
      stored under that [id].
    - A [datetime] is an integer number of microseconds, a [timedelta] is a
      difference of two of them.  One call of a service reads the clock once:
      the instants returned by the [datetime.utcnow()] calls of one operation
      are taken to be the same instant [now], passed as an argument.
    - The alert functions of app/events/alertas.py send an e-mail and build a
      dictionary; their failures are swallowed there.  A request for an alert
      is recorded in the trace [alertas] of the system.
    - Log lines are not modelled. *)

From Stdlib Require Import ZArith QArith List Lia.
From stdpp Require Import base gmap strings list fin_maps fin_sets.

#[local] Open Scope Z_scope.
#[local] Set Warnings "-clear-no-such-hyp".

(** ** Time *)

Definition datetime := Z.
Definition timedelta := Z.

Definition microseconds_per_day : Z := 86400000000.

(** [timedelta(days=d)] and [timedelta(minutes=m)]. *)
Definition timedelta_days (d : Z) : timedelta := d * microseconds_per_day.
Definition timedelta_minutes (m : Z) : timedelta := m * 60000000.

(** [td.days]: timedelta keeps [0 <= seconds, microseconds], so [days] is the
    floor of the quotient. *)
Definition days (td : timedelta) : Z := td / microseconds_per_day.

(** ** Enumerations (app/models/maquina.py, app/models/licenca.py) *)

Inductive StatusMaquina := ONLINE | OFFLINE | MANUTENCAO | BLOQUEADA.

Inductive TipoLicenca := DEMONSTRACAO | TEMPORARIA | PERPETUA | ASSINATURA.

Inductive StatusLicenca := ATIVA | EXPIRADA | SUSPENSA | CANCELADA | PENDENTE.

Inductive CicloFaturamento := MENSAL | TRIMESTRAL | SEMESTRAL | ANUAL | BIANUAL.

#[global] Instance StatusMaquina_eq_dec : EqDecision StatusMaquina.
Proof. solve_decision. Defined.
#[global] Instance TipoLicenca_eq_dec : EqDecision TipoLicenca.
Proof. solve_decision. Defined.
#[global] Instance StatusLicenca_eq_dec : EqDecision StatusLicenca.
Proof. solve_decision. Defined.
#[global] Instance CicloFaturamento_eq_dec : EqDecision CicloFaturamento.
Proof. solve_decision. Defined.

(** ** Rows

    Only the columns that the modelled services read or write are kept; the
    descriptive columns (names, addresses, hardware, JSON payloads) are left
    out. *)

Module Cliente.
Record t := mk {
  data_expiracao : option datetime
}.
Definition with_data_expiracao (d : option datetime) (c : t) : t :=
  mk d.
End Cliente.

Module Maquina.
Record t := mk {
  cliente_id : Z;
  identificador_unico : string;
  ultima_conexao : option datetime;
  status : StatusMaquina;
  tempo_atividade : Z;
  versao_app : option string
}.
Definition with_status (st : StatusMaquina) (m : t) : t :=
  mk (cliente_id m) (identificador_unico m) (ultima_conexao m) st
     (tempo_atividade m) (versao_app m).
Definition with_ultima_conexao (d : option datetime) (m : t) : t :=
  mk (cliente_id m) (identificador_unico m) d (status m)
     (tempo_atividade m) (versao_app m).
Definition with_tempo_atividade (n : Z) (m : t) : t :=
  mk (cliente_id m) (identificador_unico m) (ultima_conexao m) (status m)
     n (versao_app m).
Definition with_versao_app (v : option string) (m : t) : t :=
  mk (cliente_id m) (identificador_unico m) (ultima_conexao m) (status m)
     (tempo_atividade m) v.
End Maquina.

(** The readings of a heartbeat.  The two percentages that the service
    compares with 90 are validated by the schema to lie in [0, 100], hence
    are finite floats, and a finite float is a rational number. *)
Module MaquinaMetricaBase.
Record t := mk {
  cpu_uso : option Q;
  memoria_uso : option Q;
  disco_uso : option Q;
  temperatura : option Q;
  rede_upload : option Q;
  rede_download : option Q;
  latencia : option Q;
  processos_ativos : option Z
}.
End MaquinaMetricaBase.

Module MaquinaMetrica.
Record t := mk {
  maquina_id : Z;
  leitura : MaquinaMetricaBase.t
}.
End MaquinaMetrica.

Module HeartbeatRequest.
Record t := mk {
  identificador_unico : string;
  status : StatusMaquina;
  metricas : option MaquinaMetricaBase.t;
  versao_app : option string
}.
End HeartbeatRequest.

Module Licenca.
Record t := mk {
  cliente_id : Z;
  maquina_id : option Z;
  chave_licenca : string;
  tipo : TipoLicenca;
  status : StatusLicenca;
  data_ativacao : option datetime;
  data_expiracao : option datetime;
  data_renovacao : option datetime;
  limite_usos : Z;
  usos_atuais : Z
}.
Definition with_status (st : StatusLicenca) (l : t) : t :=
  mk (cliente_id l) (maquina_id l) (chave_licenca l) (tipo l) st
     (data_ativacao l) (data_expiracao l) (data_renovacao l)
     (limite_usos l) (usos_atuais l).
Definition with_maquina_id (m : option Z) (l : t) : t :=
  mk (cliente_id l) m (chave_licenca l) (tipo l) (status l)
     (data_ativacao l) (data_expiracao l) (data_renovacao l)
     (limite_usos l) (usos_atuais l).
Definition with_data_ativacao (d : option datetime) (l : t) : t :=
  mk (cliente_id l) (maquina_id l) (chave_licenca l) (tipo l) (status l)
     d (data_expiracao l) (data_renovacao l)
     (limite_usos l) (usos_atuais l).
Definition with_data_expiracao (d : option datetime) (l : t) : t :=
  mk (cliente_id l) (maquina_id l) (chave_licenca l) (tipo l) (status l)
     (data_ativacao l) d (data_renovacao l)
     (limite_usos l) (usos_atuais l).
Definition with_data_renovacao (d : option datetime) (l : t) : t :=
  mk (cliente_id l) (maquina_id l) (chave_licenca l) (tipo l) (status l)
     (data_ativacao l) (data_expiracao l) d
     (limite_usos l) (usos_atuais l).
Definition with_usos_atuais (n : Z) (l : t) : t :=
  mk (cliente_id l) (maquina_id l) (chave_licenca l) (tipo l) (status l)
     (data_ativacao l) (data_expiracao l) (data_renovacao l)
     (limite_usos l) n.
End Licenca.

Module Assinatura.
Record t := mk {
  cliente_id : Z;
  licenca_id : Z;
  ciclo : CicloFaturamento;
  data_inicio : datetime;
  data_fim : option datetime;
  renovacao_automatica : bool;
  status : string
}.
Definition with_data_fim (d : option datetime) (a : t) : t :=
  mk (cliente_id a) (licenca_id a) (ciclo a) (data_inicio a) d
     (renovacao_automatica a) (status a).
End Assinatura.

Module Bloqueio.
Record t := mk {
  cliente_id : Z;
  maquina_id : option Z;
  motivo : string;
  tipo : string;
  severidade : string;
  data_desbloqueio : option datetime
}.
End Bloqueio.

(** ** Alerts (app/events/alertas.py) *)

Inductive Alerta :=
  | licenca_expirada (licenca_id : Z)
  | maquina_offline (maquina_id : Z)
  | atividade_suspeita (maquina_id : Z) (motivo : string)
  | pagamento_pendente (assinatura_id : Z).

#[global] Instance Alerta_eq_dec : EqDecision Alerta.
Proof. solve_decision. Defined.

(** ** The system: the tables behind the session and the alert trace *)

Record Sistema := mkSistema {
  clientes : gmap Z Cliente.t;
  maquinas : gmap Z Maquina.t;
  maquinas_metricas : list MaquinaMetrica.t;
  licencas : gmap Z Licenca.t;
  assinaturas : gmap Z Assinatura.t;
  bloqueios : list Bloqueio.t;
  alertas : list Alerta
}.

Definition with_clientes (c : gmap Z Cliente.t) (s : Sistema) : Sistema :=
  mkSistema c (maquinas s) (maquinas_metricas s) (licencas s)
            (assinaturas s) (bloqueios s) (alertas s).
Definition with_maquinas (m : gmap Z Maquina.t) (s : Sistema) : Sistema :=
  mkSistema (clientes s) m (maquinas_metricas s) (licencas s)
            (assinaturas s) (bloqueios s) (alertas s).
Definition with_maquinas_metricas (m : list MaquinaMetrica.t) (s : Sistema)
  : Sistema :=
  mkSistema (clientes s) (maquinas s) m (licencas s)
            (assinaturas s) (bloqueios s) (alertas s).
Definition with_licencas (l : gmap Z Licenca.t) (s : Sistema) : Sistema :=
  mkSistema (clientes s) (maquinas s) (maquinas_metricas s) l
            (assinaturas s) (bloqueios s) (alertas s).
Definition with_assinaturas (a : gmap Z Assinatura.t) (s : Sistema)
  : Sistema :=
  mkSistema (clientes s) (maquinas s) (maquinas_metricas s) (licencas s)
            a (bloqueios s) (alertas s).
Definition with_bloqueios (b : list Bloqueio.t) (s : Sistema) : Sistema :=
  mkSistema (clientes s) (maquinas s) (maquinas_metricas s) (licencas s)
            (assinaturas s) b (alertas s).

(** Requesting an alert appends it to the trace. *)
Definition enviar_alerta (a : Alerta) (s : Sistema) : Sistema :=
  mkSistema (clientes s) (maquinas s) (maquinas_metricas s) (licencas s)
            (assinaturas s) (bloqueios s) (alertas s ++ [a]).

(** ** Queries

    [query.filter(p).all()] lists the rows that satisfy [p], each with its
    [id]; [query.filter(p).first()] is the head of that list. *)

Definition query_all {A} (p : A -> bool) (tbl : gmap Z A) : list (Z * A) :=
  List.filter (fun r => p (snd r)) (map_to_list tbl).

Definition query_first {A} (p : A -> bool) (tbl : gmap Z A) : option (Z * A) :=
  List.find (fun r => p (snd r)) (map_to_list tbl).

(** SQL comparison of a nullable column with a value: NULL compares false. *)
Definition null_lt (c : option datetime) (v : datetime) : bool :=
  match c with Some d => bool_decide (d < v) | None => false end.
Definition null_le (c : option datetime) (v : datetime) : bool :=
  match c with Some d => bool_decide (d <= v) | None => false end.
Definition null_gt (c : option datetime) (v : datetime) : bool :=
  match c with Some d => bool_decide (d > v) | None => false end.

(** ** Python truth values *)

(** [if s:] on an optional string: [None] and the empty string are false. *)
Definition truthy_str (o : option string) : bool :=
  match o with
  | Some s => negb (bool_decide (s = EmptyString))
  | None => false
  end.

(** [if n:] on an optional integer: [None] and [0] are false. *)
Definition truthy_int (o : option Z) : bool :=
  match o with
  | Some n => negb (bool_decide (n = 0))
  | None => false
  end.

(** [x and x > 90] on an optional float: [None] and [0.0] are false. *)
Definition acima_de_90 (o : option Q) : bool :=
  match o with
  | Some x => negb (Qeq_bool x 0) && negb (Qle_bool x 90)
  | None => false
  end.

(** ** app/services/maquina_service.py *)

Module MaquinaService.

Definition processar_heartbeat (s : Sistema) (heartbeat : HeartbeatRequest.t)
    (now : datetime) : option (Z * Maquina.t) * Sistema :=
  match query_first
          (fun m => bool_decide (Maquina.identificador_unico m =
                       HeartbeatRequest.identificador_unico heartbeat))
          (maquinas s) with
  | None => (None, s)
  | Some (id, maquina) =>
      let status_anterior := Maquina.status maquina in
      let maquina :=
        Maquina.with_status (HeartbeatRequest.status heartbeat) maquina in
      let maquina := Maquina.with_ultima_conexao (Some now) maquina in
      let maquina :=
        if truthy_str (HeartbeatRequest.versao_app heartbeat)
        then Maquina.with_versao_app (HeartbeatRequest.versao_app heartbeat)
                                     maquina
        else maquina in
      let maquina :=
        if bool_decide (status_anterior = OFFLINE)
           && bool_decide (HeartbeatRequest.status heartbeat = ONLINE)
        then Maquina.with_tempo_atividade
               (Maquina.tempo_atividade maquina + 300) maquina
        else maquina in
      let s :=
        match HeartbeatRequest.metricas heartbeat with
        | Some metricas =>
            let s := with_maquinas_metricas
                       (maquinas_metricas s ++ [MaquinaMetrica.mk id metricas])
                       s in
            let s :=
              if acima_de_90 (MaquinaMetricaBase.cpu_uso metricas)
              then enviar_alerta
                     (atividade_suspeita id "Uso de CPU muito alto") s
              else s in
            if acima_de_90 (MaquinaMetricaBase.memoria_uso metricas)
            then enviar_alerta
                   (atividade_suspeita id "Uso de memória muito alto") s
            else s
        | None => s
        end in
      (Some (id, maquina), with_maquinas (<[id := maquina]> (maquinas s)) s)
  end.

(** The filter of the query of [verificar_maquinas_offline]. *)
Definition filtro_offline (limite_offline : datetime) (m : Maquina.t) : bool :=
  negb (bool_decide (Maquina.status m = OFFLINE))
  && null_lt (Maquina.ultima_conexao m) limite_offline.

(** One turn of the loop, on the object of identity [id]: the status is
    read from, and written to, the row of the session. *)
Definition marcar_offline (s : Sistema) (id : Z) : Sistema :=
  match maquinas s !! id with
  | Some maquina =>
      if negb (bool_decide (Maquina.status maquina = OFFLINE))
      then enviar_alerta (maquina_offline id)
             (with_maquinas
                (<[id := Maquina.with_status OFFLINE maquina]> (maquinas s)) s)
      else s
  | None => s
  end.

(** The objects of a result list, read back after the loop has run. *)
Definition reler (s : Sistema) (ids : list Z) : list (Z * Maquina.t) :=
  omap (fun id => pair id <$> maquinas s !! id) ids.

Definition verificar_maquinas_offline (s : Sistema) (minutos_offline : Z)
    (now : datetime) : list (Z * Maquina.t) * Sistema :=
  let limite_offline := now - timedelta_minutes minutos_offline in
  let ids := List.map fst (query_all (filtro_offline limite_offline)
                                     (maquinas s)) in
  let s := fold_left marcar_offline ids s in
  (reler s ids, s).

Definition bloquear_maquina (s : Sistema) (maquina_id : Z) (motivo : string)
    : bool * Sistema :=
  match maquinas s !! maquina_id with
  | None => (false, s)
  | Some maquina =>
      (true,
       with_maquinas
         (<[maquina_id := Maquina.with_status BLOQUEADA maquina]> (maquinas s))
         s)
  end.

Definition desbloquear_maquina (s : Sistema) (maquina_id : Z)
    : bool * Sistema :=
  match maquinas s !! maquina_id with
  | None => (false, s)
  | Some maquina =>
      (true,
       with_maquinas
         (<[maquina_id := Maquina.with_status ONLINE maquina]> (maquinas s))
         s)
  end.

End MaquinaService.

(** ** app/services/licenca_service.py *)

Module LicencaService.

(** [licenca.data_expiracao and licenca.data_expiracao < datetime.utcnow()] *)
Definition expirada_em (now : datetime) (l : Licenca.t) : bool :=
  match Licenca.data_expiracao l with
  | Some d => bool_decide (d < now)
  | None => false
  end.

Definition por_chave (chave_licenca : string) (l : Licenca.t) : bool :=
  bool_decide (Licenca.chave_licenca l = chave_licenca).

Definition ativar_licenca (s : Sistema) (chave_licenca : string)
    (maquina_id : option Z) (now : datetime) : bool * Sistema :=
  match query_first (por_chave chave_licenca) (licencas s) with
  | None => (false, s)
  | Some (id, licenca) =>
      if bool_decide (Licenca.status licenca = ATIVA) then (true, s)
      else if expirada_em now licenca then
        let licenca := Licenca.with_status EXPIRADA licenca in
        let s := with_licencas (<[id := licenca]> (licencas s)) s in
        (false, enviar_alerta (licenca_expirada id) s)
      else if bool_decide (Licenca.limite_usos licenca > 0)
              && bool_decide (Licenca.usos_atuais licenca
                              >= Licenca.limite_usos licenca)
      then (false, s)
      else
        let licenca := Licenca.with_status ATIVA licenca in
        let licenca := Licenca.with_data_ativacao (Some now) licenca in
        let licenca :=
          Licenca.with_usos_atuais (Licenca.usos_atuais licenca + 1) licenca in
        let licenca :=
          if truthy_int maquina_id
          then Licenca.with_maquina_id maquina_id licenca
          else licenca in
        (true, with_licencas (<[id := licenca]> (licencas s)) s)
  end.

Definition verificar_licenca (s : Sistema) (chave_licenca : string)
    (now : datetime) : option (Z * Licenca.t) * Sistema :=
  match query_first (por_chave chave_licenca) (licencas s) with
  | None => (None, s)
  | Some (id, licenca) =>
      if expirada_em now licenca then
        let licenca := Licenca.with_status EXPIRADA licenca in
        let s := with_licencas (<[id := licenca]> (licencas s)) s in
        (Some (id, licenca), enviar_alerta (licenca_expirada id) s)
      else (Some (id, licenca), s)
  end.

Definition renovar_licenca (s : Sistema) (licenca_id : Z) (meses : Z)
    (now : datetime) : bool * Sistema :=
  match licencas s !! licenca_id with
  | None => (false, s)
  | Some licenca =>
      let nova_data :=
        match Licenca.data_expiracao licenca with
        | Some d => d
        | None => now
        end in
      let nova_data := nova_data + timedelta_days (30 * meses) in
      let licenca := Licenca.with_data_expiracao (Some nova_data) licenca in
      let licenca := Licenca.with_data_renovacao (Some now) licenca in
      let licenca := Licenca.with_status ATIVA licenca in
      (true, with_licencas (<[licenca_id := licenca]> (licencas s)) s)
  end.

Definition bloquear_licenca (s : Sistema) (licenca_id : Z) (motivo : string)
    : bool * Sistema :=
  match licencas s !! licenca_id with
  | None => (false, s)
  | Some licenca =>
      let licenca := Licenca.with_status SUSPENSA licenca in
      let s := with_licencas (<[licenca_id := licenca]> (licencas s)) s in
      let bloqueio :=
        Bloqueio.mk (Licenca.cliente_id licenca) (Licenca.maquina_id licenca)
                    motivo "licenca" "alta" None in
      (true, with_bloqueios (bloqueios s ++ [bloqueio]) s)
  end.

Definition filtro_expirando (data_limite now : datetime) (l : Licenca.t)
    : bool :=
  bool_decide (Licenca.status l = ATIVA)
  && null_le (Licenca.data_expiracao l) data_limite
  && null_gt (Licenca.data_expiracao l) now.

Definition get_licencas_expirando (s : Sistema) (dias : Z) (now : datetime)
    : list (Z * Licenca.t) :=
  let data_limite := now + timedelta_days dias in
  query_all (filtro_expirando data_limite now) (licencas s).

End LicencaService.

(** ** Exceptions

    [None + timedelta] raises [TypeError]; the monitoring tasks catch every
    exception, log it and return. *)

Inductive Excecao := TypeError.

Inductive resultado (A : Type) :=
  | Retorna (a : A)
  | Levanta (e : Excecao).
Arguments Retorna {A} a.
Arguments Levanta {A} e.

Module AssinaturaService.

(** The [if]/[elif] chain on [ciclo] of [criar_assinatura] and
    [renovar_assinatura]. *)
Definition dias_do_ciclo (c : CicloFaturamento) : Z :=
  match c with
  | MENSAL => 30
  | TRIMESTRAL => 90
  | SEMESTRAL => 180
  | ANUAL => 365
  | BIANUAL => 730
  end.

Definition filtro_renovacoes (data_limite now : datetime) (a : Assinatura.t)
    : bool :=
  bool_decide (Assinatura.status a = "ativa")
  && null_le (Assinatura.data_fim a) data_limite
  && null_gt (Assinatura.data_fim a) now
  && bool_decide (Assinatura.renovacao_automatica a = true).

Definition verificar_renovacoes (s : Sistema) (now : datetime)
    : list (Z * Assinatura.t) * Sistema :=
  let data_limite := now + timedelta_days 3 in
  let assinaturas_sel :=
    query_all (filtro_renovacoes data_limite now) (assinaturas s) in
  let s :=
    fold_left (fun s a => enviar_alerta (pagamento_pendente (fst a)) s)
              assinaturas_sel s in
  (assinaturas_sel, s).

Definition renovar_assinatura (s : Sistema) (assinatura_id : Z)
    : resultado (bool * Sistema) :=
  match assinaturas s !! assinatura_id with
  | None => Retorna (false, s)
  | Some assinatura =>
      match Assinatura.data_fim assinatura with
      | None => Levanta TypeError
      | Some data_fim =>
          let nova_data_fim :=
            data_fim + timedelta_days (dias_do_ciclo (Assinatura.ciclo assinatura)) in
          let assinatura :=
            Assinatura.with_data_fim (Some nova_data_fim) assinatura in
          let s :=
            with_assinaturas (<[assinatura_id := assinatura]> (assinaturas s))
                             s in
          let s :=
            match clientes s !! Assinatura.cliente_id assinatura with
            | Some cliente =>
                with_clientes
                  (<[Assinatura.cliente_id assinatura :=
                       Cliente.with_data_expiracao (Some nova_data_fim) cliente]>
                     (clientes s))
                  s
            | None => s
            end in
          Retorna (true, s)
      end
  end.

End AssinaturaService.

(** ** app/database/session.py

    [get_db] is a generator function under [@contextmanager]: a call of it
    runs none of its body and returns a context manager built around the
    generator.  [next] gives the next item of an iterator and raises
    [TypeError] for an object that is not an iterator; a context manager is
    entered with [with] and is not one. *)

Module Database.

Inductive Session := SessionLocal.

Inductive Objeto :=
  | generator (item : Session)
  | GeneratorContextManager (gen : Objeto).

Definition get_db : Objeto := GeneratorContextManager (generator SessionLocal).

Definition next (o : Objeto) : resultado Session :=
  match o with
  | generator item => Retorna item
  | GeneratorContextManager _ => Levanta TypeError
  end.

End Database.

(** ** app/tasks/monitoramento.py

    The body of each task is inside [try], and [except Exception] logs the
    exception and lets the task return; this includes the first statement,
    [db = next(get_db())]. *)

Module MonitoramentoService.

Definition monitorar_maquinas_offline (s : Sistema) (now : datetime)
    : Sistema :=
  match Database.next Database.get_db with
  | Retorna db => snd (MaquinaService.verificar_maquinas_offline s 5 now)
  | Levanta e => s
  end.

(** The loop over the licences about to expire; a licence the query
    returned has an expiration date, and without one the subtraction would
    raise and end the task. *)
Fixpoint alertar_expirando (now : datetime) (licencas : list (Z * Licenca.t))
    (s : Sistema) : Sistema :=
  match licencas with
  | [] => s
  | (id, licenca) :: resto =>
      match Licenca.data_expiracao licenca with
      | None => s
      | Some data_expiracao =>
          let dias_restantes := days (data_expiracao - now) in
          let s :=
            if bool_decide (dias_restantes <= 3)
            then enviar_alerta (licenca_expirada id) s
            else s in
          alertar_expirando now resto s
      end
  end.

Definition monitorar_licencas_expirando (s : Sistema) (now : datetime)
    : Sistema :=
  match Database.next Database.get_db with
  | Retorna db =>
      let licencas := LicencaService.get_licencas_expirando s 7 now in
      alertar_expirando now licencas s
  | Levanta e => s
  end.

(** The loop over the subscriptions to renew; [renovacao_automatica] is
    read from the row of the session, and an exception ends the task with
    what was committed so far. *)
Fixpoint renovar_todas (ids : list Z) (s : Sistema) : Sistema :=
  match ids with
  | [] => s
  | id :: resto =>
      match assinaturas s !! id with
      | Some assinatura =>
          if Assinatura.renovacao_automatica assinatura
          then match AssinaturaService.renovar_assinatura s id with
               | Retorna (_, s) => renovar_todas resto s
               | Levanta _ => s
               end
          else renovar_todas resto s
      | None => renovar_todas resto s
      end
  end.

Definition monitorar_renovacoes_assinaturas (s : Sistema) (now : datetime)
    : Sistema :=
  match Database.next Database.get_db with
  | Retorna db =>
      let '(assinaturas_sel, s) :=
        AssinaturaService.verificar_renovacoes s now in
      renovar_todas (List.map fst assinaturas_sel) s
  | Levanta e => s
  end.

End MonitoramentoService.

(** ** app/events/maquina_events.py

    A [WebSocket] is known by the identity of the connection object.
    [send_json] either returns or raises; which of the two happens for a
    connection during one broadcast is given by [falha].  Every call of
    [send_json] is recorded with its outcome.  The [timestamp] of a message
    (the float clock of the event loop) is left out. *)

Definition WebSocket := positive.

Inductive Mensagem :=
  | msg_heartbeat (maquina_id : Z) (data : HeartbeatRequest.t)
  | msg_bloqueio (maquina_id : Z) (motivo : string)
  | msg_desbloqueio (maquina_id : Z).

Record Envio := mkEnvio {
  destino : WebSocket;
  mensagem : Mensagem;
  entregue : bool
}.

Module MaquinaConnectionManager.

Record t := mk {
  active_connections : gmap Z (list WebSocket);
  maquina_subscriptions : gmap Z (gset WebSocket)
}.

(** [for websocket in subscribers: try: send_json(message)
     except: disconnected.add(websocket)] *)
Definition enviar_um (falha : WebSocket -> bool) (message : Mensagem)
    (acc : gset WebSocket * list Envio) (websocket : WebSocket)
    : gset WebSocket * list Envio :=
  if falha websocket
  then ({[websocket]} ∪ fst acc, snd acc ++ [mkEnvio websocket message false])
  else (fst acc, snd acc ++ [mkEnvio websocket message true]).

(** The body shared by the three broadcast methods, after the message has
    been built. *)
Definition broadcast (falha : WebSocket -> bool) (self : t) (maquina_id : Z)
    (message : Mensagem) : t * list Envio :=
  match maquina_subscriptions self !! maquina_id with
  | None => (self, [])
  | Some subscribers =>
      let '(disconnected, envios) :=
        fold_left (enviar_um falha message) (elements subscribers) (∅, []) in
      let subscribers :=
        fold_left (fun subs websocket => subs ∖ {[websocket]})
                  (elements disconnected) subscribers in
      (mk (active_connections self)
          (<[maquina_id := subscribers]> (maquina_subscriptions self)),
       envios)
  end.

Definition broadcast_heartbeat (falha : WebSocket -> bool) (self : t)
    (maquina_id : Z) (heartbeat_data : HeartbeatRequest.t) : t * list Envio :=
  broadcast falha self maquina_id (msg_heartbeat maquina_id heartbeat_data).

Definition broadcast_bloqueio (falha : WebSocket -> bool) (self : t)
    (maquina_id : Z) (motivo : string) : t * list Envio :=
  broadcast falha self maquina_id (msg_bloqueio maquina_id motivo).

Definition broadcast_desbloqueio (falha : WebSocket -> bool) (self : t)
    (maquina_id : Z) : t * list Envio :=
  broadcast falha self maquina_id (msg_desbloqueio maquina_id).

End MaquinaConnectionManager.

(** ** app/api/maquina_api.py: the block endpoint *)

Inductive Resposta := HTTP_200 | HTTP_404.

Module MaquinaApi.

Definition bloquear_maquina (falha : WebSocket -> bool) (s : Sistema)
    (manager : MaquinaConnectionManager.t) (maquina_id : Z) (motivo : string)
    : Resposta * Sistema * MaquinaConnectionManager.t * list Envio :=
  let '(sucesso, s) := MaquinaService.bloquear_maquina s maquina_id motivo in
  if sucesso
  then
    let '(manager, envios) :=
      MaquinaConnectionManager.broadcast_bloqueio falha manager maquina_id
                                                  motivo in
    (HTTP_200, s, manager, envios)
  else (HTTP_404, s, manager, []).

End MaquinaApi.

(** ** app/api/licenca_api.py: the activation endpoint

    The endpoint answers with a message, or raises the [HTTPException] that
    becomes a 400 response with its [detail]. *)

Inductive RespostaAtivacao :=
  | Ativada (message : string)
  | HTTP_400 (detail : string).

Module LicencaApi.

Definition ativar_licenca (s : Sistema) (chave_licenca : string)
    (maquina_id : option Z) (now : datetime) : RespostaAtivacao * Sistema :=
  let '(sucesso, s) :=
    LicencaService.ativar_licenca s chave_licenca maquina_id now in
  if sucesso
  then (Ativada "Licença ativada com sucesso", s)
  else (HTTP_400 "Falha ao ativar licença", s).

End LicencaApi.

(** ** Constraints of the schema used as hypotheses

    [chave_licenca] and [identificador_unico] are declared [unique=True];
    the statements that follow one licence through several calls assume it
    for the key at hand. *)

Definition chave_identifica (s : Sistema) (chave_licenca : string) (id : Z)
    : Prop :=
  forall j l, licencas s !! j = Some l ->
              Licenca.chave_licenca l = chave_licenca -> j = id.

(** ** Vocabulary of the statements

    The failures that the specification names for an operation on a licence
    (its error taxonomy), in the specification's words. *)
Inductive Falha := NotFound | InvalidState | QuotaExceeded | Expired.

(** A subscription after one renewal: its end moved by one cycle. *)
Definition renovada (a : Assinatura.t) : Assinatura.t :=
  Assinatura.with_data_fim
    ((fun d => d + timedelta_days
                     (AssinaturaService.dias_do_ciclo (Assinatura.ciclo a)))
       <$> Assinatura.data_fim a)
    a.


(** On a concrete table, a row is the only one with its key: the rows are
    listed and compared one by one. *)
Ltac unique_row Hrow Hkey :=
  lazymatch type of Hrow with
  | ?tbl !! ?j = Some ?x =>
      let Hin := fresh "Hin" in
      assert (Hin : (j, x) ∈ map_to_list tbl)
        by (by apply elem_of_map_to_list);
      vm_compute in Hin;
      repeat (apply elem_of_cons in Hin as [Hin|Hin];
              [injection Hin as -> ->;
               first [reflexivity | discriminate Hkey]|]);
      by apply elem_of_nil in Hin
  end.

(** ** More of the services

    The functions of the same files that the statements above do not need:
    registration of a device, the heartbeat and unblock endpoints, and the
    connection methods of the manager. *)

(** [raise ValueError(msg)], which the endpoints turn into a 400 response. *)
Inductive Erro := ValueError (msg : string).

Inductive retorno (A : Type) :=
  | Devolve (a : A)
  | Raise (e : Erro).
Arguments Devolve {A} a.
Arguments Raise {A} e.

(** The primary key that [db.add] followed by [db.commit()] gives a new row:
    a key that no row of the table has, taken to be one more than the largest
    key in use. *)
Definition novo_id {A} (tbl : gmap Z A) : Z :=
  1 + fold_right Z.max 0 (List.map fst (map_to_list tbl)).

Module MaquinaCreate.
Record t := mk {
  cliente_id : Z;
  identificador_unico : string
}.
End MaquinaCreate.

Module MaquinaServiceRegistro.

Definition registrar_maquina (s : Sistema) (maquina_data : MaquinaCreate.t)
    (now : datetime) : retorno ((Z * Maquina.t) * Sistema) :=
  match clientes s !! MaquinaCreate.cliente_id maquina_data with
  | None => Raise (ValueError "Cliente não encontrado")
  | Some cliente =>
      match query_first
              (fun m => bool_decide (Maquina.identificador_unico m =
                           MaquinaCreate.identificador_unico maquina_data))
              (maquinas s) with
      | Some _ => Raise (ValueError "Identificador único já registrado")
      | None =>
          let db_maquina :=
            Maquina.mk (MaquinaCreate.cliente_id maquina_data)
                       (MaquinaCreate.identificador_unico maquina_data)
                       (Some now) OFFLINE 0 None in
          let id := novo_id (maquinas s) in
          Devolve ((id, db_maquina),
                   with_maquinas (<[id := db_maquina]> (maquinas s)) s)
      end
  end.

End MaquinaServiceRegistro.

(** The heartbeat and unblock endpoints of app/api/maquina_api.py. *)
Module MaquinaEndpoints.

Definition receber_heartbeat (falha : WebSocket -> bool) (s : Sistema)
    (manager : MaquinaConnectionManager.t) (heartbeat : HeartbeatRequest.t)
    (now : datetime)
    : Resposta * Sistema * MaquinaConnectionManager.t * list Envio :=
  let '(maquina, s) := MaquinaService.processar_heartbeat s heartbeat now in
  match maquina with
  | None => (HTTP_404, s, manager, [])
  | Some (id, _) =>
      let '(manager, envios) :=
        MaquinaConnectionManager.broadcast_heartbeat falha manager id
                                                     heartbeat in
      (HTTP_200, s, manager, envios)
  end.

Definition desbloquear_maquina (falha : WebSocket -> bool) (s : Sistema)
    (manager : MaquinaConnectionManager.t) (maquina_id : Z)
    : Resposta * Sistema * MaquinaConnectionManager.t * list Envio :=
  let '(sucesso, s) := MaquinaService.desbloquear_maquina s maquina_id in
  if sucesso
  then
    let '(manager, envios) :=
      MaquinaConnectionManager.broadcast_desbloqueio falha manager maquina_id in
    (HTTP_200, s, manager, envios)
  else (HTTP_404, s, manager, []).

End MaquinaEndpoints.

(** [identificador_unico] is declared [unique=True]. *)
Definition identificadores_unicos (s : Sistema) : Prop :=
  forall i j a b,
    maquinas s !! i = Some a -> maquinas s !! j = Some b ->
    Maquina.identificador_unico a = Maquina.identificador_unico b -> i = j.

(** ** app/events/maquina_events.py: connections and subscriptions

    The three methods of the manager that maintain its two dictionaries.
    [websocket.accept()] is taken to return. *)

(** The message that [subscribe] sends back. *)
Inductive Confirmacao := subscription_confirmed (maquina_id : Z).

(** [list.remove(x)]: the list without the first occurrence of [x], or
    [None] where Python raises [ValueError]. *)
Fixpoint list_remove (x : WebSocket) (l : list WebSocket)
    : option (list WebSocket) :=
  match l with
  | [] => None
  | y :: l => if decide (x = y) then Some l else cons y <$> list_remove x l
  end.

Module Conexoes.

Import MaquinaConnectionManager.

Definition connect (self : t) (websocket : WebSocket) (cliente_id : Z) : t :=
  let conexoes :=
    match active_connections self !! cliente_id with
    | Some l => l
    | None => []
    end in
  mk (<[cliente_id := conexoes ++ [websocket]]> (active_connections self))
     (maquina_subscriptions self).

(** One turn of the loop of [disconnect] over the keys of the
    subscriptions. *)
Definition descartar (websocket : WebSocket)
    (subs : gmap Z (gset WebSocket)) (maquina_id : Z)
    : gmap Z (gset WebSocket) :=
  match subs !! maquina_id with
  | Some ws =>
      let ws := ws ∖ {[websocket]} in
      if decide (ws = ∅) then delete maquina_id subs
      else <[maquina_id := ws]> subs
  | None => subs
  end.

(** [disconnect] returns nothing; the result is the exception it raised, if
    any, and the manager as the call left it.  [list.remove] raises before
    anything has been written. *)
Definition disconnect (self : t) (websocket : WebSocket) (cliente_id : Z)
    : option Erro * t :=
  let conexoes :=
    match active_connections self !! cliente_id with
    | Some l =>
        match list_remove websocket l with
        | None => None
        | Some [] => Some (delete cliente_id (active_connections self))
        | Some l => Some (<[cliente_id := l]> (active_connections self))
        end
    | None => Some (active_connections self)
    end in
  match conexoes with
  | None => (Some (ValueError "list.remove(x): x not in list"), self)
  | Some conexoes =>
      let chaves := List.map fst (map_to_list (maquina_subscriptions self)) in
      (None,
       mk conexoes
          (fold_left (descartar websocket) chaves (maquina_subscriptions self)))
  end.

(** The subscription is recorded before the confirmation is sent, so it
    stays when [send_json] raises; the result tells whether the confirmation
    was delivered. *)
Definition subscribe (falha : WebSocket -> bool) (self : t)
    (websocket : WebSocket) (maquina_id : Z) : t * (Confirmacao * bool) :=
  let subscribers :=
    match maquina_subscriptions self !! maquina_id with
    | Some ws => ws
    | None => ∅
    end in
  (mk (active_connections self)
      (<[maquina_id := subscribers ∪ {[websocket]}]>
         (maquina_subscriptions self)),
   (subscription_confirmed maquina_id, negb (falha websocket))).

End Conexoes.

(** The subscribers of a device: the empty set when the device has no
    entry. *)
Definition assinantes (self : MaquinaConnectionManager.t) (maquina_id : Z)
    : gset WebSocket :=
  default ∅ (MaquinaConnectionManager.maquina_subscriptions self !! maquina_id).

(** What the loop of [disconnect] leaves of one subscription set: the set
    without the connection, and no entry at all when nothing remains. *)
Definition limpar (websocket : WebSocket) (ws : gset WebSocket)
    : option (gset WebSocket) :=
  if decide (ws ∖ {[websocket]} = ∅) then None else Some (ws ∖ {[websocket]}).

(** The connections of a client: none when the client has no entry. *)
Definition conexoes_de (self : MaquinaConnectionManager.t) (cliente_id : Z)
    : list WebSocket :=
  default [] (MaquinaConnectionManager.active_connections self !! cliente_id).

(** ** app/utils/security.py: licence keys

    [secrets.choice] is the source of the characters: [choice i] is the
    character of the [i]-th draw. *)

Module Security.

Import Strings.Ascii.

(** [key[i:j]] and [range(0, n, 5)]. *)
Definition slice {A} (l : list A) (i j : nat) : list A :=
  take (j - i)%nat (drop i l).

Definition range_step_5 (n : nat) : list nat :=
  List.map (fun k => (5 * k)%nat) (seq 0 ((n + 4) / 5)%nat).

(** [sep.join(parts)] *)
Fixpoint join {A} (sep : A) (parts : list (list A)) : list A :=
  match parts with
  | [] => []
  | [p] => p
  | p :: resto => p ++ sep :: join sep resto
  end.

(** [sep.join([key[i:i+5] for i in range(0, len(key), 5)])] *)
Definition formatted_key {A} (sep : A) (key : list A) : list A :=
  join sep (List.map (fun i => slice key i (i + 5))
                     (range_step_5 (List.length key))).

Definition generate_license_key (length : nat) (choice : nat -> ascii)
    : list ascii :=
  let key := List.map choice (seq 0 length) in
  formatted_key "-"%char key.

(** The alphabet of the draws: [string.ascii_uppercase + string.digits]. *)
Definition alphabet : list ascii :=
  String.list_ascii_of_string "ABCDEFGHIJKLMNOPQRSTUVWXYZ0123456789".

End Security.

(** ** Vocabulary of the statements about licences *)

(** [chave_licenca] is declared [unique=True]. *)
Definition chaves_unicas (s : Sistema) : Prop :=
  forall i j a b,
    licencas s !! i = Some a -> licencas s !! j = Some b ->
    Licenca.chave_licenca a = Licenca.chave_licenca b -> i = j.

(** A licence with a limit has not been activated more often than the limit
    allows. *)
Definition dentro_do_limite (l : Licenca.t) : Prop :=
  Licenca.limite_usos l > 0 -> Licenca.usos_atuais l <= Licenca.limite_usos l.

(** [n] calls in a row of an operation on the system. *)
Definition repetir (n : nat) (f : Sistema -> Sistema) (s : Sistema) : Sistema :=
  Nat.iter n f s.

(** Two rows of the same licence: the key, the owner, the kind and the
    limit are the same. *)
Definition mesma_identidade (a b : Licenca.t) : Prop :=
  Licenca.chave_licenca a = Licenca.chave_licenca b /\
  Licenca.cliente_id a = Licenca.cliente_id b /\
  Licenca.tipo a = Licenca.tipo b /\
  Licenca.limite_usos a = Licenca.limite_usos b.

(** Two states of the licence table with the same licences. *)
Definition mesmas_licencas (s s' : Sistema) : Prop :=
  forall j, option_Forall2 mesma_identidade (licencas s !! j) (licencas s' !! j).

(** ** Concrete systems used in the examples below *)

Module Exemplos.

Definition sistema_vazio : Sistema := mkSistema ∅ ∅ [] ∅ ∅ [] [].

(** A blocked device and a device under maintenance, both last seen at
    instant 0. *)
Definition maquina_bloqueada : Maquina.t :=
  Maquina.mk 1 "maq-0001" (Some 0) BLOQUEADA 0 None.
Definition maquina_manutencao : Maquina.t :=
  Maquina.mk 1 "maq-0002" (Some 0) MANUTENCAO 0 None.
Definition maquina_online : Maquina.t :=
  Maquina.mk 1 "maq-0003" (Some 0) ONLINE 0 None.

Definition parque : Sistema :=
  with_maquinas {[ 1 := maquina_bloqueada; 2 := maquina_manutencao;
                   3 := maquina_online ]} sistema_vazio.

Definition heartbeat_online : HeartbeatRequest.t :=
  HeartbeatRequest.mk "maq-0001" ONLINE None None.

(** Ten minutes, in microseconds. *)
Definition dez_minutos : datetime := 600000000.

(** A device that is online and was last seen at minute 5: at minute 10 it
    is exactly five minutes old, one microsecond later it is older. *)
Definition maquina_recente : Maquina.t :=
  Maquina.mk 1 "maq-0004" (Some 300000000) ONLINE 0 None.

Definition parque_recente : Sistema :=
  with_maquinas {[ 4 := maquina_recente ]} sistema_vazio.

Definition um_dia : datetime := 86400000000.

(** A cancelled licence that expired at instant 0, a pending licence that
    has used up its three activations, and an active one that expires in
    five days from [um_dia]. *)
Definition licenca_cancelada : Licenca.t :=
  Licenca.mk 1 None "LIC-AAAA" TEMPORARIA CANCELADA None (Some 0) None 0 0.
Definition licenca_esgotada : Licenca.t :=
  Licenca.mk 1 None "LIC-BBBB" PERPETUA PENDENTE None None None 3 3.
Definition licenca_cinco_dias : Licenca.t :=
  Licenca.mk 1 None "LIC-CCCC" TEMPORARIA ATIVA (Some 0)
             (Some (6 * um_dia)) None 0 1.

Definition carteira : Sistema :=
  with_licencas {[ 1 := licenca_cancelada; 2 := licenca_esgotada;
                   3 := licenca_cinco_dias ]} sistema_vazio.

(** Three connections of client 1, all subscribed to device 3; the second
    one is broken. *)
Definition gerenciador : MaquinaConnectionManager.t :=
  MaquinaConnectionManager.mk
    {[ 1 := [11; 12; 13]%positive ]}
    {[ 3 := ({[ 11; 12; 13 ]}%positive : gset WebSocket) ]}.

Definition conexao_quebrada (websocket : WebSocket) : bool :=
  bool_decide (websocket = 12%positive).

(** A monthly subscription of client 1 that started at instant 0, with the
    client's cached date, seen on day 28. *)
Definition assinatura_mensal : Assinatura.t :=
  Assinatura.mk 1 3 MENSAL 0 (Some (30 * um_dia)) true "ativa".

Definition clientela : Sistema :=
  with_clientes {[ 1 := Cliente.mk (Some (30 * um_dia)) ]}
    (with_assinaturas {[ 1 := assinatura_mensal ]} sistema_vazio).

End Exemplos.

(** ** More concrete systems *)

Module Cenarios.

(** A heartbeat of device 1 of [Exemplos.parque] with readings: the
    processor is saturated, the memory is at 90 exactly. *)
Definition leitura_saturada : MaquinaMetricaBase.t :=
  MaquinaMetricaBase.mk (Some (95 # 1)) (Some (90 # 1)) None None None None
                        None None.

Definition heartbeat_saturado : HeartbeatRequest.t :=
  HeartbeatRequest.mk "maq-0001" ONLINE (Some leitura_saturada) None.

(** The registration of a device of client 1. *)
Definition nova_maquina : MaquinaCreate.t := MaquinaCreate.mk 1 "maq-0009".

Definition heartbeat_nova : HeartbeatRequest.t :=
  HeartbeatRequest.mk "maq-0009" ONLINE None None.

(** A manager with nothing in it, and one where client 1 has two
    connections, the first of which follows devices 3 and 4. *)
Definition gerenciador_vazio : MaquinaConnectionManager.t :=
  MaquinaConnectionManager.mk ∅ ∅.

Definition gerenciador_duplo : MaquinaConnectionManager.t :=
  MaquinaConnectionManager.mk
    {[ 1 := [21; 22]%positive ]}
    {[ 3 := ({[ 21; 22 ]}%positive : gset WebSocket);
       4 := ({[ 21 ]}%positive : gset WebSocket) ]}.

(** A pending licence without limit and without expiration date. *)
Definition licenca_pendente : Licenca.t :=
  Licenca.mk 1 None "LIC-DDDD" PERPETUA PENDENTE None None None 0 0.

Definition carteira_pendente : Sistema :=
  with_licencas {[ 1 := licenca_pendente ]} Exemplos.sistema_vazio.

(** A pending licence that has used two of its three activations. *)
Definition licenca_quase_esgotada : Licenca.t :=
  Licenca.mk 1 None "LIC-EEEE" PERPETUA PENDENTE None None None 3 2.

Definition carteira_quase_esgotada : Sistema :=
  with_licencas {[ 1 := licenca_quase_esgotada ]} Exemplos.sistema_vazio.

End Cenarios.

(** * Properties *)

(** ** Queries *)

Section Queries.
Context {A : Type} (p : A -> bool) (tbl : gmap Z A).

Lemma query_first_Some i a :
  query_first p tbl = Some (i, a) -> tbl !! i = Some a /\ p a = true.
Proof.
  unfold query_first. intros Hfind.
  apply find_some in Hfind as [Hin Hp].
  apply list_elem_of_In, elem_of_map_to_list in Hin. auto.
Qed.

Lemma query_first_None i a :
  query_first p tbl = None -> tbl !! i = Some a -> p a = false.
Proof.
  unfold query_first. intros Hfind Hrow.
  apply (find_none _ _ Hfind (i, a)).
  by apply list_elem_of_In, elem_of_map_to_list.
Qed.

Lemma query_first_is_Some i a :
  tbl !! i = Some a -> p a = true -> exists j b, query_first p tbl = Some (j, b).
Proof.
  intros Hrow Hp. destruct (query_first p tbl) as [[j b]|] eqn:Hfind.
  - eauto.
  - rewrite (query_first_None i a Hfind Hrow) in Hp. discriminate.
Qed.

(** Under a unique constraint on what [p] tests, [first()] is that row. *)
Lemma query_first_unique i a :
  (forall j b, tbl !! j = Some b -> p b = true -> j = i) ->
  tbl !! i = Some a -> p a = true -> query_first p tbl = Some (i, a).
Proof.
  intros Huniq Hrow Hp.
  destruct (query_first_is_Some i a Hrow Hp) as (j & b & Hfind).
  destruct (query_first_Some _ _ Hfind) as [Hj Hb].
  assert (j = i) as -> by eauto.
  rewrite Hfind. congruence.
Qed.

Lemma elem_of_query_all i a :
  (i, a) ∈ query_all p tbl <-> tbl !! i = Some a /\ p a = true.
Proof.
  unfold query_all.
  rewrite list_elem_of_In, filter_In, <- list_elem_of_In, elem_of_map_to_list.
  reflexivity.
Qed.

Lemma elem_of_query_all_ids i :
  i ∈ List.map fst (query_all p tbl) <->
  exists a, tbl !! i = Some a /\ p a = true.
Proof.
  rewrite list_elem_of_In, in_map_iff. split.
  - intros ([j a] & <- & Hin).
    apply list_elem_of_In, elem_of_query_all in Hin. eauto.
  - intros (a & Hrow & Hp). exists (i, a). split; [done|].
    by apply list_elem_of_In, elem_of_query_all.
Qed.

Lemma NoDup_query_all_ids : NoDup (List.map fst (query_all p tbl)).
Proof.
  unfold query_all.
  assert (Hnd : NoDup (List.map fst (map_to_list tbl)))
    by apply NoDup_fst_map_to_list.
  induction (map_to_list tbl) as [|[j b] l IH]; simpl in *; [constructor|].
  apply NoDup_cons in Hnd as [Hnotin Hnd].
  destruct (p b); simpl; [|by apply IH].
  apply NoDup_cons. split; [|by apply IH].
  intros Hin. apply Hnotin.
  apply list_elem_of_In, in_map_iff in Hin as ([j' b'] & Hj & Hin).
  apply filter_In in Hin as [Hin _]. simpl in Hj. subst j'.
  apply list_elem_of_In, in_map_iff. by exists (j, b').
Qed.

Lemma query_all_nil :
  (forall i a, tbl !! i = Some a -> p a = false) -> query_all p tbl = [].
Proof.
  intros Hnone. destruct (query_all p tbl) as [|[i a] l] eqn:Hq; [done|].
  assert (Hin : (i, a) ∈ query_all p tbl) by (rewrite Hq; left).
  apply elem_of_query_all in Hin as [Hrow Hp].
  rewrite (Hnone _ _ Hrow) in Hp. discriminate.
Qed.
End Queries.

(** ** Device status: heartbeat, sweep, block and unblock *)

Lemma with_status_same (m : Maquina.t) :
  Maquina.status m = OFFLINE -> Maquina.with_status OFFLINE m = m.
Proof. destruct m; simpl; intros ->; reflexivity. Qed.

Lemma filtro_offline_spec (limite : datetime) (m : Maquina.t) :
  MaquinaService.filtro_offline limite m = true <->
  Maquina.status m <> OFFLINE /\
  exists t, Maquina.ultima_conexao m = Some t /\ t < limite.
Proof.
  unfold MaquinaService.filtro_offline, null_lt.
  rewrite andb_true_iff, negb_true_iff, bool_decide_eq_false.
  destruct (Maquina.ultima_conexao m) as [t|].
  - rewrite bool_decide_eq_true. split.
    + intros [? ?]; eauto.
    + intros [? (t' & [= <-] & ?)]; auto.
  - split; [intros [_ ?]; discriminate | intros [_ (t & ? & _)]; discriminate].
Qed.

Lemma filtro_offline_with_status (limite : datetime) (m : Maquina.t) :
  MaquinaService.filtro_offline limite (Maquina.with_status OFFLINE m) = false.
Proof. reflexivity. Qed.

Lemma marcar_offline_lookup (s : Sistema) (i j : Z) :
  maquinas (MaquinaService.marcar_offline s i) !! j =
  if decide (j = i) then Maquina.with_status OFFLINE <$> maquinas s !! j
  else maquinas s !! j.
Proof.
  unfold MaquinaService.marcar_offline.
  destruct (maquinas s !! i) as [m|] eqn:Hrow.
  - destruct (decide (Maquina.status m = OFFLINE)) as [Hoff|Hon].
    + rewrite bool_decide_eq_true_2 by done. simpl.
      destruct (decide (j = i)) as [->|]; [|done].
      by rewrite Hrow; simpl; rewrite with_status_same.
    + rewrite bool_decide_eq_false_2 by done. simpl.
      destruct (decide (j = i)) as [->|Hne].
      * by rewrite lookup_insert_eq, Hrow.
      * by rewrite lookup_insert_ne.
  - destruct (decide (j = i)) as [->|]; [|done]. by rewrite Hrow.
Qed.

Lemma fold_marcar_offline_lookup (ids : list Z) (s : Sistema) (j : Z) :
  maquinas (fold_left MaquinaService.marcar_offline ids s) !! j =
  if decide (j ∈ ids) then Maquina.with_status OFFLINE <$> maquinas s !! j
  else maquinas s !! j.
Proof.
  revert s. induction ids as [|i ids IH]; intros s; simpl.
  - destruct (decide (j ∈ [])) as [Hin|]; [|done]. by apply elem_of_nil in Hin.
  - rewrite IH, marcar_offline_lookup.
    destruct (decide (j ∈ ids)) as [Hin|Hnin];
      destruct (decide (j = i)) as [->|Hne];
      destruct (decide (_ ∈ _ :: _)) as [Hin'|Hnin']; try done.
    + by destruct (maquinas s !! i).
    + exfalso. apply Hnin'. by right.
    + exfalso. apply Hnin'. by right.
    + exfalso. apply Hnin'. by left.
    + apply elem_of_cons in Hin' as [?|?]; done.
Qed.

(** The table after a sweep, row by row. *)
Lemma verificar_maquinas_offline_lookup (s : Sistema) (minutos now : Z) (j : Z) :
  maquinas (snd (MaquinaService.verificar_maquinas_offline s minutos now)) !! j =
  (fun m => if MaquinaService.filtro_offline (now - timedelta_minutes minutos) m
            then Maquina.with_status OFFLINE m else m) <$> maquinas s !! j.
Proof.
  unfold MaquinaService.verificar_maquinas_offline. simpl.
  rewrite fold_marcar_offline_lookup.
  set (lim := now - timedelta_minutes minutos).
  destruct (decide (j ∈ _)) as [Hin|Hnin].
  - apply elem_of_query_all_ids in Hin as (m & Hrow & Hp).
    by rewrite Hrow; simpl; rewrite Hp.
  - destruct (maquinas s !! j) as [m|] eqn:Hrow; [|done]. simpl.
    destruct (MaquinaService.filtro_offline lim m) eqn:Hp; [|done].
    exfalso. apply Hnin, elem_of_query_all_ids. eauto.
Qed.

(** The list a sweep returns. *)
Lemma verificar_maquinas_offline_result (s : Sistema) (minutos now : Z)
    (j : Z) (m' : Maquina.t) :
  (j, m') ∈ fst (MaquinaService.verificar_maquinas_offline s minutos now) <->
  exists m, maquinas s !! j = Some m /\
            MaquinaService.filtro_offline (now - timedelta_minutes minutos) m = true /\
            m' = Maquina.with_status OFFLINE m.
Proof.
  pose proof (verificar_maquinas_offline_lookup s minutos now) as Hlook.
  unfold MaquinaService.verificar_maquinas_offline in *. simpl in *.
  set (lim := now - timedelta_minutes minutos) in *.
  unfold MaquinaService.reler. rewrite list_elem_of_omap. split.
  - intros (i & Hin & Hsome).
    apply elem_of_query_all_ids in Hin as (m & Hrow & Hp).
    rewrite Hlook, Hrow in Hsome. simpl in Hsome. rewrite Hp in Hsome.
    injection Hsome as <- <-. eauto.
  - intros (m & Hrow & Hp & ->). exists j. split.
    + apply elem_of_query_all_ids. eauto.
    + rewrite Hlook, Hrow. simpl. by rewrite Hp.
Qed.

Lemma processar_heartbeat_found (s : Sistema) (hb : HeartbeatRequest.t)
    (now : datetime) (id : Z) (m : Maquina.t) :
  query_first
    (fun m => bool_decide (Maquina.identificador_unico m =
                           HeartbeatRequest.identificador_unico hb))
    (maquinas s) = Some (id, m) ->
  exists m',
    fst (MaquinaService.processar_heartbeat s hb now) = Some (id, m') /\
    maquinas (snd (MaquinaService.processar_heartbeat s hb now)) !! id = Some m' /\
    Maquina.status m' = HeartbeatRequest.status hb /\
    Maquina.ultima_conexao m' = Some now /\
    forall j, j <> id ->
      maquinas (snd (MaquinaService.processar_heartbeat s hb now)) !! j =
      maquinas s !! j.
Proof.
  intros Hfind. unfold MaquinaService.processar_heartbeat. rewrite Hfind.
  eexists. split; [reflexivity|]. simpl.
  assert (Hmaq : forall s' : Sistema,
             maquinas
               (match HeartbeatRequest.metricas hb with
                | Some metricas =>
                    let s1 := with_maquinas_metricas
                                (maquinas_metricas s' ++ [MaquinaMetrica.mk id metricas])
                                s' in
                    let s2 :=
                      if acima_de_90 (MaquinaMetricaBase.cpu_uso metricas)
                      then enviar_alerta
                             (atividade_suspeita id "Uso de CPU muito alto") s1
                      else s1 in
                    if acima_de_90 (MaquinaMetricaBase.memoria_uso metricas)
                    then enviar_alerta
                           (atividade_suspeita id "Uso de memória muito alto") s2
                    else s2
                | None => s'
                end) = maquinas s').
  { intros s'. destruct (HeartbeatRequest.metricas hb) as [mt|]; [|done].
    simpl. by destruct (acima_de_90 _), (acima_de_90 _). }
  rewrite Hmaq. repeat split.
  - by rewrite lookup_insert_eq.
  - by destruct (truthy_str _), (_ && _).
  - by destruct (truthy_str _), (_ && _).
  - intros j Hne. by rewrite lookup_insert_ne.
Qed.

(** C1 (as amended).  The explicit commands set Blocked and Online.  They are
    not the only way in or out: a heartbeat writes the reported status to the
    device whatever its current status, and the sweep sets to Offline every
    device that is not Offline and whose last connection is older than the
    threshold, Blocked and Maintenance devices included; only a device that
    is Offline (or not stale) is left alone and not selected. *)
Theorem device_status_is_written_unguarded
    (s : Sistema) (id : Z) (m : Maquina.t)
    (Hrow : maquinas s !! id = Some m) :
  (forall motivo,
      MaquinaService.bloquear_maquina s id motivo =
      (true, with_maquinas
               (<[id := Maquina.with_status BLOQUEADA m]> (maquinas s)) s)) /\
  MaquinaService.desbloquear_maquina s id =
    (true, with_maquinas
             (<[id := Maquina.with_status ONLINE m]> (maquinas s)) s) /\
  (forall hb now,
      Maquina.identificador_unico m = HeartbeatRequest.identificador_unico hb ->
      (forall j m2, maquinas s !! j = Some m2 ->
                    Maquina.identificador_unico m2 =
                    HeartbeatRequest.identificador_unico hb -> j = id) ->
      exists m',
        fst (MaquinaService.processar_heartbeat s hb now) = Some (id, m') /\
        maquinas (snd (MaquinaService.processar_heartbeat s hb now)) !! id
          = Some m' /\
        Maquina.status m' = HeartbeatRequest.status hb) /\
  (forall minutos now,
      let r := MaquinaService.verificar_maquinas_offline s minutos now in
      let stale := exists t, Maquina.ultima_conexao m = Some t /\
                             t < now - timedelta_minutes minutos in
      (Maquina.status m <> OFFLINE -> stale ->
         maquinas (snd r) !! id = Some (Maquina.with_status OFFLINE m) /\
         (id, Maquina.with_status OFFLINE m) ∈ fst r) /\
      (Maquina.status m = OFFLINE \/ ~ stale ->
         maquinas (snd r) !! id = Some m /\
         forall m', (id, m') ∉ fst r)).
Proof.
  repeat split.
  - intros motivo. unfold MaquinaService.bloquear_maquina. by rewrite Hrow.
  - unfold MaquinaService.desbloquear_maquina. by rewrite Hrow.
  - intros hb now Hident Huniq.
    assert (Hfind : query_first
              (fun m => bool_decide (Maquina.identificador_unico m =
                                     HeartbeatRequest.identificador_unico hb))
              (maquinas s) = Some (id, m)).
    { apply query_first_unique; [|done|by apply bool_decide_eq_true].
      intros j b Hj Hb. apply bool_decide_eq_true in Hb. eauto. }
    destruct (processar_heartbeat_found s hb now id m Hfind)
      as (m' & Hret & Hlook & Hst & _). eauto.
  - rewrite verificar_maquinas_offline_lookup, Hrow. simpl.
    assert (Hp : MaquinaService.filtro_offline
                   (now - timedelta_minutes minutos) m = true)
      by (apply filtro_offline_spec; auto).
    by rewrite Hp.
  - apply verificar_maquinas_offline_result. exists m. repeat split; [done|].
    apply filtro_offline_spec; auto.
  - rewrite verificar_maquinas_offline_lookup, Hrow. simpl.
    destruct (MaquinaService.filtro_offline _ m) eqn:Hp; [|done].
    apply filtro_offline_spec in Hp as [Hon Hstale]. by destruct H.
  - intros m' Hin.
    apply verificar_maquinas_offline_result in Hin as (m0 & Hrow0 & Hp & _).
    rewrite Hrow in Hrow0. injection Hrow0 as <-.
    apply filtro_offline_spec in Hp as [Hon Hstale]. by destruct H.
Qed.

(** A witness: the blocked device of [Exemplos.parque]. *)
Lemma device_status_is_written_unguarded_witness :
  maquinas Exemplos.parque !! 1 = Some Exemplos.maquina_bloqueada /\
  (exists m',
      maquinas (snd (MaquinaService.processar_heartbeat
                       Exemplos.parque Exemplos.heartbeat_online
                       Exemplos.dez_minutos)) !! 1 = Some m' /\
      Maquina.status m' = ONLINE) /\
  maquinas (snd (MaquinaService.verificar_maquinas_offline
                   Exemplos.parque 5 Exemplos.dez_minutos)) !! 1
    = Some (Maquina.with_status OFFLINE Exemplos.maquina_bloqueada).
Proof.
  assert (Hrow : maquinas Exemplos.parque !! 1 = Some Exemplos.maquina_bloqueada)
    by reflexivity.
  destruct (device_status_is_written_unguarded Exemplos.parque 1
              Exemplos.maquina_bloqueada Hrow) as (_ & _ & Hhb & Hsweep).
  split; [exact Hrow|]. split.
  - destruct (Hhb Exemplos.heartbeat_online Exemplos.dez_minutos) as
      (m' & _ & Hlook & Hst).
    + reflexivity.
    + intros j m2 Hj Hid.
      unique_row Hj Hid.
    + exists m'. split; [exact Hlook|exact Hst].
  - destruct (Hsweep 5 Exemplos.dez_minutos) as [Hyes _].
    apply Hyes.
    + discriminate.
    + exists 0. split; [reflexivity|]. vm_compute. reflexivity.
Defined.

(** C1, as the specification states it, fails on both counts: a heartbeat
    takes a Blocked device to Online, and the sweep selects Blocked and
    Maintenance devices and takes them to Offline. *)
Lemma blocked_status_not_protected :
  ~ (forall s hb now id m m',
        maquinas s !! id = Some m -> Maquina.status m = BLOQUEADA ->
        maquinas (snd (MaquinaService.processar_heartbeat s hb now)) !! id
          = Some m' ->
        Maquina.status m' = BLOQUEADA) /\
  ~ (forall s minutos now id m,
        maquinas s !! id = Some m ->
        Maquina.status m = BLOQUEADA \/ Maquina.status m = MANUTENCAO ->
        (forall m', (id, m') ∉
                    fst (MaquinaService.verificar_maquinas_offline s minutos now)) /\
        maquinas (snd (MaquinaService.verificar_maquinas_offline s minutos now))
          !! id = Some m).
Proof.
  split.
  - intros Hclaim.
    specialize (Hclaim Exemplos.parque Exemplos.heartbeat_online
                  Exemplos.dez_minutos 1 Exemplos.maquina_bloqueada
                  (Maquina.mk 1 "maq-0001" (Some Exemplos.dez_minutos) ONLINE 0 None)
                  eq_refl eq_refl eq_refl).
    discriminate Hclaim.
  - intros Hclaim.
    destruct (Hclaim Exemplos.parque 5 Exemplos.dez_minutos 2
                Exemplos.maquina_manutencao eq_refl (or_intror eq_refl))
      as [_ Hsame].
    vm_compute in Hsame. discriminate Hsame.
Qed.

(** ** Sweeping twice *)

(** C7 (as amended).  A second sweep returns only devices that the first one
    did not select: devices that are not Offline and whose last connection
    lies between the two threshold instants.  When the clock has not moved
    between the two calls there is no such device and the second sweep
    returns the empty list. *)
Theorem second_sweep_selects_only_newly_stale
    (s : Sistema) (minutos : Z) (now1 now2 : datetime) :
  let s1 := snd (MaquinaService.verificar_maquinas_offline s minutos now1) in
  let again := fst (MaquinaService.verificar_maquinas_offline s1 minutos now2) in
  (now2 = now1 -> again = []) /\
  (forall id m', (id, m') ∈ again ->
     (forall m1, (id, m1) ∉
                 fst (MaquinaService.verificar_maquinas_offline s minutos now1)) /\
     exists m t,
       maquinas s !! id = Some m /\ Maquina.status m <> OFFLINE /\
       Maquina.ultima_conexao m = Some t /\
       now1 - timedelta_minutes minutos <= t < now2 - timedelta_minutes minutos).
Proof.
  intros s1 again.
  assert (Hsel : forall id m', (id, m') ∈ again ->
            exists m t,
              maquinas s !! id = Some m /\ Maquina.status m <> OFFLINE /\
              Maquina.ultima_conexao m = Some t /\
              MaquinaService.filtro_offline (now1 - timedelta_minutes minutos) m
                = false /\
              now1 - timedelta_minutes minutos <= t
                < now2 - timedelta_minutes minutos).
  { intros id m' Hin. subst again s1.
    apply verificar_maquinas_offline_result in Hin as (m1 & Hrow1 & Hp2 & _).
    rewrite verificar_maquinas_offline_lookup in Hrow1.
    destruct (maquinas s !! id) as [m|] eqn:Hrow; [|discriminate].
    simpl in Hrow1. injection Hrow1 as <-.
    destruct (MaquinaService.filtro_offline
                (now1 - timedelta_minutes minutos) m) eqn:Hp1.
    - by rewrite filtro_offline_with_status in Hp2.
    - apply filtro_offline_spec in Hp2 as (Hon & t & Huc & Hlt).
      exists m, t. repeat split; try done.
      destruct (decide (t < now1 - timedelta_minutes minutos)) as [Hold|]; [|lia].
      assert (MaquinaService.filtro_offline
                (now1 - timedelta_minutes minutos) m = true)
        by (apply filtro_offline_spec; eauto).
      congruence. }
  split.
  - intros ->. destruct again as [|[id m'] l] eqn:Hagain; [done|].
    destruct (Hsel id m') as (m & t & _ & _ & _ & _ & Hrange); [left|lia].
  - intros id m' Hin.
    destruct (Hsel id m' Hin) as (m & t & Hrow & Hon & Huc & Hp1 & Hrange).
    split; [|by eauto 10].
    intros m1 Hin1.
    apply verificar_maquinas_offline_result in Hin1 as (m0 & Hrow0 & Hp & _).
    congruence.
Qed.

Lemma second_sweep_selects_only_newly_stale_witness :
  fst (MaquinaService.verificar_maquinas_offline
         (snd (MaquinaService.verificar_maquinas_offline
                 Exemplos.parque 5 Exemplos.dez_minutos))
         5 Exemplos.dez_minutos) = [].
Proof.
  exact (proj1 (second_sweep_selects_only_newly_stale
                  Exemplos.parque 5 Exemplos.dez_minutos Exemplos.dez_minutos)
               eq_refl).
Defined.

(** C7, as the specification states it (any later instant for the second
    call), fails: a device seen exactly five minutes before the first sweep
    is not selected by it, and is selected one microsecond later. *)
Lemma second_sweep_not_always_empty :
  ~ (forall s minutos now1 now2,
        now1 <= now2 ->
        fst (MaquinaService.verificar_maquinas_offline
               (snd (MaquinaService.verificar_maquinas_offline s minutos now1))
               minutos now2) = []).
Proof.
  intros Hclaim.
  specialize (Hclaim Exemplos.parque_recente 5 Exemplos.dez_minutos
                (Exemplos.dez_minutos + 1)).
  assert (Hle : Exemplos.dez_minutos <= Exemplos.dez_minutos + 1) by lia.
  apply Hclaim in Hle. vm_compute in Hle. discriminate Hle.
Qed.

(** ** Licences: activate, verify, renew *)

Lemma query_por_chave (s : Sistema) (chave : string) (id : Z) (l : Licenca.t) :
  licencas s !! id = Some l -> Licenca.chave_licenca l = chave ->
  chave_identifica s chave id ->
  query_first (LicencaService.por_chave chave) (licencas s) = Some (id, l).
Proof.
  intros Hrow Hchave Huniq. apply query_first_unique; [|done|].
  - intros j b Hj Hb. apply bool_decide_eq_true in Hb. eauto.
  - by apply bool_decide_eq_true.
Qed.

(** Rewriting the row of a licence keeps its key the key of that row. *)
Lemma chave_identifica_insert (s : Sistema) (chave : string) (id : Z)
    (l' : Licenca.t) (s' : Sistema) :
  chave_identifica s chave id ->
  licencas s' = <[id := l']> (licencas s) ->
  chave_identifica s' chave id.
Proof.
  intros Huniq Hs' j b Hj Hb. rewrite Hs' in Hj.
  destruct (decide (j = id)) as [|Hne]; [done|].
  rewrite lookup_insert_ne in Hj by done. eauto.
Qed.

(** The four ways out of [ativar_licenca] for a licence that exists. *)
Inductive ativacao (s : Sistema) (maquina_id : option Z) (now : datetime)
    (id : Z) (l : Licenca.t) : bool * Sistema -> Prop :=
  | ja_ativa :
      Licenca.status l = ATIVA ->
      ativacao s maquina_id now id l (true, s)
  | expirou :
      Licenca.status l <> ATIVA ->
      LicencaService.expirada_em now l = true ->
      ativacao s maquina_id now id l
        (false,
         enviar_alerta (licenca_expirada id)
           (with_licencas
              (<[id := Licenca.with_status EXPIRADA l]> (licencas s)) s))
  | limite_atingido :
      Licenca.status l <> ATIVA ->
      LicencaService.expirada_em now l = false ->
      Licenca.limite_usos l > 0 ->
      Licenca.usos_atuais l >= Licenca.limite_usos l ->
      ativacao s maquina_id now id l (false, s)
  | ativada l' :
      Licenca.status l <> ATIVA ->
      LicencaService.expirada_em now l = false ->
      ~ (Licenca.limite_usos l > 0 /\
         Licenca.usos_atuais l >= Licenca.limite_usos l) ->
      l' = (let l1 := Licenca.with_usos_atuais (Licenca.usos_atuais l + 1)
                        (Licenca.with_data_ativacao (Some now)
                           (Licenca.with_status ATIVA l)) in
            if truthy_int maquina_id
            then Licenca.with_maquina_id maquina_id l1 else l1) ->
      ativacao s maquina_id now id l
        (true, with_licencas (<[id := l']> (licencas s)) s).

Lemma ativar_licenca_cases (s : Sistema) (chave : string)
    (maquina_id : option Z) (now : datetime) (id : Z) (l : Licenca.t) :
  query_first (LicencaService.por_chave chave) (licencas s) = Some (id, l) ->
  ativacao s maquina_id now id l
    (LicencaService.ativar_licenca s chave maquina_id now).
Proof.
  intros Hfind. unfold LicencaService.ativar_licenca. rewrite Hfind.
  destruct (decide (Licenca.status l = ATIVA)) as [Hat|Hnat].
  - rewrite bool_decide_eq_true_2 by done. by constructor.
  - rewrite bool_decide_eq_false_2 by done.
    destruct (LicencaService.expirada_em now l) eqn:Hexp.
    + by constructor.
    + destruct (decide (Licenca.limite_usos l > 0)) as [Hlim|Hlim].
      * rewrite (bool_decide_eq_true_2 _ Hlim). simpl.
        destruct (decide (Licenca.usos_atuais l >= Licenca.limite_usos l))
          as [Huso|Huso].
        -- rewrite bool_decide_eq_true_2 by done. by constructor.
        -- rewrite bool_decide_eq_false_2 by done.
           eapply ativada; try done. tauto.
      * rewrite (bool_decide_eq_false_2 _ Hlim). simpl.
        eapply ativada; try done. tauto.
Qed.

Lemma expirada_em_spec (now : datetime) (l : Licenca.t) :
  LicencaService.expirada_em now l = true <->
  exists d, Licenca.data_expiracao l = Some d /\ d < now.
Proof.
  unfold LicencaService.expirada_em.
  destruct (Licenca.data_expiracao l) as [d|].
  - rewrite bool_decide_eq_true. split; [eauto|]. by intros (d' & [= <-] & ?).
  - split; [discriminate|]. by intros (d & ? & _).
Qed.

(** An activation with a key that no licence has. *)
Lemma ativar_licenca_unknown (s : Sistema) (chave : string)
    (maquina_id : option Z) (now : datetime) :
  (forall j l, licencas s !! j = Some l -> Licenca.chave_licenca l <> chave) ->
  LicencaService.ativar_licenca s chave maquina_id now = (false, s).
Proof.
  intros Hnone. unfold LicencaService.ativar_licenca.
  destruct (query_first (LicencaService.por_chave chave) (licencas s))
    as [[j l]|] eqn:Hfind; [|done].
  apply query_first_Some in Hfind as [Hj Hk].
  apply bool_decide_eq_true in Hk. by destruct (Hnone j l Hj).
Qed.

(** C5 (as amended).  A licence that is neither Active nor past its
    expiration date, with a positive limit that its use count has reached,
    is refused and the system is left exactly as it was: no row, no alert,
    nothing changes.  The refusal carries no reason of its own: the service
    returns [False], exactly what it returns for a key that no licence has,
    and the endpoint answers both with the same 400 response. *)
Theorem ativar_licenca_quota_refused
    (s : Sistema) (chave : string) (maquina_id : option Z) (now : datetime)
    (id : Z) (l : Licenca.t)
    (Hrow : licencas s !! id = Some l)
    (Hchave : Licenca.chave_licenca l = chave)
    (Huniq : chave_identifica s chave id)
    (Hnot_active : Licenca.status l <> ATIVA)
    (Hnot_expired : forall d, Licenca.data_expiracao l = Some d -> now <= d)
    (Hlimit : Licenca.limite_usos l > 0)
    (Hquota : Licenca.usos_atuais l >= Licenca.limite_usos l) :
  LicencaService.ativar_licenca s chave maquina_id now = (false, s) /\
  licencas (snd (LicencaService.ativar_licenca s chave maquina_id now)) !! id
    = Some l /\
  LicencaApi.ativar_licenca s chave maquina_id now
    = (HTTP_400 "Falha ao ativar licença", s) /\
  (forall outra,
     (forall j l', licencas s !! j = Some l' ->
                   Licenca.chave_licenca l' <> outra) ->
     LicencaService.ativar_licenca s outra maquina_id now
       = LicencaService.ativar_licenca s chave maquina_id now /\
     LicencaApi.ativar_licenca s outra maquina_id now
       = LicencaApi.ativar_licenca s chave maquina_id now).
Proof.
  pose proof (query_por_chave s chave id l Hrow Hchave Huniq) as Hfind.
  assert (Hne : LicencaService.expirada_em now l = false).
  { destruct (LicencaService.expirada_em now l) eqn:Hexp; [|done].
    apply expirada_em_spec in Hexp as (d & Hd & Hlt).
    specialize (Hnot_expired d Hd). lia. }
  assert (Hcall : LicencaService.ativar_licenca s chave maquina_id now
                  = (false, s)).
  { destruct (ativar_licenca_cases s chave maquina_id now id l Hfind)
      as [Hat|Hnat Hexp|_ _ _ _|l' _ _ Hno _]; try done; try congruence.
    exfalso. apply Hno. done. }
  split; [exact Hcall|]. split; [by rewrite Hcall|].
  unfold LicencaApi.ativar_licenca. rewrite Hcall. split; [done|].
  intros outra Hnone.
  by rewrite (ativar_licenca_unknown s outra maquina_id now Hnone).
Qed.

Lemma ativar_licenca_quota_refused_witness :
  LicencaService.ativar_licenca Exemplos.carteira "LIC-BBBB" (Some 9)
                                Exemplos.um_dia
    = (false, Exemplos.carteira) /\
  licencas (snd (LicencaService.ativar_licenca Exemplos.carteira "LIC-BBBB"
                   (Some 9) Exemplos.um_dia)) !! 2
    = Some Exemplos.licenca_esgotada /\
  LicencaApi.ativar_licenca Exemplos.carteira "LIC-BBBB" (Some 9)
                            Exemplos.um_dia
    = (HTTP_400 "Falha ao ativar licença", Exemplos.carteira).
Proof.
  destruct (ativar_licenca_quota_refused Exemplos.carteira "LIC-BBBB" (Some 9)
              Exemplos.um_dia 2 Exemplos.licenca_esgotada)
    as (Hcall & Hrow & Hapi & _).
  - reflexivity.
  - reflexivity.
  - intros j l Hj Hk.
    unique_row Hj Hk.
  - discriminate.
  - discriminate.
  - reflexivity.
  - discriminate.
  - split; [exact Hcall|]. split; [exact Hrow|exact Hapi].
Defined.

(** C5, as the specification states it, fails: the failure is not a
    [QuotaExceeded].  Whatever is read off the result of the call, it reads
    the same for a licence at its limit and for a key that no licence has,
    so it cannot be [QuotaExceeded] for the one and [NotFound] for the
    other. *)
Lemma quota_failure_is_not_told_apart :
  ~ (exists falha_de : bool * Sistema -> Falha,
       (forall s chave maquina_id now id l,
          licencas s !! id = Some l -> Licenca.chave_licenca l = chave ->
          chave_identifica s chave id ->
          Licenca.status l <> ATIVA ->
          (forall d, Licenca.data_expiracao l = Some d -> now <= d) ->
          Licenca.limite_usos l > 0 ->
          Licenca.usos_atuais l >= Licenca.limite_usos l ->
          falha_de (LicencaService.ativar_licenca s chave maquina_id now)
            = QuotaExceeded) /\
       (forall s chave maquina_id now,
          (forall j l, licencas s !! j = Some l ->
                       Licenca.chave_licenca l <> chave) ->
          falha_de (LicencaService.ativar_licenca s chave maquina_id now)
            = NotFound)).
Proof.
  intros (falha_de & Hquota & Hunknown).
  assert (Hq : falha_de (LicencaService.ativar_licenca Exemplos.carteira
                           "LIC-BBBB" None Exemplos.um_dia) = QuotaExceeded).
  { apply (Hquota Exemplos.carteira "LIC-BBBB" None Exemplos.um_dia 2
             Exemplos.licenca_esgotada).
    - reflexivity.
    - reflexivity.
    - intros j l Hj Hk. unique_row Hj Hk.
    - discriminate.
    - discriminate.
    - reflexivity.
    - discriminate. }
  assert (Hu : falha_de (LicencaService.ativar_licenca Exemplos.carteira
                           "LIC-ZZZZ" None Exemplos.um_dia) = NotFound).
  { apply Hunknown. intros j l Hj Hk. unique_row Hj Hk. }
  assert (Hsame : LicencaService.ativar_licenca Exemplos.carteira "LIC-BBBB"
                    None Exemplos.um_dia
                  = LicencaService.ativar_licenca Exemplos.carteira "LIC-ZZZZ"
                      None Exemplos.um_dia) by reflexivity.
  rewrite Hsame in Hq. congruence.
Qed.

Lemma expirada_em_mono (now1 now2 : datetime) (l : Licenca.t) :
  now1 <= now2 ->
  LicencaService.expirada_em now1 l = true ->
  LicencaService.expirada_em now2 l = true.
Proof.
  intros Hle Hexp. apply expirada_em_spec in Hexp as (d & Hd & Hlt).
  apply expirada_em_spec. exists d. split; [done|lia].
Qed.

(** What a call of [ativar_licenca] leaves in the table: the row of the
    licence, still under its key, and every other row as it was. *)
Lemma ativacao_row (s : Sistema) (maquina_id : option Z) (now : datetime)
    (id : Z) (l : Licenca.t) (r : bool * Sistema) :
  licencas s !! id = Some l ->
  ativacao s maquina_id now id l r ->
  exists l1,
    licencas (snd r) !! id = Some l1 /\
    Licenca.chave_licenca l1 = Licenca.chave_licenca l /\
    Licenca.data_expiracao l1 = Licenca.data_expiracao l /\
    Licenca.limite_usos l1 = Licenca.limite_usos l /\
    (fst r = true -> Licenca.status l1 = ATIVA) /\
    (fst r = false ->
       Licenca.usos_atuais l1 = Licenca.usos_atuais l /\
       (LicencaService.expirada_em now l = true \/
        Licenca.limite_usos l > 0 /\
        Licenca.usos_atuais l >= Licenca.limite_usos l)) /\
    (licencas (snd r) = licencas s \/
     licencas (snd r) = <[id := l1]> (licencas s)).
Proof.
  intros Hrow Hcase.
  destruct Hcase as [Hat|Hnat Hexp|Hnat Hexp Hlim Huso|l' Hnat Hexp Hno ->];
    simpl.
  - exists l. split_and!; auto; discriminate.
  - exists (Licenca.with_status EXPIRADA l). rewrite lookup_insert_eq.
    split_and!; auto; discriminate.
  - exists l. split_and!; auto; discriminate.
  - eexists. rewrite lookup_insert_eq. split; [reflexivity|].
    split_and!; auto; try discriminate;
      by destruct (truthy_int maquina_id).
Qed.

(** C6.  Activating a licence that is already Active returns [True] and
    changes nothing.  Hence of two calls in a row only the first can change
    the use count: when the first call succeeds the second is a no-op on the
    whole system, and whatever the first call returns the second one leaves
    every use count as the first one left it. *)
Theorem ativar_licenca_idempotent
    (s : Sistema) (chave : string) (id : Z) (l : Licenca.t)
    (Hrow : licencas s !! id = Some l)
    (Hchave : Licenca.chave_licenca l = chave)
    (Huniq : chave_identifica s chave id) :
  (Licenca.status l = ATIVA ->
   forall maquina_id now,
     LicencaService.ativar_licenca s chave maquina_id now = (true, s)) /\
  (forall m1 m2 now1 now2, now1 <= now2 ->
     let r1 := LicencaService.ativar_licenca s chave m1 now1 in
     let r2 := LicencaService.ativar_licenca (snd r1) chave m2 now2 in
     (fst r1 = true -> r2 = (true, snd r1)) /\
     (forall j, Licenca.usos_atuais <$> licencas (snd r2) !! j =
                Licenca.usos_atuais <$> licencas (snd r1) !! j)).
Proof.
  pose proof (query_por_chave s chave id l Hrow Hchave Huniq) as Hfind.
  split.
  - intros Hat maquina_id now.
    destruct (ativar_licenca_cases s chave maquina_id now id l Hfind);
      congruence.
  - intros m1 m2 now1 now2 Hle r1 r2.
    pose proof (ativar_licenca_cases s chave m1 now1 id l Hfind) as Hc1.
    fold r1 in Hc1.
    destruct (ativacao_row s m1 now1 id l r1 Hrow Hc1)
      as (l1 & Hrow1 & Hk1 & Hd1 & Hlim1 & Hok1 & Hko1 & Htbl1).
    assert (Huniq1 : chave_identifica (snd r1) chave id).
    { destruct Htbl1 as [Heq|Heq].
      - intros j b Hj Hb. rewrite Heq in Hj. eauto.
      - by eapply chave_identifica_insert. }
    assert (Hfind1 : query_first (LicencaService.por_chave chave)
                       (licencas (snd r1)) = Some (id, l1))
      by (apply query_por_chave; [done|congruence|done]).
    pose proof (ativar_licenca_cases (snd r1) chave m2 now2 id l1 Hfind1) as Hc2.
    fold r2 in Hc2.
    split.
    + intros Hr1. specialize (Hok1 Hr1).
      destruct Hc2; congruence.
    + intros j.
      destruct Hc2 as [Hat2|Hnat2 Hexp2|Hnat2 Hexp2 Hlim2 Huso2
                       |l2 Hnat2 Hexp2 Hno2 Hl2]; simpl.
      * done.
      * destruct (decide (j = id)) as [->|Hne].
        -- by rewrite lookup_insert_eq, Hrow1.
        -- by rewrite lookup_insert_ne.
      * done.
      * exfalso. destruct (fst r1) eqn:Hr1.
        -- by specialize (Hok1 eq_refl).
        -- destruct (Hko1 eq_refl) as [Huso [Hexp1|Hquota]].
           ++ apply (expirada_em_mono now1 now2) in Hexp1; [|done].
              unfold LicencaService.expirada_em in Hexp1, Hexp2.
              rewrite Hd1 in Hexp2. congruence.
           ++ apply Hno2. rewrite Hlim1, Huso. exact Hquota.
Qed.

Lemma ativar_licenca_idempotent_witness :
  LicencaService.ativar_licenca Exemplos.carteira "LIC-CCCC" (Some 9)
                                Exemplos.um_dia
    = (true, Exemplos.carteira).
Proof.
  refine (proj1 (ativar_licenca_idempotent Exemplos.carteira "LIC-CCCC" 3
                   Exemplos.licenca_cinco_dias eq_refl eq_refl _)
                eq_refl (Some 9) Exemplos.um_dia).
  intros j l Hj Hk.
  unique_row Hj Hk.
Defined.

(** C10.  Whatever the status of a licence (Expired already, Suspended or
    Cancelled included), a [verificar_licenca] after its expiration date sets
    the status to Expired and requests an expiry alert; a second call on the
    same licence requests a second alert. *)
Theorem verificar_licenca_expires_whatever_status
    (s : Sistema) (chave : string) (now : datetime) (id : Z) (l : Licenca.t)
    (d : datetime)
    (Hrow : licencas s !! id = Some l)
    (Hchave : Licenca.chave_licenca l = chave)
    (Huniq : chave_identifica s chave id)
    (Hexp : Licenca.data_expiracao l = Some d)
    (Hpast : d < now) :
  let r := LicencaService.verificar_licenca s chave now in
  fst r = Some (id, Licenca.with_status EXPIRADA l) /\
  licencas (snd r) !! id = Some (Licenca.with_status EXPIRADA l) /\
  alertas (snd r) = alertas s ++ [licenca_expirada id] /\
  forall now', now <= now' ->
    alertas (snd (LicencaService.verificar_licenca (snd r) chave now'))
      = alertas s ++ [licenca_expirada id; licenca_expirada id].
Proof.
  pose proof (query_por_chave s chave id l Hrow Hchave Huniq) as Hfind.
  assert (Hx : LicencaService.expirada_em now l = true)
    by (apply expirada_em_spec; eauto).
  assert (Hcall : LicencaService.verificar_licenca s chave now =
            (Some (id, Licenca.with_status EXPIRADA l),
             enviar_alerta (licenca_expirada id)
               (with_licencas
                  (<[id := Licenca.with_status EXPIRADA l]> (licencas s)) s))).
  { unfold LicencaService.verificar_licenca. by rewrite Hfind, Hx. }
  cbv zeta. rewrite Hcall. simpl.
  rewrite lookup_insert_eq. split_and!; try done.
  intros now' Hle.
  set (s1 := enviar_alerta _ _).
  assert (Hfind1 : query_first (LicencaService.por_chave chave) (licencas s1)
                   = Some (id, Licenca.with_status EXPIRADA l)).
  { apply query_por_chave.
    - subst s1. simpl. by rewrite lookup_insert_eq.
    - done.
    - by eapply chave_identifica_insert. }
  assert (Hx1 : LicencaService.expirada_em now'
                  (Licenca.with_status EXPIRADA l) = true)
    by (apply expirada_em_spec; exists d; split; [done|lia]).
  unfold LicencaService.verificar_licenca. rewrite Hfind1, Hx1. simpl.
  by rewrite <- app_assoc.
Qed.

(** A cancelled licence, past its date, becomes Expired. *)
Lemma verificar_licenca_expires_whatever_status_witness :
  Licenca.status Exemplos.licenca_cancelada = CANCELADA /\
  (Licenca.status <$>
     licencas (snd (LicencaService.verificar_licenca
                      Exemplos.carteira "LIC-AAAA" Exemplos.um_dia)) !! 1)
    = Some EXPIRADA /\
  alertas (snd (LicencaService.verificar_licenca
                  Exemplos.carteira "LIC-AAAA" Exemplos.um_dia))
    = [licenca_expirada 1].
Proof.
  assert (Huniq : chave_identifica Exemplos.carteira "LIC-AAAA" 1).
  { intros j l Hj Hk.
    unique_row Hj Hk. }
  assert (Hpast : 0 < Exemplos.um_dia) by reflexivity.
  destruct (verificar_licenca_expires_whatever_status Exemplos.carteira
              "LIC-AAAA" Exemplos.um_dia 1 Exemplos.licenca_cancelada 0
              eq_refl eq_refl Huniq eq_refl Hpast) as (_ & Hlook & Hal & _).
  split; [reflexivity|]. split.
  - by rewrite Hlook.
  - exact Hal.
Defined.

(** C2 (as amended).  [renovar_licenca] extends the licence from its old
    expiration date [T], the current instant playing no part: the new date is
    [T] plus [meses] times thirty days, which is not before [T] when [meses]
    is not negative.  The status becomes Active and the renewal date the
    current instant. *)
Theorem renovar_licenca_extends_old_date
    (s : Sistema) (licenca_id : Z) (l : Licenca.t) (T : datetime)
    (meses : Z) (now : datetime)
    (Hrow : licencas s !! licenca_id = Some l)
    (Hexp : Licenca.data_expiracao l = Some T) :
  exists l',
    LicencaService.renovar_licenca s licenca_id meses now =
      (true, with_licencas (<[licenca_id := l']> (licencas s)) s) /\
    Licenca.data_expiracao l' = Some (T + timedelta_days (30 * meses)) /\
    (0 <= meses -> T <= T + timedelta_days (30 * meses)) /\
    Licenca.status l' = ATIVA /\
    Licenca.data_renovacao l' = Some now /\
    Licenca.usos_atuais l' = Licenca.usos_atuais l.
Proof.
  unfold LicencaService.renovar_licenca. rewrite Hrow, Hexp.
  eexists. split; [reflexivity|]. simpl. split_and!; try done.
  unfold timedelta_days, microseconds_per_day. lia.
Qed.

(** Without an expiration date the extension starts at the current
    instant. *)
Lemma renovar_licenca_without_date
    (s : Sistema) (licenca_id : Z) (l : Licenca.t) (meses : Z)
    (now : datetime) :
  licencas s !! licenca_id = Some l ->
  Licenca.data_expiracao l = None ->
  exists l',
    licencas (snd (LicencaService.renovar_licenca s licenca_id meses now))
      !! licenca_id = Some l' /\
    Licenca.data_expiracao l' = Some (now + timedelta_days (30 * meses)).
Proof.
  intros Hrow Hexp. unfold LicencaService.renovar_licenca.
  rewrite Hrow, Hexp. simpl. rewrite lookup_insert_eq. eauto.
Qed.

Lemma renovar_licenca_extends_old_date_witness :
  exists l',
    LicencaService.renovar_licenca Exemplos.carteira 1 1 Exemplos.um_dia =
      (true, with_licencas (<[1 := l']> (licencas Exemplos.carteira))
                           Exemplos.carteira) /\
    Licenca.data_expiracao l' = Some (30 * Exemplos.um_dia) /\
    Licenca.status l' = ATIVA.
Proof.
  destruct (renovar_licenca_extends_old_date Exemplos.carteira 1
              Exemplos.licenca_cancelada 0 1 Exemplos.um_dia eq_refl eq_refl)
    as (l' & Hr & Hd & _ & Hst & _).
  exists l'. split; [exact Hr|]. split; [exact Hd|exact Hst].
Defined.

(** C2, as the specification states it, fails: a licence that expired at
    instant 0 and is renewed for one month a day later expires thirty days
    after instant 0, not thirty days after the renewal. *)
Lemma renovar_licenca_ignores_now :
  ~ (forall s licenca_id l T meses now,
        licencas s !! licenca_id = Some l ->
        Licenca.data_expiracao l = Some T ->
        exists l',
          licencas (snd (LicencaService.renovar_licenca s licenca_id meses now))
            !! licenca_id = Some l' /\
          Licenca.data_expiracao l' =
            Some (Z.max T now + timedelta_days (30 * meses))).
Proof.
  intros Hclaim.
  destruct (Hclaim Exemplos.carteira 1 Exemplos.licenca_cancelada 0 1
              Exemplos.um_dia eq_refl eq_refl) as (l' & Hl & Hd).
  vm_compute in Hl. injection Hl as <-. vm_compute in Hd. discriminate Hd.
Qed.

(** ** The licence-expiry task *)

Lemma filtro_expirando_spec (data_limite now : datetime) (l : Licenca.t) :
  LicencaService.filtro_expirando data_limite now l = true <->
  Licenca.status l = ATIVA /\
  exists d, Licenca.data_expiracao l = Some d /\ now < d <= data_limite.
Proof.
  unfold LicencaService.filtro_expirando, null_le, null_gt.
  rewrite !andb_true_iff, bool_decide_eq_true.
  destruct (Licenca.data_expiracao l) as [d|].
  - rewrite !bool_decide_eq_true. split.
    + intros [[? ?] ?]. split; [done|]. exists d. split; [done|lia].
    + intros [? (d' & [= <-] & ?)]. split_and!; [done|lia|lia].
  - split; [intros [[_ ?] _]; discriminate|intros [_ (d & ? & _)]; discriminate].
Qed.

Lemma alertas_fold_enviar (novos : list Alerta) (s : Sistema) :
  let s' := fold_left (fun s a => enviar_alerta a s) novos s in
  alertas s' = alertas s ++ novos /\
  clientes s' = clientes s /\ maquinas s' = maquinas s /\
  maquinas_metricas s' = maquinas_metricas s /\ licencas s' = licencas s /\
  assinaturas s' = assinaturas s /\ bloqueios s' = bloqueios s.
Proof.
  revert s. induction novos as [|a novos IH]; intros s; simpl.
  - by rewrite app_nil_r.
  - destruct (IH (enviar_alerta a s)) as (-> & -> & -> & -> & -> & -> & ->).
    simpl. by rewrite <- app_assoc.
Qed.

(** The scheduled tasks never get a session: [next] is applied to the
    context manager that [get_db()] returns. *)
Lemma next_get_db : Database.next Database.get_db = Levanta TypeError.
Proof. reflexivity. Qed.

(** C3 (a defect of the code).  The query of the licence-expiry sweep does
    select exactly the Active licences whose expiration date lies in the
    next [dias] days, seven for the scheduled task, and no licence changes
    status.  But the task requests no alert at all: its first statement,
    [db = next(get_db())], raises [TypeError], the task logs it and returns,
    and the system is left as it was.  Four days into the example an Active
    licence with two days left is in the selection of the query, and the
    task requests nothing for it. *)
Theorem monitorar_licencas_expirando_requests_no_alert :
  Database.next Database.get_db = Levanta TypeError /\
  (forall s now,
     MonitoramentoService.monitorar_licencas_expirando s now = s) /\
  (forall s dias now id l,
      (id, l) ∈ LicencaService.get_licencas_expirando s dias now <->
      licencas s !! id = Some l /\ Licenca.status l = ATIVA /\
      exists d, Licenca.data_expiracao l = Some d /\
                now < d <= now + timedelta_days dias) /\
  (let now := 4 * Exemplos.um_dia in
   (3, Exemplos.licenca_cinco_dias)
     ∈ LicencaService.get_licencas_expirando Exemplos.carteira 7 now /\
   Licenca.data_expiracao Exemplos.licenca_cinco_dias
     = Some (now + timedelta_days 2) /\
   alertas (MonitoramentoService.monitorar_licencas_expirando
              Exemplos.carteira now) = []).
Proof.
  assert (Hsel : forall s dias now id l,
             (id, l) ∈ LicencaService.get_licencas_expirando s dias now <->
             licencas s !! id = Some l /\ Licenca.status l = ATIVA /\
             exists d, Licenca.data_expiracao l = Some d /\
                       now < d <= now + timedelta_days dias).
  { intros s dias now id l. unfold LicencaService.get_licencas_expirando.
    rewrite elem_of_query_all, filtro_expirando_spec. tauto. }
  assert (Htask : forall s now,
            MonitoramentoService.monitorar_licencas_expirando s now = s).
  { intros s now. unfold MonitoramentoService.monitorar_licencas_expirando.
    by rewrite next_get_db. }
  split; [exact next_get_db|]. split; [exact Htask|]. split; [exact Hsel|].
  split_and!.
  - apply Hsel. split_and!; [reflexivity|reflexivity|].
    exists (6 * Exemplos.um_dia). split; [reflexivity|].
    unfold timedelta_days, microseconds_per_day, Exemplos.um_dia. lia.
  - reflexivity.
  - by rewrite Htask.
Qed.

(** ** Subscriptions: renewal and the renewal task *)

Lemma filtro_renovacoes_spec (data_limite now : datetime) (a : Assinatura.t) :
  AssinaturaService.filtro_renovacoes data_limite now a = true <->
  Assinatura.status a = "ativa" /\ Assinatura.renovacao_automatica a = true /\
  exists d, Assinatura.data_fim a = Some d /\ now < d <= data_limite.
Proof.
  unfold AssinaturaService.filtro_renovacoes, null_le, null_gt.
  rewrite !andb_true_iff, !bool_decide_eq_true.
  destruct (Assinatura.data_fim a) as [d|].
  - rewrite !bool_decide_eq_true. split.
    + intros [[[? ?] ?] ?]. split_and!; try done. exists d. split; [done|lia].
    + intros (? & ? & d' & [= <-] & ?). split_and!; [done|lia|lia|done].
  - split; [intros [[[_ ?] _] _]; discriminate
           |intros (_ & _ & d & ? & _); discriminate].
Qed.

Lemma renovada_with_date (a : Assinatura.t) (d : datetime) :
  Assinatura.data_fim a = Some d ->
  renovada a =
  Assinatura.with_data_fim
    (Some (d + timedelta_days
                 (AssinaturaService.dias_do_ciclo (Assinatura.ciclo a)))) a.
Proof. intros Hd. unfold renovada. by rewrite Hd. Qed.

(** One renewal: the end moves by one cycle, the client's cached expiration
    date follows, nothing else changes. *)
Lemma renovar_assinatura_ok (s : Sistema) (id : Z) (a : Assinatura.t)
    (d : datetime) :
  assinaturas s !! id = Some a -> Assinatura.data_fim a = Some d ->
  exists s1,
    AssinaturaService.renovar_assinatura s id = Retorna (true, s1) /\
    assinaturas s1 = <[id := renovada a]> (assinaturas s) /\
    clientes s1 =
      match clientes s !! Assinatura.cliente_id a with
      | Some c =>
          <[Assinatura.cliente_id a :=
              Cliente.with_data_expiracao
                (Some (d + timedelta_days
                             (AssinaturaService.dias_do_ciclo
                                (Assinatura.ciclo a)))) c]> (clientes s)
      | None => clientes s
      end /\
    alertas s1 = alertas s /\ licencas s1 = licencas s /\
    maquinas s1 = maquinas s /\ bloqueios s1 = bloqueios s.
Proof.
  intros Hrow Hd. unfold AssinaturaService.renovar_assinatura.
  rewrite Hrow, Hd. eexists. split; [reflexivity|].
  rewrite (renovada_with_date a d Hd). simpl.
  by destruct (clientes s !! Assinatura.cliente_id a).
Qed.

Lemma fold_enviar_map {A} (f : A -> Alerta) (l : list A) (s : Sistema) :
  fold_left (fun s a => enviar_alerta (f a) s) l s =
  fold_left (fun s a => enviar_alerta a s) (List.map f l) s.
Proof. revert s. induction l as [|x l IH]; intros s; simpl; [done|apply IH]. Qed.

(** C9 (a defect of the code).  The service does what the specification
    says of the renewal sweep, piece by piece: [verificar_renovacoes] selects
    exactly the subscriptions that are "ativa", renew automatically and end
    within the next three days (the look-ahead of the code) and requests one
    payment-pending alert for each of them; [renovar_assinatura] moves the
    end of a subscription by the thirty, ninety, 180, 365 or 730 days of its
    cycle and writes the new end into the client's expiration date.  But the
    scheduled task that is to put the two together does neither: its first
    statement, [db = next(get_db())], raises [TypeError], the task logs it
    and returns.  On day 28 the monthly subscription of the example is
    selected by the query, and the task leaves it, its client and the alert
    trace as they were. *)
Theorem monitorar_renovacoes_assinaturas_renews_nothing :
  (forall s now,
     MonitoramentoService.monitorar_renovacoes_assinaturas s now = s) /\
  (forall s now,
     let r := AssinaturaService.verificar_renovacoes s now in
     (forall id a,
        (id, a) ∈ fst r <->
        assinaturas s !! id = Some a /\ Assinatura.status a = "ativa" /\
        Assinatura.renovacao_automatica a = true /\
        exists d, Assinatura.data_fim a = Some d /\
                  now < d <= now + timedelta_days 3) /\
     NoDup (List.map fst (fst r)) /\
     alertas (snd r) =
       alertas s ++ List.map (fun x => pagamento_pendente (fst x)) (fst r) /\
     assinaturas (snd r) = assinaturas s /\ clientes (snd r) = clientes s) /\
  (forall s id a d,
     assinaturas s !! id = Some a -> Assinatura.data_fim a = Some d ->
     let fim := d + timedelta_days
                      (AssinaturaService.dias_do_ciclo (Assinatura.ciclo a)) in
     exists s1,
       AssinaturaService.renovar_assinatura s id = Retorna (true, s1) /\
       assinaturas s1 !! id = Some (Assinatura.with_data_fim (Some fim) a) /\
       (forall j, j <> id -> assinaturas s1 !! j = assinaturas s !! j) /\
       (forall c, clientes s !! Assinatura.cliente_id a = Some c ->
                  clientes s1 !! Assinatura.cliente_id a
                    = Some (Cliente.mk (Some fim))) /\
       alertas s1 = alertas s) /\
  List.map AssinaturaService.dias_do_ciclo
           [MENSAL; TRIMESTRAL; SEMESTRAL; ANUAL; BIANUAL]
    = [30; 90; 180; 365; 730] /\
  (let now := 28 * Exemplos.um_dia in
   let s' := MonitoramentoService.monitorar_renovacoes_assinaturas
               Exemplos.clientela now in
   (1, Exemplos.assinatura_mensal)
     ∈ fst (AssinaturaService.verificar_renovacoes Exemplos.clientela now) /\
   alertas s' = [] /\
   assinaturas s' !! 1 = Some Exemplos.assinatura_mensal /\
   Assinatura.data_fim Exemplos.assinatura_mensal
     = Some (30 * Exemplos.um_dia) /\
   clientes s' !! 1 = Some (Cliente.mk (Some (30 * Exemplos.um_dia)))).
Proof.
  assert (Htask : forall s now,
            MonitoramentoService.monitorar_renovacoes_assinaturas s now = s).
  { intros s now.
    unfold MonitoramentoService.monitorar_renovacoes_assinaturas.
    by rewrite next_get_db. }
  assert (Hsel : forall s now id a,
            (id, a) ∈ fst (AssinaturaService.verificar_renovacoes s now) <->
            assinaturas s !! id = Some a /\ Assinatura.status a = "ativa" /\
            Assinatura.renovacao_automatica a = true /\
            exists d, Assinatura.data_fim a = Some d /\
                      now < d <= now + timedelta_days 3).
  { intros s now id a. unfold AssinaturaService.verificar_renovacoes.
    simpl. rewrite elem_of_query_all, filtro_renovacoes_spec. tauto. }
  split; [exact Htask|]. split_and!.
  - intros s now r. split; [apply Hsel|].
    split; [apply NoDup_query_all_ids|].
    subst r. unfold AssinaturaService.verificar_renovacoes. cbn [fst snd].
    rewrite fold_enviar_map.
    destruct (alertas_fold_enviar
                (List.map (fun x : Z * Assinatura.t =>
                             pagamento_pendente (fst x))
                   (query_all (AssinaturaService.filtro_renovacoes
                                 (now + timedelta_days 3) now)
                              (assinaturas s))) s)
      as (Hal & Hcl & _ & _ & _ & Has & _).
    by rewrite Hal, Hcl, Has.
  - intros s id a d Hrow Hd fim.
    destruct (renovar_assinatura_ok s id a d Hrow Hd)
      as (s1 & Hcall & Has1 & Hcl1 & Hal1 & _).
    exists s1. split; [done|]. split_and!.
    + by rewrite Has1, lookup_insert_eq, (renovada_with_date a d Hd).
    + intros j Hne. by rewrite Has1, lookup_insert_ne.
    + intros c Hc. rewrite Hcl1, Hc. by rewrite lookup_insert_eq.
    + done.
  - reflexivity.
  - cbv zeta. rewrite Htask. split_and!; try reflexivity.
    apply Hsel. split_and!; try reflexivity.
    exists (30 * Exemplos.um_dia). split; [reflexivity|].
    unfold timedelta_days, microseconds_per_day, Exemplos.um_dia. lia.
Qed.

(** ** Broadcast *)

Lemma fold_enviar_um (falha : WebSocket -> bool) (message : Mensagem)
    (l : list WebSocket) (acc : gset WebSocket * list Envio) :
  fold_left (MaquinaConnectionManager.enviar_um falha message) l acc =
  (list_to_set (List.filter falha l) ∪ fst acc,
   snd acc ++ List.map (fun ws => mkEnvio ws message (negb (falha ws))) l).
Proof.
  revert acc. induction l as [|ws l IH]; intros [d envios]; simpl.
  - f_equal; [set_solver|by rewrite app_nil_r].
  - rewrite IH. unfold MaquinaConnectionManager.enviar_um.
    destruct (falha ws) eqn:Hf; simpl; rewrite <- app_assoc; simpl;
      f_equal; set_solver.
Qed.

Lemma fold_discard (l : list WebSocket) (subs : gset WebSocket) :
  fold_left (fun subs ws => subs ∖ {[ws]}) l subs = subs ∖ list_to_set l.
Proof.
  revert subs. induction l as [|ws l IH]; intros subs; simpl.
  - set_solver.
  - rewrite IH. set_solver.
Qed.

(** What [broadcast] does to a device that has subscribers. *)
Lemma broadcast_spec (falha : WebSocket -> bool)
    (self : MaquinaConnectionManager.t) (maquina_id : Z) (message : Mensagem)
    (subscribers : gset WebSocket) :
  MaquinaConnectionManager.maquina_subscriptions self !! maquina_id
    = Some subscribers ->
  exists subs',
    MaquinaConnectionManager.broadcast falha self maquina_id message =
    (MaquinaConnectionManager.mk
       (MaquinaConnectionManager.active_connections self)
       (<[maquina_id := subs']>
          (MaquinaConnectionManager.maquina_subscriptions self)),
     List.map (fun ws => mkEnvio ws message (negb (falha ws)))
              (elements subscribers)) /\
    forall ws, ws ∈ subs' <-> ws ∈ subscribers /\ falha ws = false.
Proof.
  intros Hsubs. unfold MaquinaConnectionManager.broadcast. rewrite Hsubs.
  rewrite fold_enviar_um. simpl. rewrite fold_discard.
  eexists. split; [reflexivity|].
  intros ws. rewrite elem_of_difference, elem_of_list_to_set, elem_of_elements.
  rewrite elem_of_union, elem_of_list_to_set, list_elem_of_In, filter_In.
  rewrite <- list_elem_of_In, elem_of_elements.
  destruct (falha ws); set_solver.
Qed.

(** C8.  [broadcast_heartbeat] calls [send_json] once for each subscriber of
    the device, whether or not the calls for other subscribers failed: every
    subscriber whose own call does not fail is delivered the event.  A
    subscriber whose call fails gets that single call and no other, and is
    no longer in the subscription set of the device afterwards; the other
    subscribers stay, and the sets of the other devices are not touched. *)
Theorem broadcast_heartbeat_isolates_failures
    (falha : WebSocket -> bool) (self : MaquinaConnectionManager.t)
    (maquina_id : Z) (heartbeat_data : HeartbeatRequest.t)
    (subscribers : gset WebSocket)
    (Hsubs : MaquinaConnectionManager.maquina_subscriptions self !! maquina_id
             = Some subscribers) :
  let r := MaquinaConnectionManager.broadcast_heartbeat
             falha self maquina_id heartbeat_data in
  let message := msg_heartbeat maquina_id heartbeat_data in
  List.map destino (snd r) = elements subscribers /\
  NoDup (List.map destino (snd r)) /\
  (forall e, e ∈ snd r ->
     mensagem e = message /\ entregue e = negb (falha (destino e))) /\
  (forall ws, ws ∈ subscribers -> falha ws = false ->
     mkEnvio ws message true ∈ snd r) /\
  (forall ws, ws ∈ subscribers -> falha ws = true ->
     mkEnvio ws message false ∈ snd r /\ mkEnvio ws message true ∉ snd r) /\
  (exists subs',
     MaquinaConnectionManager.maquina_subscriptions (fst r) !! maquina_id
       = Some subs' /\
     forall ws, ws ∈ subs' <-> ws ∈ subscribers /\ falha ws = false) /\
  (forall j, j <> maquina_id ->
     MaquinaConnectionManager.maquina_subscriptions (fst r) !! j =
     MaquinaConnectionManager.maquina_subscriptions self !! j).
Proof.
  intros r message.
  destruct (broadcast_spec falha self maquina_id message subscribers Hsubs)
    as (subs' & Hr & Hsubs').
  subst r. unfold MaquinaConnectionManager.broadcast_heartbeat.
  fold message. rewrite Hr. simpl.
  assert (Hdest : List.map destino
                    (List.map (fun ws => mkEnvio ws message (negb (falha ws)))
                              (elements subscribers)) = elements subscribers).
  { rewrite List.map_map. simpl. apply List.map_id. }
  assert (Hin : forall e,
             e ∈ List.map (fun ws => mkEnvio ws message (negb (falha ws)))
                          (elements subscribers) <->
             exists ws, ws ∈ subscribers /\
                        e = mkEnvio ws message (negb (falha ws))).
  { intros e. rewrite list_elem_of_In, in_map_iff. split.
    - intros (ws & <- & Hws). exists ws.
      by rewrite <- elem_of_elements, list_elem_of_In.
    - intros (ws & Hws & ->). exists ws. split; [done|].
      by apply list_elem_of_In, elem_of_elements. }
  split_and!.
  - exact Hdest.
  - rewrite Hdest. apply NoDup_elements.
  - intros e He. apply Hin in He as (ws & _ & ->). done.
  - intros ws Hws Hf. apply Hin. exists ws. by rewrite Hf.
  - intros ws Hws Hf. split.
    + apply Hin. exists ws. by rewrite Hf.
    + intros He. apply Hin in He as (ws' & _ & [= <- He]).
      rewrite Hf in He. discriminate.
  - exists subs'. by rewrite lookup_insert_eq.
  - intros j Hne. by rewrite lookup_insert_ne.
Qed.

(** Of three subscribers the second is broken: the first and the third are
    delivered the heartbeat, and the second is dropped from the set. *)
Lemma broadcast_heartbeat_isolates_failures_witness :
  mkEnvio 11%positive (msg_heartbeat 3 Exemplos.heartbeat_online) true
    ∈ snd (MaquinaConnectionManager.broadcast_heartbeat
             Exemplos.conexao_quebrada Exemplos.gerenciador 3
             Exemplos.heartbeat_online) /\
  mkEnvio 13%positive (msg_heartbeat 3 Exemplos.heartbeat_online) true
    ∈ snd (MaquinaConnectionManager.broadcast_heartbeat
             Exemplos.conexao_quebrada Exemplos.gerenciador 3
             Exemplos.heartbeat_online) /\
  exists subs',
    MaquinaConnectionManager.maquina_subscriptions
      (fst (MaquinaConnectionManager.broadcast_heartbeat
              Exemplos.conexao_quebrada Exemplos.gerenciador 3
              Exemplos.heartbeat_online)) !! 3 = Some subs' /\
    (12%positive ∉ subs') /\ 11%positive ∈ subs' /\ 13%positive ∈ subs'.
Proof.
  destruct (broadcast_heartbeat_isolates_failures
              Exemplos.conexao_quebrada Exemplos.gerenciador 3
              Exemplos.heartbeat_online {[ 11; 12; 13 ]}%positive eq_refl)
    as (_ & _ & _ & Hok & _ & (subs' & Hlook & Hsubs') & _).
  split; [apply Hok; [set_solver|reflexivity]|].
  split; [apply Hok; [set_solver|reflexivity]|].
  exists subs'. split; [exact Hlook|]. split_and!.
  - intros Hin. apply Hsubs' in Hin as [_ Hf]. discriminate Hf.
  - apply Hsubs'. split; [set_solver|reflexivity].
  - apply Hsubs'. split; [set_solver|reflexivity].
Defined.

(** ** Blocking a device *)

(** C4 (a defect of the code).  Blocking a device sets its status to Blocked
    and broadcasts the "bloqueio" event to its subscribers, but it adds no
    row to [bloqueios] and requests no alert, whereas suspending a licence
    adds its [Bloqueio] row. *)
Theorem bloquear_maquina_records_no_bloqueio :
  (forall falha s manager maquina_id motivo,
     let '(_, s', _, _) :=
       MaquinaApi.bloquear_maquina falha s manager maquina_id motivo in
     bloqueios s' = bloqueios s /\ alertas s' = alertas s) /\
  (let '(resposta, s', _, envios) :=
     MaquinaApi.bloquear_maquina (fun _ => false) Exemplos.parque
       Exemplos.gerenciador 3 "uso abusivo" in
   resposta = HTTP_200 /\
   Maquina.status <$> maquinas s' !! 3 = Some BLOQUEADA /\
   List.map mensagem envios =
     [msg_bloqueio 3 "uso abusivo"; msg_bloqueio 3 "uso abusivo";
      msg_bloqueio 3 "uso abusivo"] /\
   bloqueios s' = [] /\ alertas s' = []) /\
  (forall s licenca_id l motivo,
     licencas s !! licenca_id = Some l ->
     bloqueios (snd (LicencaService.bloquear_licenca s licenca_id motivo)) =
     bloqueios s ++ [Bloqueio.mk (Licenca.cliente_id l) (Licenca.maquina_id l)
                                 motivo "licenca" "alta" None]).
Proof.
  split_and!.
  - intros falha s manager maquina_id motivo.
    unfold MaquinaApi.bloquear_maquina, MaquinaService.bloquear_maquina.
    destruct (maquinas s !! maquina_id); simpl.
    + by destruct (MaquinaConnectionManager.broadcast_bloqueio _ _ _ _).
    + done.
  - vm_compute. split_and!; reflexivity.
  - intros s licenca_id l motivo Hrow.
    unfold LicencaService.bloquear_licenca. by rewrite Hrow.
Qed.

(** * More properties of the device service *)

Lemma acima_de_90_spec (x : Q) :
  acima_de_90 (Some x) = true <-> (90 < x)%Q.
Proof.
  unfold acima_de_90. rewrite andb_true_iff, !negb_true_iff. split.
  - intros [_ Hle]. apply Qnot_le_lt. intros Hx.
    apply Qle_bool_iff in Hx. congruence.
  - intros Hlt. split.
    + destruct (Qeq_bool x 0) eqn:Heq; [|done].
      apply Qeq_bool_iff in Heq. rewrite Heq in Hlt. discriminate Hlt.
    + destruct (Qle_bool x 90) eqn:Hle; [|done].
      apply Qle_bool_iff in Hle. by apply Qlt_not_le in Hlt.
Qed.

Lemma heartbeat_query (s : Sistema) (hb : HeartbeatRequest.t) (id : Z)
    (m : Maquina.t) :
  maquinas s !! id = Some m ->
  Maquina.identificador_unico m = HeartbeatRequest.identificador_unico hb ->
  (forall j m2, maquinas s !! j = Some m2 ->
                Maquina.identificador_unico m2 =
                HeartbeatRequest.identificador_unico hb -> j = id) ->
  query_first
    (fun m => bool_decide (Maquina.identificador_unico m =
                           HeartbeatRequest.identificador_unico hb))
    (maquinas s) = Some (id, m).
Proof.
  intros Hrow Hident Huniq.
  apply query_first_unique; [|done|by apply bool_decide_eq_true].
  intros j b Hj Hb. apply bool_decide_eq_true in Hb. eauto.
Qed.

(** The row that a heartbeat writes for the device its query found. *)
Lemma processar_heartbeat_row (s : Sistema) (hb : HeartbeatRequest.t)
    (now : datetime) (id : Z) (m : Maquina.t) :
  query_first
    (fun m => bool_decide (Maquina.identificador_unico m =
                           HeartbeatRequest.identificador_unico hb))
    (maquinas s) = Some (id, m) ->
  let r := MaquinaService.processar_heartbeat s hb now in
  exists m',
    fst r = Some (id, m') /\
    maquinas (snd r) = <[id := m']> (maquinas s) /\
    Maquina.cliente_id m' = Maquina.cliente_id m /\
    Maquina.identificador_unico m' = Maquina.identificador_unico m /\
    Maquina.ultima_conexao m' = Some now /\
    (Maquina.status m = OFFLINE -> HeartbeatRequest.status hb = ONLINE ->
       Maquina.tempo_atividade m' = Maquina.tempo_atividade m + 300) /\
    (Maquina.status m <> OFFLINE \/ HeartbeatRequest.status hb <> ONLINE ->
       Maquina.tempo_atividade m' = Maquina.tempo_atividade m) /\
    (forall v, HeartbeatRequest.versao_app hb = Some v -> v <> EmptyString ->
       Maquina.versao_app m' = Some v) /\
    (HeartbeatRequest.versao_app hb = None \/
     HeartbeatRequest.versao_app hb = Some EmptyString ->
       Maquina.versao_app m' = Maquina.versao_app m) /\
    licencas (snd r) = licencas s /\ assinaturas (snd r) = assinaturas s /\
    clientes (snd r) = clientes s /\ bloqueios (snd r) = bloqueios s.
Proof.
  intros Hfind.
  unfold MaquinaService.processar_heartbeat. rewrite Hfind.
  set (c := bool_decide (Maquina.status m = OFFLINE)
            && bool_decide (HeartbeatRequest.status hb = ONLINE)).
  set (t := truthy_str (HeartbeatRequest.versao_app hb)).
  assert (Hc : c = true <->
               Maquina.status m = OFFLINE /\
               HeartbeatRequest.status hb = ONLINE).
  { subst c. by rewrite andb_true_iff, !bool_decide_eq_true. }
  assert (Ht : t = true <->
               exists v, HeartbeatRequest.versao_app hb = Some v /\
                         v <> EmptyString).
  { subst t. unfold truthy_str.
    destruct (HeartbeatRequest.versao_app hb) as [v|].
    - rewrite negb_true_iff, bool_decide_eq_false. split; [eauto|].
      by intros (v' & [= <-] & ?).
    - split; [discriminate|]. by intros (v & ? & _). }
  clearbody c t.
  eexists. split; [reflexivity|].
  destruct (HeartbeatRequest.metricas hb) as [mt|];
    [destruct (acima_de_90 (MaquinaMetricaBase.cpu_uso mt)),
              (acima_de_90 (MaquinaMetricaBase.memoria_uso mt))|];
    (split; [reflexivity|]).
  all: destruct c, t; cbn; split_and!; try reflexivity.
  all: try (intros; exfalso;
            first [ by (assert (false = true) by (apply Hc; tauto))
                  | by (assert (false = true) by (apply Ht; eauto)) ]).
  all: try (intros [Hno|Hno]; exfalso; destruct (proj1 Hc eq_refl); done).
  all: try (intros v Hv Hne; by rewrite Hv).
  all: try (intros [Hv|Hv]; exfalso;
            destruct (proj1 Ht eq_refl) as (v & Hv' & Hne); congruence).
Qed.

(** A heartbeat of a registered device: the row it writes.  The last
    connection becomes the current instant; the uptime counter gains 300
    seconds exactly when the device was Offline and reports Online, and is
    left alone otherwise; the application version is replaced only by a
    non-empty one; the owner and the identifier never change, and no other
    device row or table is touched. *)
Theorem processar_heartbeat_updates_device
    (s : Sistema) (hb : HeartbeatRequest.t) (now : datetime) (id : Z)
    (m : Maquina.t)
    (Hrow : maquinas s !! id = Some m)
    (Hident : Maquina.identificador_unico m =
              HeartbeatRequest.identificador_unico hb)
    (Huniq : forall j m2, maquinas s !! j = Some m2 ->
               Maquina.identificador_unico m2 =
               HeartbeatRequest.identificador_unico hb -> j = id) :
  let r := MaquinaService.processar_heartbeat s hb now in
  exists m',
    fst r = Some (id, m') /\
    maquinas (snd r) = <[id := m']> (maquinas s) /\
    Maquina.cliente_id m' = Maquina.cliente_id m /\
    Maquina.identificador_unico m' = Maquina.identificador_unico m /\
    Maquina.ultima_conexao m' = Some now /\
    (Maquina.status m = OFFLINE -> HeartbeatRequest.status hb = ONLINE ->
       Maquina.tempo_atividade m' = Maquina.tempo_atividade m + 300) /\
    (Maquina.status m <> OFFLINE \/ HeartbeatRequest.status hb <> ONLINE ->
       Maquina.tempo_atividade m' = Maquina.tempo_atividade m) /\
    (forall v, HeartbeatRequest.versao_app hb = Some v -> v <> EmptyString ->
       Maquina.versao_app m' = Some v) /\
    (HeartbeatRequest.versao_app hb = None \/
     HeartbeatRequest.versao_app hb = Some EmptyString ->
       Maquina.versao_app m' = Maquina.versao_app m) /\
    licencas (snd r) = licencas s /\ assinaturas (snd r) = assinaturas s /\
    clientes (snd r) = clientes s /\ bloqueios (snd r) = bloqueios s.
Proof.
  apply processar_heartbeat_row. by apply heartbeat_query.
Qed.

Lemma processar_heartbeat_updates_device_witness :
  exists m',
    fst (MaquinaService.processar_heartbeat Exemplos.parque
           Exemplos.heartbeat_online Exemplos.dez_minutos) = Some (1, m') /\
    Maquina.ultima_conexao m' = Some Exemplos.dez_minutos /\
    Maquina.tempo_atividade m' = 0.
Proof.
  destruct (processar_heartbeat_updates_device Exemplos.parque
              Exemplos.heartbeat_online Exemplos.dez_minutos 1
              Exemplos.maquina_bloqueada eq_refl eq_refl)
    as (m' & Hr & _ & _ & _ & Huc & _ & Hsame & _).
  - intros j m2 Hj Hid. unique_row Hj Hid.
  - exists m'. split; [exact Hr|]. split; [exact Huc|].
    rewrite Hsame; [reflexivity|]. left. discriminate.
Defined.

(** The metric sample and the saturation alerts of a heartbeat.  Without
    readings nothing is stored and no alert is requested.  With readings
    exactly one sample is appended for the device, and an alert is requested
    for the processor, respectively the memory, exactly when the reading is
    strictly above 90 (a reading of 90, or a missing one, requests none). *)
Theorem processar_heartbeat_stores_sample_and_alerts
    (s : Sistema) (hb : HeartbeatRequest.t) (now : datetime) (id : Z)
    (m : Maquina.t)
    (Hrow : maquinas s !! id = Some m)
    (Hident : Maquina.identificador_unico m =
              HeartbeatRequest.identificador_unico hb)
    (Huniq : forall j m2, maquinas s !! j = Some m2 ->
               Maquina.identificador_unico m2 =
               HeartbeatRequest.identificador_unico hb -> j = id) :
  let s' := snd (MaquinaService.processar_heartbeat s hb now) in
  let alerta_cpu := atividade_suspeita id "Uso de CPU muito alto" in
  let alerta_memoria := atividade_suspeita id "Uso de memória muito alto" in
  (HeartbeatRequest.metricas hb = None ->
     maquinas_metricas s' = maquinas_metricas s /\ alertas s' = alertas s) /\
  (forall mt, HeartbeatRequest.metricas hb = Some mt ->
     maquinas_metricas s' = maquinas_metricas s ++ [MaquinaMetrica.mk id mt] /\
     exists novos,
       alertas s' = alertas s ++ novos /\ NoDup novos /\
       (alerta_cpu ∈ novos <->
          exists x, MaquinaMetricaBase.cpu_uso mt = Some x /\ (90 < x)%Q) /\
       (alerta_memoria ∈ novos <->
          exists x, MaquinaMetricaBase.memoria_uso mt = Some x /\ (90 < x)%Q) /\
       (forall a, a ∈ novos -> a = alerta_cpu \/ a = alerta_memoria)).
Proof.
  pose proof (heartbeat_query s hb id m Hrow Hident Huniq) as Hfind.
  intros s' alerta_cpu alerta_memoria. subst s'.
  unfold MaquinaService.processar_heartbeat. rewrite Hfind. simpl.
  assert (Hacima : forall o, acima_de_90 o = true <->
                             exists x, o = Some x /\ (90 < x)%Q).
  { intros [x|].
    - rewrite acima_de_90_spec. split; [eauto|]. by intros (y & [= <-] & ?).
    - split; [discriminate|]. by intros (y & ? & _). }
  assert (Hdiff : alerta_cpu <> alerta_memoria) by discriminate.
  split.
  - intros ->. done.
  - intros mt ->. simpl.
    pose proof (Hacima (MaquinaMetricaBase.cpu_uso mt)) as Hcpu.
    pose proof (Hacima (MaquinaMetricaBase.memoria_uso mt)) as Hmem.
    destruct (acima_de_90 (MaquinaMetricaBase.cpu_uso mt)),
             (acima_de_90 (MaquinaMetricaBase.memoria_uso mt)); simpl;
      (split; [reflexivity|]).
    + exists [alerta_cpu; alerta_memoria]. rewrite <- app_assoc.
      split_and!; [done| | | |].
      * apply NoDup_cons. split; [set_solver|]. apply NoDup_singleton.
      * rewrite <- Hcpu. split; [done|]. intros _. set_solver.
      * rewrite <- Hmem. split; [done|]. intros _. set_solver.
      * set_solver.
    + exists [alerta_cpu]. split_and!; [done| | | |].
      * apply NoDup_singleton.
      * rewrite <- Hcpu. split; [done|]. intros _. set_solver.
      * rewrite <- Hmem. split; [|discriminate].
        intros Hin. apply list_elem_of_singleton in Hin. congruence.
      * set_solver.
    + exists [alerta_memoria]. split_and!; [done| | | |].
      * apply NoDup_singleton.
      * rewrite <- Hcpu. split; [|discriminate].
        intros Hin. apply list_elem_of_singleton in Hin. congruence.
      * rewrite <- Hmem. split; [done|]. intros _. set_solver.
      * set_solver.
    + exists []. rewrite app_nil_r. split_and!; [done| | | |].
      * constructor.
      * rewrite <- Hcpu. split; [|discriminate]. intros Hin.
        by apply elem_of_nil in Hin.
      * rewrite <- Hmem. split; [|discriminate]. intros Hin.
        by apply elem_of_nil in Hin.
      * intros a Hin. by apply elem_of_nil in Hin.
Qed.

Lemma processar_heartbeat_stores_sample_and_alerts_witness :
  exists novos,
    alertas (snd (MaquinaService.processar_heartbeat Exemplos.parque
                    Cenarios.heartbeat_saturado Exemplos.dez_minutos))
      = alertas Exemplos.parque ++ novos /\
    atividade_suspeita 1 "Uso de CPU muito alto" ∈ novos /\
    atividade_suspeita 1 "Uso de memória muito alto" ∉ novos.
Proof.
  destruct (processar_heartbeat_stores_sample_and_alerts Exemplos.parque
              Cenarios.heartbeat_saturado Exemplos.dez_minutos 1
              Exemplos.maquina_bloqueada eq_refl eq_refl) as (_ & Hm).
  - intros j m Hj Hid. unique_row Hj Hid.
  - destruct (Hm Cenarios.leitura_saturada eq_refl)
      as (_ & novos & Hal & _ & Hcpu & Hmem & _).
    exists novos. split; [exact Hal|]. split.
    + apply Hcpu. exists (95 # 1). split; reflexivity.
    + intros Hin. apply Hmem in Hin as (x & Hx & Hlt).
      injection Hx as <-. discriminate Hlt.
Defined.

(** A heartbeat that names no registered device is rejected: the service
    returns [None] and the endpoint answers 404; nothing is stored, no alert
    is requested and nothing is broadcast. *)
Theorem heartbeat_of_unknown_device_is_rejected
    (falha : WebSocket -> bool) (s : Sistema)
    (manager : MaquinaConnectionManager.t) (hb : HeartbeatRequest.t)
    (now : datetime)
    (Hunknown : forall j m, maquinas s !! j = Some m ->
                  Maquina.identificador_unico m <>
                  HeartbeatRequest.identificador_unico hb) :
  MaquinaService.processar_heartbeat s hb now = (None, s) /\
  MaquinaEndpoints.receber_heartbeat falha s manager hb now
    = (HTTP_404, s, manager, []).
Proof.
  assert (Hfind : query_first
            (fun m => bool_decide (Maquina.identificador_unico m =
                                   HeartbeatRequest.identificador_unico hb))
            (maquinas s) = None).
  { destruct (query_first _ _) as [[j m]|] eqn:Hq; [|done].
    apply query_first_Some in Hq as [Hj Hb].
    apply bool_decide_eq_true in Hb. by destruct (Hunknown j m Hj). }
  assert (Hcall : MaquinaService.processar_heartbeat s hb now = (None, s)).
  { unfold MaquinaService.processar_heartbeat. by rewrite Hfind. }
  split; [done|].
  unfold MaquinaEndpoints.receber_heartbeat. by rewrite Hcall.
Qed.

Lemma heartbeat_of_unknown_device_is_rejected_witness :
  MaquinaEndpoints.receber_heartbeat Exemplos.conexao_quebrada
    Exemplos.parque_recente Exemplos.gerenciador Exemplos.heartbeat_online
    Exemplos.dez_minutos
  = (HTTP_404, Exemplos.parque_recente, Exemplos.gerenciador, []).
Proof.
  apply (heartbeat_of_unknown_device_is_rejected Exemplos.conexao_quebrada
           Exemplos.parque_recente Exemplos.gerenciador
           Exemplos.heartbeat_online Exemplos.dez_minutos).
  intros j m Hj Hid. unique_row Hj Hid.
Defined.

(** ** The alerts of the sweep *)

Lemma fold_marcar_offline_alertas (ids : list Z) (s : Sistema) :
  NoDup ids ->
  (forall i, i ∈ ids ->
     exists m, maquinas s !! i = Some m /\ Maquina.status m <> OFFLINE) ->
  let s' := fold_left MaquinaService.marcar_offline ids s in
  alertas s' = alertas s ++ List.map maquina_offline ids /\
  licencas s' = licencas s /\ assinaturas s' = assinaturas s /\
  clientes s' = clientes s /\ bloqueios s' = bloqueios s /\
  maquinas_metricas s' = maquinas_metricas s.
Proof.
  intros Hnd. revert s.
  induction Hnd as [|i ids Hnotin Hnd IH]; intros s Hrows; simpl.
  - by rewrite app_nil_r.
  - destruct (Hrows i) as (m & Hrow & Hon); [by left|].
    assert (Hstep : MaquinaService.marcar_offline s i =
              enviar_alerta (maquina_offline i)
                (with_maquinas
                   (<[i := Maquina.with_status OFFLINE m]> (maquinas s)) s)).
    { unfold MaquinaService.marcar_offline. rewrite Hrow.
      by rewrite bool_decide_eq_false_2. }
    rewrite Hstep.
    destruct (IH (enviar_alerta (maquina_offline i)
                    (with_maquinas
                       (<[i := Maquina.with_status OFFLINE m]> (maquinas s)) s)))
      as (-> & -> & -> & -> & -> & ->).
    { intros k Hk. destruct (Hrows k) as (b & Hb & ?); [by right|].
      exists b. split; [|done]. simpl. rewrite lookup_insert_ne; [done|].
      by intros <-. }
    simpl. by rewrite <- app_assoc.
Qed.

Lemma reler_ids (s : Sistema) (ids : list Z) :
  (forall i, i ∈ ids -> is_Some (maquinas s !! i)) ->
  List.map fst (MaquinaService.reler s ids) = ids.
Proof.
  unfold MaquinaService.reler.
  induction ids as [|i ids IH]; intros Hall; simpl; [done|].
  destruct (Hall i) as [m' Hm']; [by left|]. rewrite Hm'. simpl.
  f_equal. apply IH. intros k Hk. apply Hall. by right.
Qed.

(** One sweep: the list it returns has no device twice, every device in it
    is now Offline with its last connection unchanged, one device-offline
    alert is requested for each returned device, in the order of the list,
    and no other table is written. *)
Theorem verificar_maquinas_offline_alerts_each_once
    (s : Sistema) (minutos : Z) (now : datetime) :
  let r := MaquinaService.verificar_maquinas_offline s minutos now in
  NoDup (List.map fst (fst r)) /\
  alertas (snd r) =
    alertas s ++ List.map (fun x => maquina_offline (fst x)) (fst r) /\
  (forall id m', (id, m') ∈ fst r ->
     Maquina.status m' = OFFLINE /\
     exists m, maquinas s !! id = Some m /\
               Maquina.ultima_conexao m' = Maquina.ultima_conexao m /\
               Maquina.tempo_atividade m' = Maquina.tempo_atividade m) /\
  licencas (snd r) = licencas s /\ assinaturas (snd r) = assinaturas s /\
  clientes (snd r) = clientes s /\ bloqueios (snd r) = bloqueios s /\
  maquinas_metricas (snd r) = maquinas_metricas s.
Proof.
  intros r.
  set (lim := now - timedelta_minutes minutos).
  set (ids := List.map fst (query_all (MaquinaService.filtro_offline lim)
                                      (maquinas s))).
  assert (Hnd : NoDup ids) by apply NoDup_query_all_ids.
  assert (Hrows : forall i, i ∈ ids ->
            exists m, maquinas s !! i = Some m /\ Maquina.status m <> OFFLINE).
  { intros i Hi. apply elem_of_query_all_ids in Hi as (m & Hrow & Hp).
    apply filtro_offline_spec in Hp as [Hon _]. eauto. }
  destruct (fold_marcar_offline_alertas ids s Hnd Hrows)
    as (Hal & Hli & Has & Hcl & Hbl & Hmm).
  assert (Hids : List.map fst (fst r) = ids).
  { subst r. unfold MaquinaService.verificar_maquinas_offline. simpl.
    fold lim. fold ids. apply reler_ids.
    intros i Hi. rewrite fold_marcar_offline_lookup.
    destruct (Hrows i Hi) as (m & -> & _).
    destruct (decide (i ∈ ids)); simpl; eauto. }
  split; [by rewrite Hids|]. split.
  - rewrite <- (List.map_map fst maquina_offline), Hids. exact Hal.
  - split; [|done].
    intros id m' Hin.
    apply verificar_maquinas_offline_result in Hin as (m & Hrow & _ & ->).
    split; [done|]. by exists m.
Qed.

(** ** Outage and reconnection *)

(** However long the outage lasted, a device that was seen, was then swept
    Offline, and reports Online again is credited exactly 300 seconds of
    uptime over what it had before the sweep. *)
Theorem reconnect_after_sweep_credits_300_seconds
    (s : Sistema) (id : Z) (m : Maquina.t) (hb : HeartbeatRequest.t)
    (minutos : Z) (t_sweep t_back : datetime) (t_seen : datetime)
    (Hrow : maquinas s !! id = Some m)
    (Hident : Maquina.identificador_unico m =
              HeartbeatRequest.identificador_unico hb)
    (Huniq : forall j m2, maquinas s !! j = Some m2 ->
               Maquina.identificador_unico m2 =
               HeartbeatRequest.identificador_unico hb -> j = id)
    (Hon : Maquina.status m <> OFFLINE)
    (Hseen : Maquina.ultima_conexao m = Some t_seen)
    (Hstale : t_seen < t_sweep - timedelta_minutes minutos)
    (Hback : HeartbeatRequest.status hb = ONLINE) :
  let s1 := snd (MaquinaService.verificar_maquinas_offline s minutos t_sweep) in
  let r2 := MaquinaService.processar_heartbeat s1 hb t_back in
  exists m2,
    fst r2 = Some (id, m2) /\ maquinas (snd r2) !! id = Some m2 /\
    Maquina.status m2 = ONLINE /\
    Maquina.ultima_conexao m2 = Some t_back /\
    Maquina.tempo_atividade m2 = Maquina.tempo_atividade m + 300.
Proof.
  intros s1 r2.
  assert (Hp : MaquinaService.filtro_offline
                 (t_sweep - timedelta_minutes minutos) m = true)
    by (apply filtro_offline_spec; eauto).
  assert (Hrow1 : maquinas s1 !! id = Some (Maquina.with_status OFFLINE m)).
  { subst s1. rewrite verificar_maquinas_offline_lookup, Hrow. simpl.
    by rewrite Hp. }
  assert (Huniq1 : forall j m2, maquinas s1 !! j = Some m2 ->
            Maquina.identificador_unico m2 =
            HeartbeatRequest.identificador_unico hb -> j = id).
  { intros j m2 Hj Hid. subst s1.
    rewrite verificar_maquinas_offline_lookup in Hj.
    destruct (maquinas s !! j) as [b|] eqn:Hb; [|discriminate].
    simpl in Hj. injection Hj as <-. apply (Huniq j b Hb).
    by destruct (MaquinaService.filtro_offline _ b). }
  destruct (processar_heartbeat_row s1 hb t_back id
              (Maquina.with_status OFFLINE m)
              (heartbeat_query s1 hb id _ Hrow1 Hident Huniq1))
    as (m2 & Hr & Htbl & _ & _ & Huc & Hcredit & _).
  destruct (processar_heartbeat_found s1 hb t_back id
              (Maquina.with_status OFFLINE m)
              (heartbeat_query s1 hb id _ Hrow1 Hident Huniq1))
    as (m2' & Hr' & Hlook' & Hst' & _).
  fold r2 in Hr, Htbl, Hr', Hlook'.
  assert (m2' = m2) as -> by congruence.
  exists m2. split_and!; try done; try congruence.
  by rewrite Hcredit.
Qed.

Lemma reconnect_after_sweep_credits_300_seconds_witness :
  exists m2,
    maquinas (snd (MaquinaService.processar_heartbeat
                     (snd (MaquinaService.verificar_maquinas_offline
                             Exemplos.parque 5 Exemplos.dez_minutos))
                     Exemplos.heartbeat_online Exemplos.um_dia)) !! 1
      = Some m2 /\
    Maquina.tempo_atividade m2 = 300.
Proof.
  destruct (reconnect_after_sweep_credits_300_seconds Exemplos.parque 1
              Exemplos.maquina_bloqueada Exemplos.heartbeat_online 5
              Exemplos.dez_minutos Exemplos.um_dia 0 eq_refl eq_refl)
    as (m2 & _ & Hlook & _ & _ & Htempo).
  - intros j m Hj Hid. unique_row Hj Hid.
  - discriminate.
  - reflexivity.
  - reflexivity.
  - reflexivity.
  - exists m2. split; [exact Hlook|exact Htempo].
Defined.

(** ** Block and unblock *)

(** Unblocking does not restore the status the device had before it was
    blocked: block followed by unblock leaves the device Online whatever its
    status was (Offline and Maintenance included), exactly as unblock alone
    does, on a device that was never blocked as well. *)
Theorem desbloquear_maquina_forgets_previous_status
    (s : Sistema) (id : Z) (m : Maquina.t) (motivo : string)
    (Hrow : maquinas s !! id = Some m) :
  let online :=
    with_maquinas (<[id := Maquina.with_status ONLINE m]> (maquinas s)) s in
  MaquinaService.desbloquear_maquina
    (snd (MaquinaService.bloquear_maquina s id motivo)) id = (true, online) /\
  MaquinaService.desbloquear_maquina s id = (true, online).
Proof.
  unfold MaquinaService.bloquear_maquina, MaquinaService.desbloquear_maquina.
  rewrite Hrow. simpl. rewrite lookup_insert_eq. split; [|done].
  unfold with_maquinas. simpl. by rewrite insert_insert_eq.
Qed.

Lemma desbloquear_maquina_forgets_previous_status_witness :
  Maquina.status Exemplos.maquina_manutencao = MANUTENCAO /\
  (Maquina.status <$>
     maquinas (snd (MaquinaService.desbloquear_maquina
                      (snd (MaquinaService.bloquear_maquina
                              Exemplos.parque 2 "manutencao"))
                      2)) !! 2) = Some ONLINE.
Proof.
  split; [reflexivity|].
  rewrite (proj1 (desbloquear_maquina_forgets_previous_status
                    Exemplos.parque 2 Exemplos.maquina_manutencao
                    "manutencao" eq_refl)).
  reflexivity.
Defined.

(** Block and unblock of a device that does not exist: the services return
    [False] and the endpoints answer 404; no row is created, nothing is
    broadcast and the subscriptions are left as they were. *)
Theorem block_of_missing_device_is_rejected
    (falha : WebSocket -> bool) (s : Sistema)
    (manager : MaquinaConnectionManager.t) (id : Z) (motivo : string)
    (Hmissing : maquinas s !! id = None) :
  MaquinaService.bloquear_maquina s id motivo = (false, s) /\
  MaquinaService.desbloquear_maquina s id = (false, s) /\
  MaquinaApi.bloquear_maquina falha s manager id motivo
    = (HTTP_404, s, manager, []) /\
  MaquinaEndpoints.desbloquear_maquina falha s manager id
    = (HTTP_404, s, manager, []).
Proof.
  unfold MaquinaApi.bloquear_maquina, MaquinaEndpoints.desbloquear_maquina,
    MaquinaService.bloquear_maquina, MaquinaService.desbloquear_maquina.
  by rewrite Hmissing.
Qed.

Lemma block_of_missing_device_is_rejected_witness :
  MaquinaApi.bloquear_maquina Exemplos.conexao_quebrada Exemplos.parque_recente
    Exemplos.gerenciador 3 "uso abusivo"
  = (HTTP_404, Exemplos.parque_recente, Exemplos.gerenciador, []).
Proof.
  exact (proj1 (proj2 (proj2 (block_of_missing_device_is_rejected
           Exemplos.conexao_quebrada Exemplos.parque_recente
           Exemplos.gerenciador 3 "uso abusivo" eq_refl)))).
Defined.

(** ** Registration *)

Lemma novo_id_fresh {A} (tbl : gmap Z A) : tbl !! novo_id tbl = None.
Proof.
  destruct (tbl !! novo_id tbl) as [x|] eqn:Hx; [|done]. exfalso.
  assert (Hin : In (novo_id tbl) (List.map fst (map_to_list tbl))).
  { apply in_map_iff. exists (novo_id tbl, x). split; [done|].
    by apply list_elem_of_In, elem_of_map_to_list. }
  assert (Hmax : forall (l : list Z) k, In k l -> k <= fold_right Z.max 0 l).
  { induction l as [|y l IH]; simpl; [done|].
    intros k [->|Hk]; [lia|]. specialize (IH k Hk). lia. }
  apply Hmax in Hin. unfold novo_id in Hin at 1. lia.
Qed.

(** Registration checks the client first and the identifier second, and on
    success adds one Offline device, last seen at the current instant and
    with no uptime, under a key that was free: every device registered
    before keeps its row. *)
Theorem registrar_maquina_outcomes
    (s : Sistema) (maquina_data : MaquinaCreate.t) (now : datetime) :
  let r := MaquinaServiceRegistro.registrar_maquina s maquina_data now in
  let taken := exists j b,
      maquinas s !! j = Some b /\
      Maquina.identificador_unico b =
      MaquinaCreate.identificador_unico maquina_data in
  (clientes s !! MaquinaCreate.cliente_id maquina_data = None ->
     r = Raise (ValueError "Cliente não encontrado")) /\
  (is_Some (clientes s !! MaquinaCreate.cliente_id maquina_data) -> taken ->
     r = Raise (ValueError "Identificador único já registrado")) /\
  (is_Some (clientes s !! MaquinaCreate.cliente_id maquina_data) -> ~ taken ->
     exists id,
       let m := Maquina.mk (MaquinaCreate.cliente_id maquina_data)
                           (MaquinaCreate.identificador_unico maquina_data)
                           (Some now) OFFLINE 0 None in
       r = Devolve ((id, m), with_maquinas (<[id := m]> (maquinas s)) s) /\
       maquinas s !! id = None /\
       forall j b, maquinas s !! j = Some b ->
                   <[id := m]> (maquinas s) !! j = Some b).
Proof.
  intros r taken. subst r. unfold MaquinaServiceRegistro.registrar_maquina.
  split_and!.
  - by intros ->.
  - intros [c ->] (j & b & Hj & Hb).
    destruct (query_first_is_Some
                (fun m => bool_decide (Maquina.identificador_unico m =
                             MaquinaCreate.identificador_unico maquina_data))
                (maquinas s) j b Hj) as (j' & b' & ->);
      [by apply bool_decide_eq_true|done].
  - intros [c ->] Hfree.
    destruct (query_first _ _) as [[j b]|] eqn:Hq.
    + exfalso. apply Hfree. apply query_first_Some in Hq as [Hj Hb].
      apply bool_decide_eq_true in Hb. by exists j, b.
    + exists (novo_id (maquinas s)). split; [done|].
      split; [apply novo_id_fresh|].
      intros j b Hj. rewrite lookup_insert_ne; [done|].
      intros <-. by rewrite novo_id_fresh in Hj.
Qed.

Lemma identificadores_unicos_insert (s s' : Sistema) (id : Z)
    (m m' : Maquina.t) :
  identificadores_unicos s ->
  maquinas s !! id = Some m ->
  Maquina.identificador_unico m' = Maquina.identificador_unico m ->
  maquinas s' = <[id := m']> (maquinas s) ->
  identificadores_unicos s'.
Proof.
  intros Hu Hrow Hident Hs' i j a b Hi Hj Hab. rewrite Hs' in Hi, Hj.
  destruct (decide (i = id)) as [->|Hi'], (decide (j = id)) as [->|Hj'];
    try done.
  - rewrite lookup_insert_eq in Hi. rewrite lookup_insert_ne in Hj by done.
    injection Hi as <-. apply (Hu id j m b); congruence.
  - rewrite lookup_insert_eq in Hj. rewrite lookup_insert_ne in Hi by done.
    injection Hj as <-. apply (Hu i id a m); congruence.
  - rewrite lookup_insert_ne in Hi, Hj by done. eauto.
Qed.

(** No two devices ever share an identifier: if identifiers are unique they
    still are after a registration, a heartbeat, a sweep, a block or an
    unblock. *)
Theorem identificadores_unicos_is_invariant
    (s : Sistema) (Hu : identificadores_unicos s) :
  (forall maquina_data now x s',
     MaquinaServiceRegistro.registrar_maquina s maquina_data now
       = Devolve (x, s') ->
     identificadores_unicos s') /\
  (forall hb now,
     identificadores_unicos
       (snd (MaquinaService.processar_heartbeat s hb now))) /\
  (forall minutos now,
     identificadores_unicos
       (snd (MaquinaService.verificar_maquinas_offline s minutos now))) /\
  (forall id motivo,
     identificadores_unicos
       (snd (MaquinaService.bloquear_maquina s id motivo))) /\
  (forall id,
     identificadores_unicos (snd (MaquinaService.desbloquear_maquina s id))).
Proof.
  split_and!.
  - intros maquina_data now x s' Hr.
    unfold MaquinaServiceRegistro.registrar_maquina in Hr.
    destruct (clientes s !! _); [|discriminate].
    destruct (query_first _ _) as [[j b]|] eqn:Hq; [discriminate|].
    injection Hr as <- <-. intros i j a b Hi Hj Hab. simpl in Hi, Hj.
    assert (Hfree := novo_id_fresh (maquinas s)).
    assert (Hnew : forall k c, maquinas s !! k = Some c ->
              Maquina.identificador_unico c <>
              MaquinaCreate.identificador_unico maquina_data).
    { intros k c Hk Hc.
      pose proof (query_first_None _ _ k c Hq Hk) as Hb.
      apply bool_decide_eq_false in Hb. done. }
    destruct (decide (i = novo_id (maquinas s))) as [->|Hi'],
             (decide (j = novo_id (maquinas s))) as [->|Hj']; try done.
    + rewrite lookup_insert_eq in Hi. rewrite lookup_insert_ne in Hj by done.
      injection Hi as <-. simpl in Hab. by destruct (Hnew j b Hj).
    + rewrite lookup_insert_eq in Hj. rewrite lookup_insert_ne in Hi by done.
      injection Hj as <-. simpl in Hab. by destruct (Hnew i a Hi).
    + rewrite lookup_insert_ne in Hi, Hj by done. eauto.
  - intros hb now.
    destruct (query_first
                (fun m => bool_decide (Maquina.identificador_unico m =
                             HeartbeatRequest.identificador_unico hb))
                (maquinas s)) as [[id m]|] eqn:Hq.
    + pose proof Hq as Hq'. apply query_first_Some in Hq' as [Hrow Hb].
      apply bool_decide_eq_true in Hb.
      destruct (processar_heartbeat_row s hb now id m Hq)
        as (m' & _ & Htbl & _ & Hident & _).
      by eapply identificadores_unicos_insert.
    + unfold MaquinaService.processar_heartbeat. by rewrite Hq.
  - intros minutos now i j a b Hi Hj Hab.
    rewrite verificar_maquinas_offline_lookup in Hi, Hj.
    destruct (maquinas s !! i) as [a0|] eqn:Ha; [|discriminate].
    destruct (maquinas s !! j) as [b0|] eqn:Hb; [|discriminate].
    simpl in Hi, Hj. injection Hi as <-. injection Hj as <-.
    apply (Hu i j a0 b0 Ha Hb).
    by destruct (MaquinaService.filtro_offline _ a0),
                (MaquinaService.filtro_offline _ b0).
  - intros id motivo. unfold MaquinaService.bloquear_maquina.
    destruct (maquinas s !! id) as [m|] eqn:Hrow; [|done].
    by apply (identificadores_unicos_insert s _ id m
                (Maquina.with_status BLOQUEADA m)).
  - intros id. unfold MaquinaService.desbloquear_maquina.
    destruct (maquinas s !! id) as [m|] eqn:Hrow; [|done].
    by apply (identificadores_unicos_insert s _ id m
                (Maquina.with_status ONLINE m)).
Qed.

Lemma identificadores_unicos_is_invariant_witness :
  identificadores_unicos Exemplos.parque /\
  identificadores_unicos
    (snd (MaquinaService.processar_heartbeat Exemplos.parque
            Exemplos.heartbeat_online Exemplos.dez_minutos)).
Proof.
  assert (Hu : identificadores_unicos Exemplos.parque).
  { intros i j a b Hi Hj Hab.
    assert (Hin : (i, a) ∈ map_to_list (maquinas Exemplos.parque))
      by (by apply elem_of_map_to_list).
    assert (Hjn : (j, b) ∈ map_to_list (maquinas Exemplos.parque))
      by (by apply elem_of_map_to_list).
    vm_compute in Hin, Hjn.
    repeat (apply elem_of_cons in Hin as [Hin|Hin];
            [injection Hin as -> ->|]);
      try (by apply elem_of_nil in Hin);
      repeat (apply elem_of_cons in Hjn as [Hjn|Hjn];
              [injection Hjn as -> ->; first [reflexivity|discriminate Hab]|]);
      by apply elem_of_nil in Hjn. }
  split; [exact Hu|].
  exact (proj1 (proj2 (identificadores_unicos_is_invariant Exemplos.parque Hu))
           Exemplos.heartbeat_online Exemplos.dez_minutos).
Defined.

(** ** Registration followed by the first heartbeat *)

(** A device that was just registered is found by a heartbeat that carries
    its identifier.  Registration stores it Offline, so the first heartbeat
    that reports Online credits 300 seconds of uptime; any other first
    report leaves the counter at 0. *)
Theorem first_heartbeat_after_registration
    (s s1 : Sistema) (maquina_data : MaquinaCreate.t) (t_reg t : datetime)
    (id : Z) (m : Maquina.t) (hb : HeartbeatRequest.t)
    (Hreg : MaquinaServiceRegistro.registrar_maquina s maquina_data t_reg
            = Devolve ((id, m), s1))
    (Hident : HeartbeatRequest.identificador_unico hb =
              MaquinaCreate.identificador_unico maquina_data) :
  let r := MaquinaService.processar_heartbeat s1 hb t in
  exists m',
    fst r = Some (id, m') /\ maquinas (snd r) !! id = Some m' /\
    Maquina.cliente_id m' = MaquinaCreate.cliente_id maquina_data /\
    Maquina.status m' = HeartbeatRequest.status hb /\
    Maquina.ultima_conexao m' = Some t /\
    Maquina.tempo_atividade m' =
      (if bool_decide (HeartbeatRequest.status hb = ONLINE) then 300 else 0).
Proof.
  intros r. unfold MaquinaServiceRegistro.registrar_maquina in Hreg.
  destruct (clientes s !! _); [|discriminate].
  destruct (query_first _ _) as [[j b]|] eqn:Hq; [discriminate|].
  injection Hreg as <- <- <-.
  set (id := novo_id (maquinas s)) in *.
  set (m := Maquina.mk _ _ _ _ _ _) in *.
  assert (Hfind : query_first
            (fun m => bool_decide (Maquina.identificador_unico m =
                                   HeartbeatRequest.identificador_unico hb))
            (maquinas (with_maquinas (<[id := m]> (maquinas s)) s))
          = Some (id, m)).
  { apply query_first_unique.
    - intros j b Hj Hb. apply bool_decide_eq_true in Hb. simpl in Hj.
      destruct (decide (j = id)) as [|Hne]; [done|].
      rewrite lookup_insert_ne in Hj by done.
      pose proof (query_first_None _ _ j b Hq Hj) as Hno.
      apply bool_decide_eq_false in Hno. congruence.
    - simpl. apply lookup_insert_eq.
    - apply bool_decide_eq_true. by rewrite Hident. }
  destruct (processar_heartbeat_row _ hb t id m Hfind)
    as (m' & Hr & Htbl & Hcl & _ & Huc & Hcredit & Hsame & _).
  destruct (processar_heartbeat_found _ hb t id m Hfind)
    as (m2 & Hr2 & Hlook & Hst & _).
  fold r in Hr, Htbl, Hr2, Hlook.
  assert (m2 = m') as -> by congruence.
  exists m'. split_and!; try done.
  case_bool_decide as Hon.
  - by rewrite Hcredit.
  - rewrite Hsame; [done|]. by right.
Qed.

Lemma first_heartbeat_after_registration_witness :
  exists m',
    maquinas (snd (MaquinaService.processar_heartbeat
                     (with_maquinas
                        {[ 1 := Maquina.mk 1 "maq-0009" (Some 0) OFFLINE 0 None ]}
                        Exemplos.clientela)
                     Cenarios.heartbeat_nova Exemplos.dez_minutos)) !! 1
      = Some m' /\
    Maquina.tempo_atividade m' = 300.
Proof.
  destruct (first_heartbeat_after_registration Exemplos.clientela
              (with_maquinas
                 {[ 1 := Maquina.mk 1 "maq-0009" (Some 0) OFFLINE 0 None ]}
                 Exemplos.clientela)
              Cenarios.nova_maquina 0 Exemplos.dez_minutos 1
              (Maquina.mk 1 "maq-0009" (Some 0) OFFLINE 0 None)
              Cenarios.heartbeat_nova)
    as (m' & _ & Hlook & _ & _ & _ & Htempo).
  - reflexivity.
  - reflexivity.
  - exists m'. split; [exact Hlook|exact Htempo].
Defined.

(** ** The endpoints and their notifications *)

Lemma broadcast_envios (falha : WebSocket -> bool)
    (self : MaquinaConnectionManager.t) (maquina_id : Z) (message : Mensagem) :
  snd (MaquinaConnectionManager.broadcast falha self maquina_id message) =
  List.map (fun ws => mkEnvio ws message (negb (falha ws)))
           (elements (assinantes self maquina_id)).
Proof.
  unfold assinantes.
  destruct (MaquinaConnectionManager.maquina_subscriptions self !! maquina_id)
    as [subscribers|] eqn:Hsubs.
  - destruct (broadcast_spec falha self maquina_id message subscribers Hsubs)
      as (subs' & -> & _). done.
  - unfold MaquinaConnectionManager.broadcast. rewrite Hsubs. simpl.
    by rewrite elements_empty.
Qed.

Lemma broadcast_assinantes (falha : WebSocket -> bool)
    (self : MaquinaConnectionManager.t) (maquina_id : Z) (message : Mensagem)
    (k : Z) :
  assinantes
    (fst (MaquinaConnectionManager.broadcast falha self maquina_id message)) k
  = if decide (k = maquina_id)
    then filter (fun ws => falha ws = false) (assinantes self k)
    else assinantes self k.
Proof.
  unfold assinantes.
  destruct (MaquinaConnectionManager.maquina_subscriptions self !! maquina_id)
    as [subscribers|] eqn:Hsubs.
  - destruct (broadcast_spec falha self maquina_id message subscribers Hsubs)
      as (subs' & -> & Hsubs'). simpl.
    destruct (decide (k = maquina_id)) as [->|Hne].
    + rewrite lookup_insert_eq, Hsubs. simpl. apply set_eq. intros ws.
      rewrite Hsubs', elem_of_filter. tauto.
    + by rewrite lookup_insert_ne.
  - unfold MaquinaConnectionManager.broadcast. rewrite Hsubs. simpl.
    destruct (decide (k = maquina_id)) as [->|Hne]; [|done].
    rewrite Hsubs. simpl. apply set_eq. intros ws.
    rewrite elem_of_filter. set_solver.
Qed.

(** The three endpoints that change a device answer 200 once the service
    has written the row, whatever becomes of the notification: the event is
    sent once to every subscriber of that device and to nobody else, and a
    subscriber whose send fails is dropped from the set of that device
    only. *)
Theorem endpoints_notify_subscribers_of_the_device
    (falha : WebSocket -> bool) (s : Sistema)
    (manager : MaquinaConnectionManager.t) (id : Z) (m : Maquina.t)
    (motivo : string) (hb : HeartbeatRequest.t) (now : datetime)
    (Hrow : maquinas s !! id = Some m)
    (Hident : Maquina.identificador_unico m =
              HeartbeatRequest.identificador_unico hb)
    (Huniq : forall j m2, maquinas s !! j = Some m2 ->
               Maquina.identificador_unico m2 =
               HeartbeatRequest.identificador_unico hb -> j = id) :
  let envios message :=
    List.map (fun ws => mkEnvio ws message (negb (falha ws)))
             (elements (assinantes manager id)) in
  let restantes manager' :=
    MaquinaConnectionManager.active_connections manager' =
    MaquinaConnectionManager.active_connections manager /\
    forall k, assinantes manager' k =
              if decide (k = id)
              then filter (fun ws => falha ws = false) (assinantes manager k)
              else assinantes manager k in
  (exists manager',
     MaquinaApi.bloquear_maquina falha s manager id motivo =
     (HTTP_200, snd (MaquinaService.bloquear_maquina s id motivo), manager',
      envios (msg_bloqueio id motivo)) /\ restantes manager') /\
  (exists manager',
     MaquinaEndpoints.desbloquear_maquina falha s manager id =
     (HTTP_200, snd (MaquinaService.desbloquear_maquina s id), manager',
      envios (msg_desbloqueio id)) /\ restantes manager') /\
  (exists manager',
     MaquinaEndpoints.receber_heartbeat falha s manager hb now =
     (HTTP_200, snd (MaquinaService.processar_heartbeat s hb now), manager',
      envios (msg_heartbeat id hb)) /\ restantes manager').
Proof.
  intros envios restantes.
  assert (Hbroadcast : forall message,
            exists manager',
              MaquinaConnectionManager.broadcast falha manager id message
              = (manager', envios message) /\ restantes manager').
  { intros message.
    exists (fst (MaquinaConnectionManager.broadcast falha manager id message)).
    split.
    - unfold envios. rewrite <- broadcast_envios.
      by destruct (MaquinaConnectionManager.broadcast _ _ _ _).
    - split; [|intros k; apply broadcast_assinantes].
      unfold MaquinaConnectionManager.broadcast.
      destruct (MaquinaConnectionManager.maquina_subscriptions manager !! id);
        [|done].
      by destruct (fold_left _ _ _). }
  split_and!.
  - destruct (Hbroadcast (msg_bloqueio id motivo)) as (manager' & Hb & Hrest).
    exists manager'. split; [|done].
    unfold MaquinaApi.bloquear_maquina, MaquinaService.bloquear_maquina,
      MaquinaConnectionManager.broadcast_bloqueio.
    by rewrite Hrow, Hb.
  - destruct (Hbroadcast (msg_desbloqueio id)) as (manager' & Hb & Hrest).
    exists manager'. split; [|done].
    unfold MaquinaEndpoints.desbloquear_maquina,
      MaquinaService.desbloquear_maquina,
      MaquinaConnectionManager.broadcast_desbloqueio.
    by rewrite Hrow, Hb.
  - destruct (Hbroadcast (msg_heartbeat id hb)) as (manager' & Hb & Hrest).
    exists manager'. split; [|done].
    destruct (processar_heartbeat_row s hb now id m
                (heartbeat_query s hb id m Hrow Hident Huniq))
      as (m' & Hr & _).
    unfold MaquinaEndpoints.receber_heartbeat,
      MaquinaConnectionManager.broadcast_heartbeat.
    destruct (MaquinaService.processar_heartbeat s hb now) as [o s'].
    simpl in Hr. subst o. by rewrite Hb.
Qed.

Lemma endpoints_notify_subscribers_of_the_device_witness :
  exists manager',
    MaquinaEndpoints.desbloquear_maquina Exemplos.conexao_quebrada
      Exemplos.parque Exemplos.gerenciador 3 =
    (HTTP_200, snd (MaquinaService.desbloquear_maquina Exemplos.parque 3),
     manager',
     List.map (fun ws => mkEnvio ws (msg_desbloqueio 3)
                           (negb (Exemplos.conexao_quebrada ws)))
              (elements (assinantes Exemplos.gerenciador 3))).
Proof.
  destruct (endpoints_notify_subscribers_of_the_device
              Exemplos.conexao_quebrada Exemplos.parque Exemplos.gerenciador 3
              Exemplos.maquina_online "uso abusivo"
              (HeartbeatRequest.mk "maq-0003" ONLINE None None)
              Exemplos.dez_minutos eq_refl eq_refl)
    as (_ & (manager' & Hcall & _) & _).
  - intros j m Hj Hid. unique_row Hj Hid.
  - exists manager'. exact Hcall.
Defined.

(** * The registry of connections and subscriptions *)

Lemma list_remove_None (ws : WebSocket) (l : list WebSocket) :
  list_remove ws l = None <-> ws ∉ l.
Proof.
  induction l as [|y l IH]; simpl.
  - split; [intros _; apply not_elem_of_nil|done].
  - rewrite not_elem_of_cons. destruct (decide (ws = y)) as [->|Hne].
    + split; [discriminate|]. by intros [? _].
    + rewrite fmap_None, IH. tauto.
Qed.

Lemma list_remove_Some (ws : WebSocket) (l l' : list WebSocket) :
  list_remove ws l = Some l' -> l ≡ₚ ws :: l'.
Proof.
  revert l'. induction l as [|y l IH]; intros l'; simpl; [discriminate|].
  destruct (decide (ws = y)) as [->|Hne].
  - by intros [= ->].
  - destruct (list_remove ws l) as [l0|]; [|discriminate]. simpl.
    intros [= <-]. rewrite (IH l0 eq_refl). apply perm_swap.
Qed.

Lemma list_remove_app (ws : WebSocket) (l : list WebSocket) :
  ws ∉ l -> list_remove ws (l ++ [ws]) = Some l.
Proof.
  induction l as [|y l IH]; simpl; intros Hnot.
  - by rewrite decide_True.
  - apply not_elem_of_cons in Hnot as [Hne Hnot].
    rewrite decide_False by done. by rewrite IH.
Qed.

Lemma descartar_lookup (ws : WebSocket) (subs : gmap Z (gset WebSocket))
    (a k : Z) :
  Conexoes.descartar ws subs a !! k =
  if decide (k = a) then subs !! a ≫= limpar ws else subs !! k.
Proof.
  unfold Conexoes.descartar, limpar.
  destruct (subs !! a) as [X|] eqn:Ha; simpl.
  - destruct (decide (X ∖ {[ws]} = ∅)), (decide (k = a)) as [->|Hne].
    + apply lookup_delete_eq.
    + by apply lookup_delete_ne.
    + apply lookup_insert_eq.
    + by apply lookup_insert_ne.
  - destruct (decide (k = a)) as [->|]; [done|done].
Qed.

Lemma fold_descartar_lookup (ws : WebSocket) (ks : list Z)
    (subs : gmap Z (gset WebSocket)) (k : Z) :
  NoDup ks ->
  fold_left (Conexoes.descartar ws) ks subs !! k =
  if decide (k ∈ ks) then subs !! k ≫= limpar ws else subs !! k.
Proof.
  intros Hnd. revert subs.
  induction Hnd as [|a ks Hnotin Hnd IH]; intros subs; cbn [fold_left].
  - destruct (decide (k ∈ [])) as [Hin|]; [by apply elem_of_nil in Hin|done].
  - rewrite IH, !descartar_lookup.
    destruct (decide (k = a)) as [->|Hne].
    + rewrite decide_False by done. by rewrite decide_True by left.
    + destruct (decide (k ∈ ks)) as [Hin|Hnin].
      * by rewrite decide_True by (by right).
      * rewrite decide_False; [done|].
        rewrite elem_of_cons. tauto.
Qed.

(** The subscriptions after the loop of [disconnect]. *)
Lemma disconnect_subscriptions (self self' : MaquinaConnectionManager.t)
    (ws : WebSocket) (c : Z) :
  Conexoes.disconnect self ws c = (None, self') ->
  forall k,
    MaquinaConnectionManager.maquina_subscriptions self' !! k =
    MaquinaConnectionManager.maquina_subscriptions self !! k ≫= limpar ws.
Proof.
  unfold Conexoes.disconnect. intros Hcall k.
  destruct (match MaquinaConnectionManager.active_connections self !! c with
            | Some l => _ | None => _ end) as [ac|]; [|discriminate].
  injection Hcall as <-. simpl.
  rewrite fold_descartar_lookup by apply NoDup_fst_map_to_list.
  destruct (decide (k ∈ _)) as [Hin|Hnin]; [done|].
  destruct (MaquinaConnectionManager.maquina_subscriptions self !! k)
    as [X|] eqn:HX; [|done].
  exfalso. apply Hnin. apply list_elem_of_fmap. exists (k, X).
  split; [done|]. by apply elem_of_map_to_list.
Qed.

Lemma disconnect_assinantes (self self' : MaquinaConnectionManager.t)
    (ws : WebSocket) (c : Z) :
  Conexoes.disconnect self ws c = (None, self') ->
  forall k, assinantes self' k = assinantes self k ∖ {[ws]}.
Proof.
  intros Hcall k. unfold assinantes.
  rewrite (disconnect_subscriptions self self' ws c Hcall).
  destruct (MaquinaConnectionManager.maquina_subscriptions self !! k)
    as [X|]; simpl.
  - unfold limpar. destruct (decide (X ∖ {[ws]} = ∅)) as [->|]; done.
  - set_solver.
Qed.

Lemma subscribe_assinantes (falha : WebSocket -> bool)
    (self : MaquinaConnectionManager.t) (ws : WebSocket) (maquina_id k : Z) :
  assinantes (fst (Conexoes.subscribe falha self ws maquina_id)) k =
  if decide (k = maquina_id) then assinantes self k ∪ {[ws]}
  else assinantes self k.
Proof.
  unfold assinantes, Conexoes.subscribe. simpl.
  destruct (decide (k = maquina_id)) as [->|Hne].
  - rewrite lookup_insert_eq. simpl.
    by destruct (MaquinaConnectionManager.maquina_subscriptions self !! _).
  - by rewrite lookup_insert_ne.
Qed.

(** A disconnection that does not raise removes the connection from every
    subscription set and drops every set that is left empty, those that
    were empty before the call included.  The other subscribers stay, and
    no later broadcast sends anything to the connection. *)
Theorem disconnect_leaves_no_subscription
    (self self' : MaquinaConnectionManager.t) (ws : WebSocket) (c : Z)
    (Hcall : Conexoes.disconnect self ws c = (None, self')) :
  (forall k, assinantes self' k = assinantes self k ∖ {[ws]}) /\
  (forall k X,
     MaquinaConnectionManager.maquina_subscriptions self' !! k = Some X ->
     X <> ∅) /\
  (forall falha k message e,
     e ∈ snd (MaquinaConnectionManager.broadcast falha self' k message) ->
     destino e <> ws).
Proof.
  pose proof (disconnect_assinantes self self' ws c Hcall) as Hass.
  split_and!.
  - exact Hass.
  - intros k X HX.
    rewrite (disconnect_subscriptions self self' ws c Hcall) in HX.
    destruct (MaquinaConnectionManager.maquina_subscriptions self !! k)
      as [Y|]; [|discriminate]. simpl in HX. unfold limpar in HX.
    destruct (decide (Y ∖ {[ws]} = ∅)); [discriminate|]. congruence.
  - intros falha k message e He. rewrite broadcast_envios in He.
    apply list_elem_of_fmap in He as (w & -> & Hw). simpl.
    apply elem_of_elements in Hw. rewrite Hass in Hw. set_solver.
Qed.

Lemma disconnect_leaves_no_subscription_witness :
  assinantes (snd (Conexoes.disconnect Cenarios.gerenciador_duplo 21%positive 1)) 3
    = {[ 22%positive ]} /\
  MaquinaConnectionManager.maquina_subscriptions
    (snd (Conexoes.disconnect Cenarios.gerenciador_duplo 21%positive 1)) !! 4 = None.
Proof.
  assert (Hcall : Conexoes.disconnect Cenarios.gerenciador_duplo 21%positive 1 =
                  (None, snd (Conexoes.disconnect Cenarios.gerenciador_duplo
                                21%positive 1))) by (by vm_compute).
  destruct (disconnect_leaves_no_subscription _ _ _ _ Hcall)
    as (Hass & Hne & _).
  split.
  - rewrite Hass. by vm_compute.
  - destruct (MaquinaConnectionManager.maquina_subscriptions _ !! 4)
      as [X|] eqn:HX; [|done].
    exfalso. apply (Hne 4 X HX).
    assert (HX' : assinantes
              (snd (Conexoes.disconnect Cenarios.gerenciador_duplo 21%positive 1)) 4
              = X) by (unfold assinantes; by rewrite HX).
    rewrite Hass in HX'. rewrite <- HX'. by vm_compute.
Defined.

(** Disconnecting a connection that is not in the list of its client, while
    the client has a list, raises [ValueError] before anything is written:
    the subscriptions of the connection are still there, and the next
    broadcast to a device it follows sends to it. *)
Theorem disconnect_of_unlisted_socket_raises
    (self : MaquinaConnectionManager.t) (ws : WebSocket) (c : Z)
    (l : list WebSocket)
    (Hl : MaquinaConnectionManager.active_connections self !! c = Some l)
    (Hnot : ws ∉ l) :
  Conexoes.disconnect self ws c
    = (Some (ValueError "list.remove(x): x not in list"), self) /\
  forall falha k message,
    ws ∈ assinantes self k ->
    mkEnvio ws message (negb (falha ws)) ∈
      snd (MaquinaConnectionManager.broadcast falha
             (snd (Conexoes.disconnect self ws c)) k message).
Proof.
  assert (Hcall : Conexoes.disconnect self ws c
            = (Some (ValueError "list.remove(x): x not in list"), self)).
  { unfold Conexoes.disconnect. rewrite Hl.
    by rewrite (proj2 (list_remove_None ws l) Hnot). }
  split; [exact Hcall|].
  intros falha k message Hin. rewrite Hcall. simpl.
  rewrite broadcast_envios.
  apply (list_elem_of_fmap_2 (fun w => mkEnvio w message (negb (falha w)))).
  by apply elem_of_elements.
Qed.

Lemma disconnect_of_unlisted_socket_raises_witness :
  Conexoes.disconnect Exemplos.gerenciador 14%positive 1
    = (Some (ValueError "list.remove(x): x not in list"), Exemplos.gerenciador).
Proof.
  refine (proj1 (disconnect_of_unlisted_socket_raises Exemplos.gerenciador 14%positive 1
                   [11; 12; 13]%positive eq_refl _)).
  intros Hin. repeat (apply elem_of_cons in Hin as [Hin|Hin]; [discriminate|]).
  by apply elem_of_nil in Hin.
Defined.

(** The two ways in which [disconnect] gets past the list of the client. *)
Lemma disconnect_listed (self : MaquinaConnectionManager.t) (ws : WebSocket)
    (c : Z) (l l' : list WebSocket) :
  MaquinaConnectionManager.active_connections self !! c = Some l ->
  list_remove ws l = Some l' ->
  exists subs',
    Conexoes.disconnect self ws c =
    (None,
     MaquinaConnectionManager.mk
       (match l' with
        | [] => delete c (MaquinaConnectionManager.active_connections self)
        | _ => <[c := l']> (MaquinaConnectionManager.active_connections self)
        end)
       subs').
Proof.
  intros Hl Hrem. unfold Conexoes.disconnect. rewrite Hl, Hrem.
  destruct l'; eexists; reflexivity.
Qed.

Lemma disconnect_without_list (self : MaquinaConnectionManager.t)
    (ws : WebSocket) (c : Z) :
  MaquinaConnectionManager.active_connections self !! c = None ->
  exists subs',
    Conexoes.disconnect self ws c =
    (None,
     MaquinaConnectionManager.mk
       (MaquinaConnectionManager.active_connections self) subs').
Proof.
  intros Hl. unfold Conexoes.disconnect. rewrite Hl.
  eexists; reflexivity.
Qed.

Lemma limpar_idemp (ws : WebSocket) (o : option (gset WebSocket)) :
  (o ≫= limpar ws) ≫= limpar ws = o ≫= limpar ws.
Proof.
  destruct o as [X|]; [|done]. simpl. unfold limpar.
  destruct (decide (X ∖ {[ws]} = ∅)) as [|Hne]; [done|]. simpl.
  assert (Heq : X ∖ {[ws]} ∖ {[ws]} = X ∖ {[ws]}) by set_solver.
  rewrite Heq. by rewrite decide_False.
Qed.

(** Disconnecting the same connection a second time.  The first call takes
    the connection out of the list of its client.  If it was the only
    connection of the client the entry of the client is gone, and the second
    call does nothing and raises nothing; if the client has other
    connections the second call raises [ValueError]. *)
Theorem second_disconnect_raises_iff_client_still_connected
    (self : MaquinaConnectionManager.t) (ws : WebSocket) (c : Z)
    (l : list WebSocket)
    (Hl : MaquinaConnectionManager.active_connections self !! c = Some l)
    (Hnd : NoDup l) (Hin : ws ∈ l) :
  let self1 := snd (Conexoes.disconnect self ws c) in
  fst (Conexoes.disconnect self ws c) = None /\
  (l = [ws] -> Conexoes.disconnect self1 ws c = (None, self1)) /\
  (l <> [ws] ->
     Conexoes.disconnect self1 ws c
       = (Some (ValueError "list.remove(x): x not in list"), self1)).
Proof.
  intros self1.
  destruct (list_remove ws l) as [l'|] eqn:Hrem;
    [|by apply list_remove_None in Hrem].
  pose proof (list_remove_Some ws l l' Hrem) as Hperm.
  assert (Hnot : ws ∉ l').
  { rewrite Hperm in Hnd. by apply NoDup_cons in Hnd as [? _]. }
  destruct (disconnect_listed self ws c l l' Hl Hrem) as (subs' & Hcall).
  assert (Hself1 : Conexoes.disconnect self ws c = (None, self1)).
  { subst self1. by rewrite Hcall. }
  split; [by rewrite Hcall|].
  assert (Hsubs1 : forall k,
            MaquinaConnectionManager.maquina_subscriptions self1 !! k ≫=
              limpar ws
            = MaquinaConnectionManager.maquina_subscriptions self1 !! k).
  { intros k. rewrite (disconnect_subscriptions self self1 ws c Hself1).
    apply limpar_idemp. }
  split.
  - intros ->. apply Permutation_singleton_l in Hperm.
    assert (l' = []) as -> by (by destruct l').
    assert (Hnone : MaquinaConnectionManager.active_connections self1 !! c
                    = None).
    { subst self1. rewrite Hcall. simpl. apply lookup_delete_eq. }
    destruct (disconnect_without_list self1 ws c Hnone) as (subs2 & Hcall2).
    rewrite Hcall2. f_equal.
    assert (Hsubs2 : subs2 =
              MaquinaConnectionManager.maquina_subscriptions self1).
    { apply map_eq. intros k.
      pose proof (disconnect_subscriptions self1 _ ws c Hcall2 k) as Hk.
      simpl in Hk. by rewrite Hk, Hsubs1. }
    rewrite Hsubs2. by destruct self1.
  - intros Hne.
    assert (Hl1 : MaquinaConnectionManager.active_connections self1 !! c
                  = Some l').
    { subst self1. rewrite Hcall. simpl. destruct l' as [|y l'].
      - exfalso. apply Hne. symmetry in Hperm.
        by apply Permutation_singleton_l in Hperm.
      - apply lookup_insert_eq. }
    unfold Conexoes.disconnect. rewrite Hl1.
    by rewrite (proj2 (list_remove_None ws l') Hnot).
Qed.

Lemma second_disconnect_raises_iff_client_still_connected_witness :
  fst (Conexoes.disconnect
         (snd (Conexoes.disconnect Cenarios.gerenciador_duplo 21%positive 1))
         21%positive 1)
  = Some (ValueError "list.remove(x): x not in list").
Proof.
  destruct (second_disconnect_raises_iff_client_still_connected
              Cenarios.gerenciador_duplo 21%positive 1 [21; 22]%positive
              eq_refl) as (_ & _ & Hraise).
  - apply NoDup_cons. split.
    + intros Hin. apply list_elem_of_singleton in Hin. discriminate Hin.
    + apply NoDup_singleton.
  - by left.
  - rewrite Hraise; [reflexivity|discriminate].
Defined.

(** ** A whole session *)

Lemma fold_subscribe (falha : WebSocket -> bool) (ws : WebSocket)
    (ks : list Z) (m : MaquinaConnectionManager.t) :
  let m' := fold_left (fun m k => fst (Conexoes.subscribe falha m ws k)) ks m in
  MaquinaConnectionManager.active_connections m' =
  MaquinaConnectionManager.active_connections m /\
  forall k, assinantes m' k =
            if decide (k ∈ ks) then assinantes m k ∪ {[ws]}
            else assinantes m k.
Proof.
  revert m. induction ks as [|a ks IH]; intros m; cbn [fold_left].
  - split; [done|]. intros k.
    destruct (decide (k ∈ [])) as [Hin|]; [by apply elem_of_nil in Hin|done].
  - destruct (IH (fst (Conexoes.subscribe falha m ws a))) as [-> Hass].
    split; [done|]. intros k. rewrite Hass, subscribe_assinantes.
    destruct (decide (k = a)) as [->|Hne].
    + rewrite (decide_True (P := a ∈ a :: ks)) by left.
      destruct (decide (a ∈ ks)); [set_solver|done].
    + destruct (decide (k ∈ ks)) as [Hin|Hnin].
      * by rewrite decide_True by (by right).
      * rewrite decide_False; [done|]. rewrite elem_of_cons. tauto.
Qed.

(** A session of a connection that is new to the manager: it connects,
    subscribes to any number of devices (whether or not the confirmations
    arrive) and disconnects.  The disconnection does not raise, the
    connection lists are what they were before the session, and the
    subscription sets are what they were, the connection itself apart. *)
Theorem session_leaves_no_trace
    (falha : WebSocket -> bool) (self : MaquinaConnectionManager.t)
    (ws : WebSocket) (c : Z) (ks : list Z)
    (Hnew : ws ∉ conexoes_de self c)
    (Hne : MaquinaConnectionManager.active_connections self !! c <> Some []) :
  let s1 := Conexoes.connect self ws c in
  let s2 := fold_left (fun m k => fst (Conexoes.subscribe falha m ws k)) ks s1 in
  exists self',
    Conexoes.disconnect s2 ws c = (None, self') /\
    MaquinaConnectionManager.active_connections self' =
    MaquinaConnectionManager.active_connections self /\
    forall k, assinantes self' k = assinantes self k ∖ {[ws]}.
Proof.
  intros s1 s2.
  destruct (fold_subscribe falha ws ks s1) as [Hac Hass]. fold s2 in Hac, Hass.
  set (l := conexoes_de self c) in *.
  assert (Hl2 : MaquinaConnectionManager.active_connections s2 !! c
                = Some (l ++ [ws])).
  { rewrite Hac. subst s1. unfold Conexoes.connect. simpl.
    rewrite lookup_insert_eq. subst l. unfold conexoes_de.
    by destruct (MaquinaConnectionManager.active_connections self !! c). }
  destruct (disconnect_listed s2 ws c _ l Hl2 (list_remove_app ws l Hnew))
    as (subs' & Hcall).
  eexists. split; [exact Hcall|]. split.
  - simpl. rewrite Hac. subst s1. unfold Conexoes.connect. simpl.
    subst l. unfold conexoes_de in *.
    destruct (MaquinaConnectionManager.active_connections self !! c)
      as [l|] eqn:Hl; simpl.
    + destruct l as [|y l]; [done|].
      rewrite insert_insert_eq. by apply insert_id.
    + by apply delete_insert_id.
  - intros k. rewrite (disconnect_assinantes s2 _ ws c Hcall k), Hass.
    assert (Hs1 : assinantes s1 k = assinantes self k) by done.
    rewrite Hs1. destruct (decide (k ∈ ks)); set_solver.
Qed.

Lemma session_leaves_no_trace_witness :
  exists self',
    Conexoes.disconnect
      (fold_left (fun m k => fst (Conexoes.subscribe Exemplos.conexao_quebrada
                                    m 12%positive k))
                 [3; 4]
                 (Conexoes.connect Cenarios.gerenciador_duplo 12%positive 2))
      12%positive 2 = (None, self') /\
    MaquinaConnectionManager.active_connections self' =
    MaquinaConnectionManager.active_connections Cenarios.gerenciador_duplo.
Proof.
  destruct (session_leaves_no_trace Exemplos.conexao_quebrada
              Cenarios.gerenciador_duplo 12%positive 2 [3; 4])
    as (self' & Hcall & Hac & _).
  - apply not_elem_of_nil.
  - discriminate.
  - exists self'. split; [exact Hcall|exact Hac].
Defined.

(** ** Subscription *)

(** [subscribe] records the subscription before it sends the confirmation,
    and asks nothing of the connection: whether or not the confirmation is
    delivered, and whether or not the connection is in a connection list,
    it is a subscriber of the device afterwards and the next broadcast to
    the device sends to it.  Subscribing again changes nothing more. *)
Theorem subscribe_records_before_confirming
    (falha : WebSocket -> bool) (self : MaquinaConnectionManager.t)
    (ws : WebSocket) (maquina_id : Z) :
  let r := Conexoes.subscribe falha self ws maquina_id in
  snd r = (subscription_confirmed maquina_id, negb (falha ws)) /\
  MaquinaConnectionManager.active_connections (fst r) =
  MaquinaConnectionManager.active_connections self /\
  (forall k, assinantes (fst r) k =
             if decide (k = maquina_id) then assinantes self k ∪ {[ws]}
             else assinantes self k) /\
  fst (Conexoes.subscribe falha (fst r) ws maquina_id) = fst r /\
  (forall falha' message,
     mkEnvio ws message (negb (falha' ws)) ∈
       snd (MaquinaConnectionManager.broadcast falha' (fst r) maquina_id
              message)).
Proof.
  intros r. split_and!; try done.
  - intros k. apply subscribe_assinantes.
  - subst r. unfold Conexoes.subscribe. cbn [fst].
    cbn [MaquinaConnectionManager.maquina_subscriptions
         MaquinaConnectionManager.active_connections].
    rewrite lookup_insert_eq, insert_insert_eq. do 2 f_equal. set_solver.
  - intros falha' message. rewrite broadcast_envios.
    apply (list_elem_of_fmap_2 (fun w => mkEnvio w message (negb (falha' w)))).
    apply elem_of_elements. subst r. rewrite subscribe_assinantes.
    rewrite decide_True by done. set_solver.
Qed.

(** * More properties of the licence service *)

Lemma mesmas_licencas_same (s s' : Sistema) :
  licencas s' = licencas s -> mesmas_licencas s s'.
Proof.
  intros Heq j. rewrite Heq.
  destruct (licencas s !! j); constructor. by split_and!.
Qed.

Lemma mesmas_licencas_insert (s s' : Sistema) (id : Z) (l l' : Licenca.t) :
  licencas s !! id = Some l -> mesma_identidade l l' ->
  licencas s' = <[id := l']> (licencas s) ->
  mesmas_licencas s s'.
Proof.
  intros Hrow Hsame Heq j. rewrite Heq.
  destruct (decide (j = id)) as [->|Hne].
  - rewrite lookup_insert_eq, Hrow. by constructor.
  - rewrite lookup_insert_ne by done.
    destruct (licencas s !! j); constructor. by split_and!.
Qed.

Lemma chaves_unicas_identifica (s : Sistema) (id : Z) (l : Licenca.t) :
  chaves_unicas s -> licencas s !! id = Some l ->
  chave_identifica s (Licenca.chave_licenca l) id.
Proof. intros Hu Hrow j b Hj Hb. by apply (Hu j id b l). Qed.

(** The successful way out of [ativar_licenca]. *)
Lemma ativar_licenca_ativada (s : Sistema) (chave : string)
    (maquina_id : option Z) (now : datetime) (id : Z) (l : Licenca.t) :
  query_first (LicencaService.por_chave chave) (licencas s) = Some (id, l) ->
  Licenca.status l <> ATIVA ->
  LicencaService.expirada_em now l = false ->
  ~ (Licenca.limite_usos l > 0 /\
     Licenca.usos_atuais l >= Licenca.limite_usos l) ->
  LicencaService.ativar_licenca s chave maquina_id now =
  (true,
   with_licencas
     (<[id := let l1 := Licenca.with_usos_atuais (Licenca.usos_atuais l + 1)
                          (Licenca.with_data_ativacao (Some now)
                             (Licenca.with_status ATIVA l)) in
              if truthy_int maquina_id
              then Licenca.with_maquina_id maquina_id l1 else l1]>
        (licencas s)) s).
Proof.
  intros Hfind Hst Hexp Hq. unfold LicencaService.ativar_licenca.
  rewrite Hfind, Hexp. rewrite bool_decide_eq_false_2 by done.
  assert (Hquota : bool_decide (Licenca.limite_usos l > 0)
                   && bool_decide (Licenca.usos_atuais l
                                   >= Licenca.limite_usos l) = false).
  { apply andb_false_iff.
    destruct (decide (Licenca.limite_usos l > 0)); [right|left];
      apply bool_decide_eq_false_2; tauto. }
  by rewrite Hquota.
Qed.

(** The way out of [ativar_licenca] for a licence past its date. *)
Lemma ativar_licenca_expirou (s : Sistema) (chave : string)
    (maquina_id : option Z) (now : datetime) (id : Z) (l : Licenca.t) :
  query_first (LicencaService.por_chave chave) (licencas s) = Some (id, l) ->
  Licenca.status l <> ATIVA ->
  LicencaService.expirada_em now l = true ->
  LicencaService.ativar_licenca s chave maquina_id now =
  (false,
   enviar_alerta (licenca_expirada id)
     (with_licencas (<[id := Licenca.with_status EXPIRADA l]> (licencas s)) s)).
Proof.
  intros Hfind Hst Hexp. unfold LicencaService.ativar_licenca.
  rewrite Hfind, Hexp. by rewrite bool_decide_eq_false_2 by done.
Qed.

(** No operation on a licence creates or deletes a licence, or changes a
    key, an owner, a kind or a limit; in particular the keys stay unique. *)
Theorem licence_operations_keep_identity (s : Sistema) :
  (forall chave maquina_id now,
     mesmas_licencas s
       (snd (LicencaService.ativar_licenca s chave maquina_id now))) /\
  (forall chave now,
     mesmas_licencas s (snd (LicencaService.verificar_licenca s chave now))) /\
  (forall id meses now,
     mesmas_licencas s
       (snd (LicencaService.renovar_licenca s id meses now))) /\
  (forall id motivo,
     mesmas_licencas s (snd (LicencaService.bloquear_licenca s id motivo))) /\
  (forall s', mesmas_licencas s s' -> chaves_unicas s -> chaves_unicas s').
Proof.
  split_and!.
  - intros chave maquina_id now.
    destruct (query_first (LicencaService.por_chave chave) (licencas s))
      as [[id l]|] eqn:Hfind.
    + pose proof Hfind as Hrow. apply query_first_Some in Hrow as [Hrow _].
      destruct (ativar_licenca_cases s chave maquina_id now id l Hfind)
        as [Hat|Hnat Hexp|Hnat Hexp Hlim Huso|l' Hnat Hexp Hno ->]; simpl.
      * by apply mesmas_licencas_same.
      * by apply (mesmas_licencas_insert s _ id l
                    (Licenca.with_status EXPIRADA l)).
      * by apply mesmas_licencas_same.
      * eapply (mesmas_licencas_insert s _ id l); [done| |reflexivity].
        by destruct (truthy_int maquina_id).
    + unfold LicencaService.ativar_licenca. rewrite Hfind.
      by apply mesmas_licencas_same.
  - intros chave now. unfold LicencaService.verificar_licenca.
    destruct (query_first (LicencaService.por_chave chave) (licencas s))
      as [[id l]|] eqn:Hfind; [|by apply mesmas_licencas_same].
    apply query_first_Some in Hfind as [Hrow _].
    destruct (LicencaService.expirada_em now l);
      [|by apply mesmas_licencas_same].
    by apply (mesmas_licencas_insert s _ id l (Licenca.with_status EXPIRADA l)).
  - intros id meses now. unfold LicencaService.renovar_licenca.
    destruct (licencas s !! id) as [l|] eqn:Hrow;
      [|by apply mesmas_licencas_same].
    eapply (mesmas_licencas_insert s _ id l); [done| |reflexivity].
    by split_and!.
  - intros id motivo. unfold LicencaService.bloquear_licenca.
    destruct (licencas s !! id) as [l|] eqn:Hrow;
      [|by apply mesmas_licencas_same].
    by apply (mesmas_licencas_insert s _ id l (Licenca.with_status SUSPENSA l)).
  - intros s' Hsame Hu i j a b Hi Hj Hab.
    pose proof (Hsame i) as Hsi. pose proof (Hsame j) as Hsj.
    rewrite Hi in Hsi. rewrite Hj in Hsj.
    inversion Hsi as [a0 ? [Ha _] Ha0|]; subst.
    inversion Hsj as [b0 ? [Hb _] Hb0|]; subst.
    apply (Hu i j a0 b0); [done|done|congruence].
Qed.

(** The use count of a licence never passes its limit: if every licence
    with a limit is within it, this is still so after any operation on a
    licence. *)
Theorem usage_count_stays_within_limit (s : Sistema)
    (Hinv : forall j l, licencas s !! j = Some l -> dentro_do_limite l) :
  (forall chave maquina_id now j l,
     licencas (snd (LicencaService.ativar_licenca s chave maquina_id now)) !! j
       = Some l -> dentro_do_limite l) /\
  (forall chave now j l,
     licencas (snd (LicencaService.verificar_licenca s chave now)) !! j
       = Some l -> dentro_do_limite l) /\
  (forall id meses now j l,
     licencas (snd (LicencaService.renovar_licenca s id meses now)) !! j
       = Some l -> dentro_do_limite l) /\
  (forall id motivo j l,
     licencas (snd (LicencaService.bloquear_licenca s id motivo)) !! j
       = Some l -> dentro_do_limite l).
Proof.
  assert (Hins : forall (tbl : gmap Z Licenca.t) id l' j l,
            tbl = licencas s -> dentro_do_limite l' ->
            <[id := l']> tbl !! j = Some l -> dentro_do_limite l).
  { intros tbl id l' j l -> Hl' Hj.
    destruct (decide (j = id)) as [->|Hne].
    - rewrite lookup_insert_eq in Hj. by injection Hj as <-.
    - rewrite lookup_insert_ne in Hj by done. eauto. }
  split_and!.
  - intros chave maquina_id now j l.
    destruct (query_first (LicencaService.por_chave chave) (licencas s))
      as [[id l0]|] eqn:Hfind.
    + pose proof Hfind as Hrow. apply query_first_Some in Hrow as [Hrow _].
      pose proof (Hinv id l0 Hrow) as Hl0.
      destruct (ativar_licenca_cases s chave maquina_id now id l0 Hfind)
        as [Hat|Hnat Hexp|Hnat Hexp Hlim Huso|l' Hnat Hexp Hno ->]; simpl;
        eauto.
      * apply Hins; [done|]. exact Hl0.
      * apply Hins; [done|]. unfold dentro_do_limite in *.
        destruct (truthy_int maquina_id); simpl; lia.
    + unfold LicencaService.ativar_licenca. rewrite Hfind. simpl. eauto.
  - intros chave now j l. unfold LicencaService.verificar_licenca.
    destruct (query_first (LicencaService.por_chave chave) (licencas s))
      as [[id l0]|] eqn:Hfind; [|simpl; eauto].
    apply query_first_Some in Hfind as [Hrow _].
    destruct (LicencaService.expirada_em now l0); simpl; [|eauto].
    apply Hins; [done|]. exact (Hinv id l0 Hrow).
  - intros id meses now j l. unfold LicencaService.renovar_licenca.
    destruct (licencas s !! id) as [l0|] eqn:Hrow; simpl; [|eauto].
    apply Hins; [done|]. exact (Hinv id l0 Hrow).
  - intros id motivo j l. unfold LicencaService.bloquear_licenca.
    destruct (licencas s !! id) as [l0|] eqn:Hrow; simpl; [|eauto].
    apply Hins; [done|]. exact (Hinv id l0 Hrow).
Qed.

Lemma usage_count_stays_within_limit_witness :
  exists l',
    licencas (snd (LicencaService.ativar_licenca
                     Cenarios.carteira_quase_esgotada "LIC-EEEE" (Some 7)
                     Exemplos.um_dia)) !! 1 = Some l' /\
    Licenca.usos_atuais l' = 3%Z /\ dentro_do_limite l'.
Proof.
  assert (Hrow : exists l',
            licencas (snd (LicencaService.ativar_licenca
                             Cenarios.carteira_quase_esgotada "LIC-EEEE"
                             (Some 7) Exemplos.um_dia)) !! 1 = Some l' /\
            Licenca.usos_atuais l' = 3%Z)
    by (eexists; split; reflexivity).
  destruct Hrow as (l' & Hl' & Husos). exists l'.
  split; [exact Hl'|]. split; [exact Husos|].
  refine (proj1 (usage_count_stays_within_limit
                   Cenarios.carteira_quase_esgotada _)
            "LIC-EEEE" (Some 7) Exemplos.um_dia 1 l' Hl').
  intros j l Hj.
  assert (Hin : (j, l) ∈ map_to_list
                  (licencas Cenarios.carteira_quase_esgotada))
    by (by apply elem_of_map_to_list).
  vm_compute in Hin. apply list_elem_of_singleton in Hin.
  injection Hin as -> ->. intros _. by vm_compute.
Defined.

(** ** Activation *)

(** A successful activation of a licence that is not Active, not past its
    date and not at its limit: it becomes Active, the activation date is
    the current instant and one use is counted.  The licence is bound to
    the device only when a device number other than 0 is given; without
    one, or with 0, the binding it had is kept.  Nothing else is written
    and no alert is requested. *)
Theorem ativar_licenca_binds_only_a_nonzero_device
    (s : Sistema) (chave : string) (maquina_id : option Z) (now : datetime)
    (id : Z) (l : Licenca.t)
    (Hrow : licencas s !! id = Some l)
    (Hchave : Licenca.chave_licenca l = chave)
    (Huniq : chave_identifica s chave id)
    (Hst : Licenca.status l <> ATIVA)
    (Hexp : LicencaService.expirada_em now l = false)
    (Hquota : ~ (Licenca.limite_usos l > 0 /\
                 Licenca.usos_atuais l >= Licenca.limite_usos l)) :
  exists l',
    LicencaService.ativar_licenca s chave maquina_id now
      = (true, with_licencas (<[id := l']> (licencas s)) s) /\
    Licenca.status l' = ATIVA /\
    Licenca.data_ativacao l' = Some now /\
    Licenca.usos_atuais l' = Licenca.usos_atuais l + 1 /\
    Licenca.data_expiracao l' = Licenca.data_expiracao l /\
    (forall n, maquina_id = Some n -> n <> 0 ->
               Licenca.maquina_id l' = Some n) /\
    (maquina_id = None \/ maquina_id = Some 0 ->
       Licenca.maquina_id l' = Licenca.maquina_id l).
Proof.
  pose proof (query_por_chave s chave id l Hrow Hchave Huniq) as Hfind.
  eexists. split.
  - by apply ativar_licenca_ativada.
  - unfold truthy_int. destruct maquina_id as [n|]; simpl.
    + destruct (decide (n = 0)) as [->|Hn].
      * rewrite bool_decide_eq_true_2 by done. simpl.
        split_and!; try done. all: by intros n [= <-] Hn.
      * rewrite bool_decide_eq_false_2 by done. simpl.
        split_and!; try done.
        all: first [ by intros n' [= <-] _ | by intros [Hno|[= ->]] ].
    + split_and!; done.
Qed.

Lemma ativar_licenca_binds_only_a_nonzero_device_witness :
  exists l',
    LicencaService.ativar_licenca Cenarios.carteira_pendente "LIC-DDDD"
      (Some 0) Exemplos.um_dia
    = (true,
       with_licencas (<[1 := l']> (licencas Cenarios.carteira_pendente))
         Cenarios.carteira_pendente) /\
    Licenca.maquina_id l' = None.
Proof.
  destruct (ativar_licenca_binds_only_a_nonzero_device
              Cenarios.carteira_pendente "LIC-DDDD" (Some 0) Exemplos.um_dia 1
              Cenarios.licenca_pendente eq_refl eq_refl)
    as (l' & Hcall & _ & _ & _ & _ & _ & Hkeep).
  - intros j l Hj Hk. unique_row Hj Hk.
  - discriminate.
  - reflexivity.
  - intros [Hlim _]. discriminate Hlim.
  - exists l'. split; [exact Hcall|]. rewrite Hkeep; [reflexivity|by right].
Defined.

(** ** Renewal and suspension against activation *)

(** After a renewal the licence is Active, so an activation is accepted
    without being looked at: it returns [True] and writes nothing, whatever
    the use count and the limit, and whether or not the renewed date is
    already past.  The renewal itself counts no use. *)
Theorem ativar_after_renovar_always_succeeds
    (s : Sistema) (id : Z) (l : Licenca.t) (meses : Z) (t1 t2 : datetime)
    (maquina_id : option Z)
    (Hrow : licencas s !! id = Some l)
    (Huniq : chave_identifica s (Licenca.chave_licenca l) id) :
  let r1 := LicencaService.renovar_licenca s id meses t1 in
  fst r1 = true /\
  LicencaService.ativar_licenca (snd r1) (Licenca.chave_licenca l)
    maquina_id t2 = (true, snd r1) /\
  exists l1,
    licencas (snd r1) !! id = Some l1 /\ Licenca.status l1 = ATIVA /\
    Licenca.usos_atuais l1 = Licenca.usos_atuais l /\
    Licenca.limite_usos l1 = Licenca.limite_usos l /\
    Licenca.maquina_id l1 = Licenca.maquina_id l.
Proof.
  intros r1. subst r1. unfold LicencaService.renovar_licenca. rewrite Hrow.
  cbn [fst snd]. split; [done|].
  set (l1 := Licenca.with_status ATIVA _).
  set (s1 := with_licencas _ s).
  assert (Hrow1 : licencas s1 !! id = Some l1) by apply lookup_insert_eq.
  assert (Hfind : query_first
            (LicencaService.por_chave (Licenca.chave_licenca l)) (licencas s1)
            = Some (id, l1)).
  { apply query_por_chave; [done|done|].
    by apply (chave_identifica_insert s _ id l1 s1). }
  split.
  - unfold LicencaService.ativar_licenca. rewrite Hfind.
    by rewrite bool_decide_eq_true_2.
  - exists l1. by split_and!.
Qed.

Lemma ativar_after_renovar_always_succeeds_witness :
  LicencaService.ativar_licenca
    (snd (LicencaService.renovar_licenca Exemplos.carteira 2 1
            Exemplos.um_dia))
    "LIC-BBBB" None Exemplos.um_dia
  = (true,
     snd (LicencaService.renovar_licenca Exemplos.carteira 2 1
            Exemplos.um_dia)) /\
  Licenca.usos_atuais Exemplos.licenca_esgotada
    >= Licenca.limite_usos Exemplos.licenca_esgotada.
Proof.
  split; [|by vm_compute].
  refine (proj1 (proj2 (ativar_after_renovar_always_succeeds Exemplos.carteira
                          2 Exemplos.licenca_esgotada 1 Exemplos.um_dia
                          Exemplos.um_dia None eq_refl _))).
  intros j l Hj Hk. unique_row Hj Hk.
Defined.

(** Suspending a licence writes Suspended whatever its status was and
    appends one block record of kind licence and high severity, for the
    owner and the device of the licence; the devices table is not written,
    so the device itself is not blocked.  A suspension does not last: the
    next activation of a licence that is within its date and its limit
    makes it Active again, and the block record stays. *)
Theorem bloquear_licenca_is_undone_by_activation
    (s : Sistema) (id : Z) (l : Licenca.t) (motivo : string)
    (maquina_id : option Z) (now : datetime)
    (Hrow : licencas s !! id = Some l)
    (Huniq : chave_identifica s (Licenca.chave_licenca l) id)
    (Hexp : LicencaService.expirada_em now l = false)
    (Hquota : ~ (Licenca.limite_usos l > 0 /\
                 Licenca.usos_atuais l >= Licenca.limite_usos l)) :
  let r1 := LicencaService.bloquear_licenca s id motivo in
  let r2 := LicencaService.ativar_licenca (snd r1) (Licenca.chave_licenca l)
              maquina_id now in
  let registro := Bloqueio.mk (Licenca.cliente_id l) (Licenca.maquina_id l)
                              motivo "licenca" "alta" None in
  fst r1 = true /\
  licencas (snd r1) = <[id := Licenca.with_status SUSPENSA l]> (licencas s) /\
  bloqueios (snd r1) = bloqueios s ++ [registro] /\
  maquinas (snd r1) = maquinas s /\ alertas (snd r1) = alertas s /\
  fst r2 = true /\
  bloqueios (snd r2) = bloqueios s ++ [registro] /\
  exists l2,
    licencas (snd r2) !! id = Some l2 /\ Licenca.status l2 = ATIVA /\
    Licenca.usos_atuais l2 = Licenca.usos_atuais l + 1.
Proof.
  intros r1 r2 registro. subst r2 r1.
  unfold LicencaService.bloquear_licenca. rewrite Hrow. cbn [fst snd].
  set (l1 := Licenca.with_status SUSPENSA l).
  set (s1 := with_bloqueios _ _).
  split_and!; try done.
  all: assert (Hfind : query_first
                 (LicencaService.por_chave (Licenca.chave_licenca l))
                 (licencas s1) = Some (id, l1))
    by (apply query_por_chave;
        [apply lookup_insert_eq|done
        |by apply (chave_identifica_insert s _ id l1 s1)]).
  all: rewrite (ativar_licenca_ativada s1 _ maquina_id now id l1 Hfind)
    by done.
  - done.
  - done.
  - eexists. cbn [snd]. split; [apply lookup_insert_eq|].
    by destruct (truthy_int maquina_id).
Qed.

Lemma bloquear_licenca_is_undone_by_activation_witness :
  fst (LicencaService.ativar_licenca
         (snd (LicencaService.bloquear_licenca Cenarios.carteira_pendente 1
                 "fraude"))
         "LIC-DDDD" None Exemplos.um_dia) = true.
Proof.
  refine (proj1 (proj2 (proj2 (proj2 (proj2 (proj2
            (bloquear_licenca_is_undone_by_activation
               Cenarios.carteira_pendente 1 Cenarios.licenca_pendente "fraude"
               None Exemplos.um_dia eq_refl _ eq_refl _))))))).
  - intros j l Hj Hk. unique_row Hj Hk.
  - intros [Hlim _]. discriminate Hlim.
Defined.

(** ** Renewals add up *)

Lemma renovar_licenca_found (s : Sistema) (id : Z) (l : Licenca.t)
    (meses : Z) (now : datetime) :
  licencas s !! id = Some l ->
  LicencaService.renovar_licenca s id meses now =
  (true,
   with_licencas
     (<[id := Licenca.with_status ATIVA
                (Licenca.with_data_renovacao (Some now)
                   (Licenca.with_data_expiracao
                      (Some (match Licenca.data_expiracao l with
                             | Some d => d
                             | None => now
                             end + timedelta_days (30 * meses))) l))]>
        (licencas s)) s).
Proof. intros Hrow. unfold LicencaService.renovar_licenca. by rewrite Hrow. Qed.

(** Two renewals in a row of a licence that has an expiration date are one
    renewal by the sum of the months, made at the instant of the second:
    the two calls and the single call leave the same system.  For a licence
    without a date the term runs from the instant of the first renewal. *)
Theorem renovar_licenca_adds_up
    (s : Sistema) (id : Z) (l : Licenca.t) (m1 m2 : Z) (t1 t2 : datetime)
    (Hrow : licencas s !! id = Some l) :
  let s1 := snd (LicencaService.renovar_licenca s id m1 t1) in
  let r2 := LicencaService.renovar_licenca s1 id m2 t2 in
  (forall d, Licenca.data_expiracao l = Some d ->
     r2 = LicencaService.renovar_licenca s id (m1 + m2) t2) /\
  (Licenca.data_expiracao l = None ->
     exists l2,
       licencas (snd r2) !! id = Some l2 /\
       Licenca.data_expiracao l2 = Some (t1 + timedelta_days (30 * (m1 + m2))) /\
       Licenca.data_renovacao l2 = Some t2).
Proof.
  intros s1 r2. subst r2 s1.
  rewrite (renovar_licenca_found s id l m1 t1 Hrow). cbn [snd].
  rewrite (renovar_licenca_found _ id _ m2 t2 (lookup_insert_eq _ _ _)).
  rewrite (renovar_licenca_found s id l (m1 + m2) t2 Hrow).
  assert (Hsum : forall d, d + timedelta_days (30 * m1) + timedelta_days (30 * m2)
                           = d + timedelta_days (30 * (m1 + m2)))
    by (intros d; unfold timedelta_days; lia).
  split.
  - intros d Hd. rewrite Hd. f_equal. unfold with_licencas. simpl.
    by rewrite insert_insert_eq, Hsum.
  - intros Hd. rewrite Hd. eexists. cbn [snd].
    unfold with_licencas. cbn [licencas]. split; [apply lookup_insert_eq|].
    simpl. by rewrite Hsum.
Qed.

Lemma renovar_licenca_adds_up_witness :
  LicencaService.renovar_licenca
    (snd (LicencaService.renovar_licenca Exemplos.carteira 3 1 Exemplos.um_dia))
    3 2 Exemplos.dez_minutos
  = LicencaService.renovar_licenca Exemplos.carteira 3 (1 + 2)
      Exemplos.dez_minutos.
Proof.
  exact (proj1 (renovar_licenca_adds_up Exemplos.carteira 3
                  Exemplos.licenca_cinco_dias 1 2 Exemplos.um_dia
                  Exemplos.dez_minutos eq_refl)
               (6 * Exemplos.um_dia) eq_refl).
Defined.

(** * Repeated calls *)

(** A licence that is past its date is never served, and every attempt
    requests one more licence-expired alert: [n] activations in a row of a
    licence that is not Active, and [n] verifications in a row of any
    licence, each leave [n] alerts, the licence marked Expired and its use
    count as it was.  The activations all return [False]. *)
Theorem expired_licence_alerts_on_every_attempt
    (s : Sistema) (chave : string) (maquina_id : option Z) (now : datetime)
    (id : Z) (l : Licenca.t) (n : nat)
    (Hrow : licencas s !! id = Some l)
    (Hchave : Licenca.chave_licenca l = chave)
    (Huniq : chave_identifica s chave id)
    (Hexp : LicencaService.expirada_em now l = true) :
  let tentar s := snd (LicencaService.ativar_licenca s chave maquina_id now) in
  let consultar s := snd (LicencaService.verificar_licenca s chave now) in
  let depois s' :=
    alertas s' = alertas s ++ replicate n (licenca_expirada id) /\
    exists l', licencas s' !! id = Some l' /\
               Licenca.usos_atuais l' = Licenca.usos_atuais l /\
               ((0 < n)%nat -> Licenca.status l' = EXPIRADA) in
  (Licenca.status l <> ATIVA ->
     depois (repetir n tentar s) /\
     fst (LicencaService.ativar_licenca (repetir n tentar s) chave maquina_id
            now) = false) /\
  depois (repetir n consultar s).
Proof.
  intros tentar consultar depois.
  set (P (ativa_nao : bool) (k : option nat) (s' : Sistema) :=
         exists l', licencas s' !! id = Some l' /\
                    Licenca.chave_licenca l' = chave /\
                    LicencaService.expirada_em now l' = true /\
                    Licenca.usos_atuais l' = Licenca.usos_atuais l /\
                    (ativa_nao = true -> Licenca.status l' <> ATIVA) /\
                    (k = None -> Licenca.status l' = EXPIRADA) /\
                    chave_identifica s' chave id).
  assert (Hwrite : forall b k s1 l1,
            licencas s1 !! id = Some l1 -> Licenca.chave_licenca l1 = chave ->
            LicencaService.expirada_em now l1 = true ->
            Licenca.usos_atuais l1 = Licenca.usos_atuais l ->
            chave_identifica s1 chave id ->
            P b k (enviar_alerta (licenca_expirada id)
                     (with_licencas
                        (<[id := Licenca.with_status EXPIRADA l1]> (licencas s1))
                        s1))).
  { intros b k s1 l1 Hrow1 Hch1 Hexp1 Hus1 Hun1.
    exists (Licenca.with_status EXPIRADA l1). split_and!; try done.
    - apply lookup_insert_eq.
    - by eapply chave_identifica_insert. }
  assert (Htentar : forall k s1, P true k s1 ->
            P true None (tentar s1) /\
            alertas (tentar s1) = alertas s1 ++ [licenca_expirada id]).
  { intros k s1 (l1 & Hrow1 & Hch1 & Hexp1 & Hus1 & Hst1 & _ & Hun1).
    subst tentar. cbv beta.
    rewrite (ativar_licenca_expirou s1 chave maquina_id now id l1);
      [|by apply query_por_chave|by apply Hst1|done].
    split; [|done]. by apply Hwrite. }
  assert (Hconsultar : forall k s1, P false k s1 ->
            P false None (consultar s1) /\
            alertas (consultar s1) = alertas s1 ++ [licenca_expirada id]).
  { intros k s1 (l1 & Hrow1 & Hch1 & Hexp1 & Hus1 & _ & _ & Hun1).
    subst consultar. cbv beta. unfold LicencaService.verificar_licenca.
    rewrite (query_por_chave s1 chave id l1 Hrow1 Hch1 Hun1), Hexp1.
    split; [|done]. by apply Hwrite. }
  assert (Hfim : forall b (f : Sistema -> Sistema),
            (forall k s1, P b k s1 ->
               P b None (f s1) /\
               alertas (f s1) = alertas s1 ++ [licenca_expirada id]) ->
            P b (Some 0%nat) s ->
            depois (repetir n f s) /\
            exists k, P b k (repetir n f s)).
  { intros b f Hstep Hs.
    assert (Hiter : forall m,
              (exists k, P b k (repetir m f s) /\
                         ((0 < m)%nat -> k = None)) /\
              alertas (repetir m f s)
                = alertas s ++ replicate m (licenca_expirada id)).
    { induction m as [|m [(k & HP & Hk) Ha]]; simpl.
      - split; [|by rewrite app_nil_r]. exists (Some 0%nat).
        split; [done|lia].
      - change (Nat.iter m f s) with (repetir m f s) in *.
        destruct (Hstep k _ HP) as [HP' Ha']. split.
        + exists None. by split.
        + rewrite Ha', Ha, <- app_assoc. f_equal.
          change (licenca_expirada id :: replicate m (licenca_expirada id))
            with (replicate (S m) (licenca_expirada id)).
          by rewrite replicate_S_end. }
    destruct (Hiter n) as [(k & HP & Hk) Ha]. split; [|by exists k].
    split; [done|].
    destruct HP as (l' & Hrow' & _ & _ & Hus' & _ & Hst' & _).
    exists l'. split_and!; try done. intros Hn. apply Hst'. by apply Hk. }
  split.
  - intros Hst.
    destruct (Hfim true tentar Htentar) as [Hdepois (k & HP)].
    { exists l. split_and!; done. }
    split; [done|].
    destruct HP as (l1 & Hrow1 & Hch1 & Hexp1 & _ & Hst1 & _ & Hun1).
    rewrite (ativar_licenca_expirou _ chave maquina_id now id l1);
      [done|by apply query_por_chave|by apply Hst1|done].
  - destruct (Hfim false consultar Hconsultar) as [Hdepois _]; [|done].
    exists l. split_and!; done.
Qed.

Lemma expired_licence_alerts_on_every_attempt_witness :
  alertas (repetir 3
             (fun s => snd (LicencaService.verificar_licenca s "LIC-AAAA"
                              Exemplos.um_dia))
             Exemplos.carteira)
  = alertas Exemplos.carteira ++ replicate 3 (licenca_expirada 1).
Proof.
  refine (proj1 (proj2 (expired_licence_alerts_on_every_attempt
                          Exemplos.carteira "LIC-AAAA" None Exemplos.um_dia 1
                          Exemplos.licenca_cancelada 3 eq_refl eq_refl _
                          eq_refl))).
  intros j l Hj Hk. unique_row Hj Hk.
Defined.

(** * Subscriptions and the periodic tasks *)

(** [n] renewals of a subscription that has an end date move the end by
    [n] cycles and copy it to the expiration date of the client, if the
    client exists.  The renewal looks neither at the status of the
    subscription nor at its automatic-renewal flag, requests no alert and
    leaves both fields as they were. *)
Theorem renovar_assinatura_n_times
    (s : Sistema) (id : Z) (a : Assinatura.t) (d : datetime) (n : nat)
    (Hrow : assinaturas s !! id = Some a)
    (Hd : Assinatura.data_fim a = Some d) :
  let renovar s :=
    match AssinaturaService.renovar_assinatura s id with
    | Retorna (_, s') => s'
    | Levanta _ => s
    end in
  let fim :=
    d + Z.of_nat n *
        timedelta_days (AssinaturaService.dias_do_ciclo (Assinatura.ciclo a)) in
  assinaturas (repetir n renovar s) !! id
    = Some (Assinatura.with_data_fim (Some fim) a) /\
  ((0 < n)%nat ->
   is_Some (clientes s !! Assinatura.cliente_id a) ->
   clientes (repetir n renovar s) !! Assinatura.cliente_id a
     = Some (Cliente.mk (Some fim))) /\
  alertas (repetir n renovar s) = alertas s.
Proof.
  intros renovar fim. subst fim.
  set (ciclo := timedelta_days
                  (AssinaturaService.dias_do_ciclo (Assinatura.ciclo a))).
  assert (Hiter : forall m,
            assinaturas (repetir m renovar s) !! id
              = Some (Assinatura.with_data_fim (Some (d + Z.of_nat m * ciclo)) a) /\
            (is_Some (clientes s !! Assinatura.cliente_id a) ->
             is_Some (clientes (repetir m renovar s)
                        !! Assinatura.cliente_id a) /\
             ((0 < m)%nat ->
              clientes (repetir m renovar s) !! Assinatura.cliente_id a
                = Some (Cliente.mk (Some (d + Z.of_nat m * ciclo))))) /\
            alertas (repetir m renovar s) = alertas s).
  { induction m as [|m (IHa & IHc & IHal)].
    - simpl. split_and!; [|intros Hc; split; [done|lia]|done].
      rewrite Hrow, ?Z.mul_0_l, ?Z.add_0_r. f_equal.
      clear -Hd. destruct a as [? ? ? ? fim ? ?]. simpl in Hd. by subst fim.
    - simpl. change (Nat.iter m renovar s) with (repetir m renovar s).
      set (sm := repetir m renovar s) in *.
      set (am := Assinatura.with_data_fim (Some (d + Z.of_nat m * ciclo)) a)
        in *.
      destruct (renovar_assinatura_ok sm id am (d + Z.of_nat m * ciclo) IHa
                  eq_refl)
        as (s1 & Hcall & Has1 & Hcl1 & Hal1 & _).
      assert (Hren : renovar sm = s1)
        by (unfold renovar at 1; cbv beta; by rewrite Hcall).
      rewrite Hren.
      assert (Hfim : d + Z.of_nat m * ciclo + ciclo
                     = d + Z.of_nat (S m) * ciclo) by lia.
      split_and!.
      + rewrite Has1, lookup_insert_eq.
        rewrite (renovada_with_date am (d + Z.of_nat m * ciclo) eq_refl).
        subst am. unfold Assinatura.with_data_fim. simpl. fold ciclo.
        by rewrite Hfim.
      + intros Hc. destruct (IHc Hc) as [[c Hcm] _].
        rewrite Hcl1. subst am. simpl in *. rewrite Hcm. fold ciclo.
        rewrite lookup_insert_eq. unfold Cliente.with_data_expiracao.
        rewrite Hfim. split; [by eexists|done].
      + by rewrite Hal1. }
  destruct (Hiter n) as (Ha & Hc & Hal). split_and!; [done| |done].
  intros Hn Hcl. by apply Hc.
Qed.

Lemma renovar_assinatura_n_times_witness :
  assinaturas
    (repetir 2
       (fun s => match AssinaturaService.renovar_assinatura s 1 with
                 | Retorna (_, s') => s'
                 | Levanta _ => s
                 end)
       Exemplos.clientela) !! 1
  = Some (Assinatura.with_data_fim (Some (90 * Exemplos.um_dia))
            Exemplos.assinatura_mensal).
Proof.
  exact (proj1 (renovar_assinatura_n_times Exemplos.clientela 1
                  Exemplos.assinatura_mensal (30 * Exemplos.um_dia) 2
                  eq_refl eq_refl)).
Defined.

Lemma verificar_renovacoes_tables (s : Sistema) (now : datetime) :
  let r := AssinaturaService.verificar_renovacoes s now in
  fst r = query_all (AssinaturaService.filtro_renovacoes
                       (now + timedelta_days 3) now) (assinaturas s) /\
  alertas (snd r) =
    alertas s ++ List.map (fun x => pagamento_pendente (fst x)) (fst r) /\
  assinaturas (snd r) = assinaturas s /\ clientes (snd r) = clientes s /\
  licencas (snd r) = licencas s /\ maquinas (snd r) = maquinas s.
Proof.
  unfold AssinaturaService.verificar_renovacoes. cbn [fst snd].
  split; [done|]. rewrite fold_enviar_map.
  destruct (alertas_fold_enviar
              (List.map (fun a : Z * Assinatura.t => pagamento_pendente (fst a))
                 (query_all (AssinaturaService.filtro_renovacoes
                               (now + timedelta_days 3) now) (assinaturas s)))
              s) as (Hal & Hcl & Hmq & _ & Hli & Has & _).
  by rewrite Hal, Hcl, Hmq, Hli, Has.
Qed.

(** A subscription that the renewal query selects is no longer selected once
    it has been renewed: its end has moved by at least thirty days, past the
    three-day window of the query.  The renewal changes nothing in the
    selection of the other subscriptions. *)
Theorem renovar_assinatura_leaves_the_renewal_window
    (s : Sistema) (now : datetime) (id : Z) (a : Assinatura.t)
    (Hsel : (id, a) ∈ fst (AssinaturaService.verificar_renovacoes s now)) :
  exists s1,
    AssinaturaService.renovar_assinatura s id = Retorna (true, s1) /\
    (forall a', (id, a') ∉ fst (AssinaturaService.verificar_renovacoes s1 now)) /\
    (forall j b, j <> id ->
       (j, b) ∈ fst (AssinaturaService.verificar_renovacoes s1 now) <->
       (j, b) ∈ fst (AssinaturaService.verificar_renovacoes s now)).
Proof.
  set (lim := now + timedelta_days 3).
  destruct (verificar_renovacoes_tables s now) as (Hfst & _).
  fold lim in Hfst. rewrite Hfst in Hsel.
  apply elem_of_query_all in Hsel as [Hrow Hp].
  apply filtro_renovacoes_spec in Hp as (_ & _ & d & Hd & Hwin).
  destruct (renovar_assinatura_ok s id a d Hrow Hd)
    as (s1 & Hcall & Has1 & _).
  exists s1. split; [exact Hcall|].
  destruct (verificar_renovacoes_tables s1 now) as (Hfst1 & _).
  fold lim in Hfst1. rewrite Hfst1, Hfst, Has1. split.
  - intros a' Hin. apply elem_of_query_all in Hin as [Hrow' Hp'].
    rewrite lookup_insert_eq in Hrow'. injection Hrow' as <-.
    apply filtro_renovacoes_spec in Hp' as (_ & _ & d' & Hd' & Hwin').
    rewrite (renovada_with_date a d Hd) in Hd'. simpl in Hd'.
    injection Hd' as <-. subst lim. unfold timedelta_days in *.
    assert (30 <= AssinaturaService.dias_do_ciclo (Assinatura.ciclo a))
      by (destruct (Assinatura.ciclo a); simpl; lia).
    unfold microseconds_per_day in *. nia.
  - intros j b Hne. rewrite !elem_of_query_all.
    by rewrite lookup_insert_ne.
Qed.

Lemma renovar_assinatura_leaves_the_renewal_window_witness :
  exists s1,
    AssinaturaService.renovar_assinatura Exemplos.clientela 1
      = Retorna (true, s1) /\
    (1, renovada Exemplos.assinatura_mensal)
      ∉ fst (AssinaturaService.verificar_renovacoes s1
               (28 * Exemplos.um_dia)).
Proof.
  destruct (renovar_assinatura_leaves_the_renewal_window Exemplos.clientela
              (28 * Exemplos.um_dia) 1 Exemplos.assinatura_mensal)
    as (s1 & Hcall & Hout & _).
  - destruct (verificar_renovacoes_tables Exemplos.clientela
                (28 * Exemplos.um_dia)) as (Hfst & _).
    rewrite Hfst. apply elem_of_query_all. split; reflexivity.
  - exists s1. split; [exact Hcall|apply Hout].
Defined.

Lemma concat_replicate_comm {A} (n : nat) (x : list A) :
  concat (replicate n x) ++ x = x ++ concat (replicate n x).
Proof.
  induction n as [|n IH]; simpl; [by rewrite app_nil_r|].
  by rewrite <- app_assoc, IH.
Qed.

(** The renewal query keeps no record of what it has alerted: it writes no
    table, so each of [n] calls at the same instant selects the same
    subscriptions and requests the same payment-pending alerts again. *)
Theorem verificar_renovacoes_repeats_its_alerts
    (s : Sistema) (now : datetime) (n : nat) :
  let consultar s := snd (AssinaturaService.verificar_renovacoes s now) in
  let selecionadas := fst (AssinaturaService.verificar_renovacoes s now) in
  let devidos :=
    List.map (fun x : Z * Assinatura.t => pagamento_pendente (fst x))
             selecionadas in
  fst (AssinaturaService.verificar_renovacoes (repetir n consultar s) now)
    = selecionadas /\
  alertas (repetir n consultar s) = alertas s ++ concat (replicate n devidos) /\
  assinaturas (repetir n consultar s) = assinaturas s /\
  clientes (repetir n consultar s) = clientes s /\
  licencas (repetir n consultar s) = licencas s /\
  maquinas (repetir n consultar s) = maquinas s.
Proof.
  intros consultar selecionadas devidos.
  assert (Hsame : forall s1, assinaturas s1 = assinaturas s ->
            fst (AssinaturaService.verificar_renovacoes s1 now)
              = selecionadas).
  { intros s1 Has. subst selecionadas.
    destruct (verificar_renovacoes_tables s1 now) as (-> & _).
    destruct (verificar_renovacoes_tables s now) as (-> & _).
    by rewrite Has. }
  assert (Hiter : alertas (repetir n consultar s)
                    = alertas s ++ concat (replicate n devidos) /\
                  assinaturas (repetir n consultar s) = assinaturas s /\
                  clientes (repetir n consultar s) = clientes s /\
                  licencas (repetir n consultar s) = licencas s /\
                  maquinas (repetir n consultar s) = maquinas s).
  { induction n as [|n (IHa & IHs & IHc & IHl & IHm)]; simpl.
    - by rewrite app_nil_r.
    - change (Nat.iter n consultar s) with (repetir n consultar s).
      unfold consultar at 1 3 5 7 9.
      destruct (verificar_renovacoes_tables (repetir n consultar s) now)
        as (_ & Hal & Has & Hcl & Hli & Hmq).
      rewrite Hal, Has, Hcl, Hli, Hmq, (Hsame _ IHs), IHa.
      split_and!; try done.
      fold devidos. by rewrite <- app_assoc, concat_replicate_comm. }
  destruct Hiter as (Ha & Hs & Hc & Hl & Hm).
  split; [by apply Hsame|]. by split_and!.
Qed.

(** ** The scheduled device sweep *)

(** The scheduled task that is to mark silent devices Offline never sweeps:
    its first statement, [db = next(get_db())], raises [TypeError], which
    the task logs, and the system is left as it was.  Ten minutes into the
    example the sweep of the service would mark device 3 Offline; after the
    task it is still Online and no alert has been requested. *)
Theorem monitorar_maquinas_offline_never_sweeps :
  (forall s now, MonitoramentoService.monitorar_maquinas_offline s now = s) /\
  (let now := Exemplos.dez_minutos in
   let s' := MonitoramentoService.monitorar_maquinas_offline
               Exemplos.parque now in
   Maquina.status <$>
     maquinas (snd (MaquinaService.verificar_maquinas_offline
                      Exemplos.parque 5 now)) !! 3 = Some OFFLINE /\
   Maquina.status <$> maquinas s' !! 3 = Some ONLINE /\
   alertas s' = []).
Proof.
  assert (Htask : forall s now,
            MonitoramentoService.monitorar_maquinas_offline s now = s).
  { intros s now. unfold MonitoramentoService.monitorar_maquinas_offline.
    by rewrite next_get_db. }
  split; [exact Htask|]. cbv zeta. rewrite Htask. split_and!.
  - rewrite verificar_maquinas_offline_lookup. reflexivity.
  - reflexivity.
  - reflexivity.
Qed.

(** * The format of a licence key *)

Section Chaves.

#[local] Open Scope nat_scope.

Context {A : Type} `{EqDecision A}.
Implicit Types (sep : A) (l key : list A).

Lemma join_cons sep (p : list A) (resto : list (list A)) :
  resto <> [] ->
  Security.join sep (p :: resto) = p ++ sep :: Security.join sep resto.
Proof. by destruct resto. Qed.

Lemma formatted_key_chunks sep key :
  Security.formatted_key sep key =
  Security.join sep
    (List.map (fun k => take 5 (drop (5 * k) key))
              (seq 0 ((length key + 4) / 5))).
Proof.
  unfold Security.formatted_key, Security.range_step_5, Security.slice.
  rewrite List.map_map. f_equal. apply List.map_ext. intros k.
  by replace (5 * k + 5 - 5 * k) with 5 by lia.
Qed.

Lemma formatted_key_small sep key :
  length key <= 5 -> Security.formatted_key sep key = key.
Proof.
  intros Hlen. rewrite formatted_key_chunks.
  destruct key as [|? [|? [|? [|? [|? [|? key]]]]]]; simpl in Hlen;
    try lia; reflexivity.
Qed.

Lemma groups_step (n : nat) :
  5 < n -> (n + 4) / 5 = S ((n - 5 + 4) / 5) /\ 0 < (n - 5 + 4) / 5.
Proof.
  intros Hn. split.
  - replace (n + 4) with ((n - 5 + 4) + 1 * 5) by lia.
    rewrite Nat.div_add by lia. lia.
  - apply Nat.div_str_pos. lia.
Qed.

Lemma formatted_key_step sep key :
  5 < length key ->
  Security.formatted_key sep key =
  take 5 key ++ sep :: Security.formatted_key sep (drop 5 key).
Proof.
  intros Hlen. rewrite !formatted_key_chunks, length_drop.
  destruct (groups_step (length key) Hlen) as [Hm HM]. rewrite Hm.
  set (M := (length key - 5 + 4) / 5) in *.
  cbn [seq List.map]. rewrite <- seq_shift, List.map_map, join_cons.
  - rewrite Nat.mul_0_r, drop_0. f_equal. f_equal. f_equal.
    apply List.map_ext. intros k. rewrite drop_drop. do 2 f_equal. lia.
  - destruct M; [lia|]. discriminate.
Qed.

(** Keys are handled five characters at a time. *)
Lemma key_ind (P : list A -> Prop) :
  (forall key, length key <= 5 -> P key) ->
  (forall key, 5 < length key -> P (drop 5 key) -> P key) ->
  forall key, P key.
Proof.
  intros Hsmall Hstep.
  assert (Hall : forall N key, length key <= N -> P key).
  { induction N as [|N IH]; intros key Hlen.
    - apply Hsmall. lia.
    - destruct (le_gt_dec (length key) 5) as [Hle|Hgt].
      + by apply Hsmall.
      + apply Hstep; [lia|]. apply IH. rewrite length_drop. lia. }
  intros key. by apply (Hall (length key)).
Qed.

Lemma filter_all (P : A -> Prop) `{forall x, Decision (P x)} l :
  Forall P l -> filter P l = l.
Proof.
  induction 1 as [|x l Hx _ IH]; [done|].
  by rewrite filter_cons_True, IH.
Qed.

Lemma formatted_key_filter sep key :
  Forall (fun c => c <> sep) key ->
  filter (fun c => c <> sep) (Security.formatted_key sep key) = key.
Proof.
  revert key. apply (key_ind (fun key => Forall _ key -> filter _ _ = key)).
  - intros key Hlen Hall. rewrite formatted_key_small by done.
    by apply filter_all.
  - intros key Hlen IH Hall. rewrite formatted_key_step by done.
    rewrite filter_app, filter_cons_False by (intros Hne; by apply Hne).
    rewrite IH by (by apply Forall_drop).
    rewrite filter_all by (by apply Forall_take).
    apply take_drop.
Qed.

Lemma formatted_key_length sep key :
  length (Security.formatted_key sep key) =
  length key + ((length key + 4) / 5 - 1).
Proof.
  revert key. apply (key_ind (fun key => length _ = _)).
  - intros key Hlen. rewrite formatted_key_small by done.
    assert ((length key + 4) / 5 < 2)
      by (apply Nat.Div0.div_lt_upper_bound; lia).
    lia.
  - intros key Hlen IH. rewrite formatted_key_step by done.
    rewrite length_app, length_take_le by lia. cbn [length]. rewrite IH.
    rewrite length_drop.
    destruct (groups_step (length key) Hlen) as [Hm HM]. lia.
Qed.

Lemma formatted_key_lookup sep key (i : nat) :
  i < length (Security.formatted_key sep key) ->
  Security.formatted_key sep key !! i =
  if decide (i mod 6 = 5) then Some sep else key !! (i - i / 6).
Proof.
  revert key i.
  apply (key_ind (fun key => forall i, i < length _ -> _ !! i = _)).
  - intros key Hlen i. rewrite formatted_key_small by done. intros Hi.
    rewrite Nat.mod_small, Nat.div_small by lia.
    rewrite decide_False by lia. by rewrite Nat.sub_0_r.
  - intros key Hlen IH i. rewrite formatted_key_step by done.
    rewrite length_app, length_take_le by lia. cbn [length]. intros Hi.
    destruct (decide (i < 5)) as [Hlt|Hge].
    + rewrite lookup_app_l by (rewrite length_take_le; lia).
      rewrite lookup_take_lt by done.
      rewrite Nat.mod_small, Nat.div_small by lia.
      rewrite decide_False by lia. by rewrite Nat.sub_0_r.
    + rewrite lookup_app_r by (rewrite length_take_le; lia).
      rewrite length_take_le by lia.
      destruct (decide (i = 5)) as [->|Hne]; [done|].
      assert (Hi6 : i = (i - 6) + 1 * 6) by lia.
      set (j := i - 6) in *. clearbody j. subst i.
      replace (j + 1 * 6 - 5) with (S j) by lia. cbn [lookup list_lookup].
      rewrite IH by lia.
      rewrite Nat.Div0.mod_add, Nat.div_add by lia.
      destruct (decide (j mod 6 = 5)); [done|].
      rewrite lookup_drop. f_equal.
      pose proof (Nat.div_mod_eq j 6). lia.
Qed.

End Chaves.

(** A generated key is the drawn characters in groups of five with a hyphen
    between two groups: counting from 0, the positions 5, 11, 17, ... hold
    a hyphen and the other positions hold the draws in order.  A key of
    [length] characters has one hyphen less than it has groups, and as the
    alphabet has no hyphen, removing the hyphens gives the drawn characters
    back. *)
Theorem generate_license_key_format
    (length : nat) (choice : nat -> Strings.Ascii.ascii)
    (Halphabet : forall i, choice i ∈ Security.alphabet) :
  let hifen := Strings.Ascii.ascii_of_nat 45 in
  let key := List.map choice (seq 0 length) in
  let formatted := Security.generate_license_key length choice in
  List.length formatted = (length + ((length + 4) / 5 - 1))%nat /\
  (forall i : nat, (i < List.length formatted)%nat ->
     formatted !! i =
     Some (if decide ((i mod 6)%nat = 5%nat) then hifen
           else choice (i - i / 6)%nat)) /\
  filter (fun c => c <> hifen) formatted = key /\
  Forall (fun c => c ∈ hifen :: Security.alphabet) formatted.
Proof.
  intros hifen key formatted.
  assert (Hlen : List.length key = length)
    by (subst key; by rewrite length_map, length_seq).
  assert (Hkey : forall k x, key !! k = Some x -> x = choice k).
  { intros k x Hk. subst key. rewrite list_lookup_fmap in Hk.
    destruct (seq 0 length !! k) as [k'|] eqn:Hk'; [|discriminate].
    apply lookup_seq in Hk' as [-> _]. simpl in Hk. congruence. }
  assert (Hno : Forall (fun c => c <> hifen) key).
  { apply Forall_forall. intros c Hc. subst key.
    apply list_elem_of_fmap in Hc as (k & -> & _).
    intros Heq. pose proof (Halphabet k) as Hin. rewrite Heq in Hin.
    clear -Hin. vm_compute in Hin.
    repeat (apply elem_of_cons in Hin as [Hin|Hin]; [discriminate Hin|]).
    by apply elem_of_nil in Hin. }
  assert (Hpos : forall i : nat, (i < List.length formatted)%nat ->
            formatted !! i =
            Some (if decide ((i mod 6)%nat = 5%nat) then hifen
                  else choice (i - i / 6)%nat)).
  { intros i Hi. subst formatted. unfold Security.generate_license_key in *.
    fold key in Hi |- *.
    pose proof (lookup_lt_is_Some_2 _ _ Hi) as [x Hx].
    rewrite (formatted_key_lookup _ key i Hi) in Hx |- *.
    destruct (decide ((i mod 6)%nat = 5%nat)); [done|].
    by rewrite Hx, (Hkey _ _ Hx). }
  split_and!.
  - subst formatted. unfold Security.generate_license_key. fold key.
    by rewrite formatted_key_length, Hlen.
  - exact Hpos.
  - subst formatted. unfold Security.generate_license_key. fold key.
    by apply formatted_key_filter.
  - apply Forall_lookup. intros i c Hc.
    rewrite (Hpos i) in Hc by (by eapply lookup_lt_Some).
    injection Hc as <-. destruct (decide _); [by left|right; apply Halphabet].
Qed.

Lemma generate_license_key_format_witness :
  List.length
    (Security.generate_license_key 25
       (fun _ => Strings.Ascii.ascii_of_nat 65)) = 29%nat.
Proof.
  refine (proj1 (generate_license_key_format 25
                   (fun _ => Strings.Ascii.ascii_of_nat 65) _)).
  intros _. by left.
Defined.
